(** * VertexDataManager: the buffer translation process

    A shallow embedding of
    [src/libANGLE/renderer/d3d/VertexDataManager.cpp]: the helpers
    [ElementsInBuffer] and [StreamingBufferElementCount], and the
    manager's [prepareVertexData] with the procedures it calls.

    Machine integers are [Z] with the wrap-around of the C++ types
    written out ([u32] for [unsigned int], [i32] for [int]).  The
    manager, the heap of [BufferD3D] objects and the calls made to the
    destination buffers are one explicit state, threaded through every
    procedure. *)

From Stdlib Require Import ZArith Lia List.
From stdpp Require Import base option list gmap.

Local Open Scope Z_scope.

(** ** Machine arithmetic *)

Definition u32 (z : Z) : Z := z mod 2 ^ 32.

Definition i32 (z : Z) : Z :=
  let w := u32 z in if w <? 2 ^ 31 then w else w - 2 ^ 32.

(** [std::numeric_limits<int>::max()] *)
Definition INT_MAX : Z := 2 ^ 31 - 1.

(** ** The GL front end: [namespace gl] *)

Module gl.

Definition GLenum := Z.

Definition GL_NO_ERROR : GLenum := 0.
Definition GL_OUT_OF_MEMORY : GLenum := 1285.   (* 0x0505 *)
Definition GL_FLOAT : GLenum := 5126.           (* 0x1406 *)

(** [gl::Error]: an error code; [isError] is "not GL_NO_ERROR". *)
Record Error := MkError { getCode : GLenum }.

Definition isError (e : Error) : bool := negb (getCode e =? GL_NO_ERROR).

(** Modelled from the spec: the attribute descriptor, declared in
    libANGLE/VertexAttribute.h, which is not among the sources.  The
    fields are the ones VertexDataManager.cpp reads; [stride],
    [offset], [size] and [divisor] are unsigned 32-bit ([uint] in the
    spec's data model), [pointer] is a client address (0 is null) and
    [buffer] the bound server buffer, if any. *)
Record VertexAttribute := MkVertexAttribute {
  enabled : bool;
  type : GLenum;
  size : Z;
  normalized : bool;
  stride : Z;
  pointer : Z;
  offset : Z;
  buffer : option nat;
  divisor : Z
}.

(** Modelled from the spec: the constant substituted for a disabled
    slot, four raw 32-bit components tagged by a type.  Equality is
    exact, on the bits and the tag. *)
Record VertexAttribCurrentValueData := MkCurrentValue {
  FloatValues : list Z;
  Type_ : GLenum
}.

(** What [prepareVertexData] reads of [gl::State]: the vertex array's
    attributes, the bound program's semantic index of a slot (-1 when
    the program does not consume it) and the slot's current value. *)
Record State := MkState {
  getVertexAttributes : list VertexAttribute;
  getSemanticIndex : nat -> Z;
  getVertexAttribCurrentValue : nat -> VertexAttribCurrentValueData
}.

#[global] Instance Error_eq_dec : EqDecision Error.
Proof. solve_decision. Defined.

#[global] Instance VertexAttribute_eq_dec : EqDecision VertexAttribute.
Proof. solve_decision. Defined.

#[global] Instance VertexAttribCurrentValueData_eq_dec :
  EqDecision VertexAttribCurrentValueData.
Proof. solve_decision. Defined.

End gl.

(** ** The D3D back end: [namespace rx] *)

Module rx.

(** [enum { INITIAL_STREAM_BUFFER_SIZE = 1024*1024 }] and
    [enum { CONSTANT_VERTEX_BUFFER_SIZE = 4096 }] *)
Definition INITIAL_STREAM_BUFFER_SIZE : Z := 1024 * 1024.
Definition CONSTANT_VERTEX_BUFFER_SIZE : Z := 4096.

(** The bit pattern of [std::numeric_limits<float>::quiet_NaN()]. *)
Definition quiet_NaN : Z := 2143289344.   (* 0x7FC00000 *)

(** Constants and tables of the GL front end that are not among the
    sources are parameters of the development: the number of attribute
    slots and the element size of an attribute (a table over its
    component type). *)
Class FrontEnd := {
  MAX_VERTEX_ATTRIBS : nat;
  ComputeVertexAttributeTypeSize : gl.VertexAttribute -> Z
}.

(** Modelled from the spec: one entry of a persistent cache, the
    signature of the attribute that was converted (format, stride and
    offset within the stride) and the byte offset of the conversion. *)
Record VertexElement := MkVertexElement {
  el_type : gl.GLenum;
  el_size : Z;
  el_stride : Z;
  el_normalized : bool;
  attributeOffset : Z;
  streamOffset : Z
}.

(** A persistent cache: a destination buffer and what it holds. *)
Record StaticVertexBufferInterface (VB : Type) := MkStatic {
  sVertexBuffer : VB;
  mCache : list VertexElement
}.
Arguments MkStatic {VB}.
Arguments sVertexBuffer {VB}.
Arguments mCache {VB}.

(** A server buffer's back end: its byte size, its serial, its
    lazily-created persistent cache and its usage counter. *)
Record BufferD3D (VB : Type) := MkBufferD3D {
  getSize : Z;
  bufferSerial : Z;
  getStaticVertexBuffer : option (StaticVertexBufferInterface VB);
  mUnmodifiedDataUse : Z
}.
Arguments MkBufferD3D {VB}.
Arguments getSize {VB}.
Arguments bufferSerial {VB}.
Arguments getStaticVertexBuffer {VB}.
Arguments mUnmodifiedDataUse {VB}.

(** The destination buffers (VertexBuffer.h, BufferD3D.h) are
    collaborators outside the sources.  Their primitives are the
    operations of an interface over the buffer state [VB]; a primitive
    that can fail returns its [gl::Error] next to the new state. *)
Class VertexBufferInterface (VB : Type) := {
  newStreamingVertexBufferInterface : Z -> VB;
  newStaticVertexBufferInterface : VB;
  getSerial : VB -> Z;
  getBufferSize : VB -> Z;
  directStoragePossible :
    VB -> gl.VertexAttribute -> gl.VertexAttribCurrentValueData -> bool;
  getSpaceRequired : VB -> gl.VertexAttribute -> Z -> Z -> gl.Error * Z;
  reserveVertexSpace : VB -> gl.VertexAttribute -> Z -> Z -> gl.Error * VB;
  storeVertexAttributes :
    VB -> gl.VertexAttribute -> gl.VertexAttribCurrentValueData ->
    Z -> Z -> Z -> gl.Error * VB * Z;
  hintUnmapResource : VB -> VB;
  promoteStaticUsage : BufferD3D VB -> Z -> BufferD3D VB
}.

(** Which destination buffer a call or a record refers to. *)
Inductive BufferRef :=
| StreamingRef
| StaticRef (b : nat)
| CurrentValueRef (slot : nat).

(** The calls made to the collaborators, in order. *)
Inductive Event :=
| HintUnmap (r : BufferRef)
| Reserve (r : BufferRef) (attrib : gl.VertexAttribute) (count instances : Z)
| Store (r : BufferRef) (attrib : gl.VertexAttribute)
    (currentValue : gl.VertexAttribCurrentValueData) (start count instances : Z)
| Invalidate (b : nat)
| Promote (b : nat) (dataSize : Z).

(** The physical writes among the calls made. *)
Definition isStore (e : Event) : bool :=
  match e with
  | Store _ _ _ _ _ _ => true
  | _ => false
  end.

Definition physicalWrites (l : list Event) : nat :=
  length (List.filter isStore l).

(** What stops a procedure short of a [return]: an [ASSERT] that fails
    (assertions are taken as fatal; a build that compiles them out is not
    modelled), a null pointer that is dereferenced, an index outside
    its array or an integer division by zero. *)
Inductive Fault :=
| AssertSource          (* ASSERT(buffer || attrib.pointer) *)
| AssertStreamingCount  (* ASSERT(!bufferImpl || ElementsInBuffer(..) >= totalCount) *)
| NullPointer
| OutOfBounds
| DivideByZero.         (* ... % stride, ... / stride with a stride of 0 *)

Inductive Outcome :=
| Return (e : gl.Error)
| Abort (f : Fault).

#[global] Instance BufferRef_eq_dec : EqDecision BufferRef.
Proof. solve_decision. Defined.

#[global] Instance Event_eq_dec : EqDecision Event.
Proof. solve_decision. Defined.

Module TranslatedAttribute.
Record t := Mk {
  active : bool;
  attribute : gl.VertexAttribute;
  currentValueType : gl.GLenum;
  offset : Z;
  stride : Z;
  vertexBuffer : option BufferRef;
  storage : option nat;
  serial : Z;
  divisor : Z
}.
End TranslatedAttribute.

Module CurrentValueState.
Record t (VB : Type) := Mk {
  buffer : option VB;
  data : gl.VertexAttribCurrentValueData;
  offset : Z
}.
Arguments Mk {VB}.
Arguments buffer {VB}.
Arguments data {VB}.
Arguments offset {VB}.
End CurrentValueState.

(** [VertexDataManager::CurrentValueState::CurrentValueState()] *)
Definition CurrentValueState_new {VB : Type} : CurrentValueState.t VB :=
  CurrentValueState.Mk None
    (gl.MkCurrentValue [quiet_NaN; quiet_NaN; quiet_NaN; quiet_NaN] gl.GL_FLOAT)
    0.

(** The manager's members, the heap of server buffers its attributes
    point into and the calls made so far. *)
Record World (VB : Type) := MkWorld {
  mStreamingBuffer : option VB;
  mCurrentValueCache : list (CurrentValueState.t VB);
  buffers : gmap nat (BufferD3D VB);
  calls : list Event
}.
Arguments MkWorld {VB}.
Arguments mStreamingBuffer {VB}.
Arguments mCurrentValueCache {VB}.
Arguments buffers {VB}.
Arguments calls {VB}.

(** A loop body either goes on to the next index or leaves the
    procedure. *)
Inductive Ctl (S : Type) :=
| Next (s : S)
| Exit (r : Outcome) (s : S).
Arguments Next {S}.
Arguments Exit {S}.

Fixpoint forEach {S : Type} (body : nat -> S -> Ctl S) (indices : list nat)
    (s : S) : Ctl S :=
  match indices with
  | [] => Next s
  | i :: rest =>
      match body i s with
      | Next s => forEach body rest s
      | Exit r s => Exit r s
      end
  end.

Definition stateOf {S : Type} (c : Ctl S) : S :=
  match c with
  | Next s => s
  | Exit _ s => s
  end.

Section Manager.
Context {VB : Type} `{!VertexBufferInterface VB} `{!FrontEnd}.

(** *** State updates *)

Definition setStreaming (vb : VB) (w : World VB) : World VB :=
  MkWorld (Some vb) (mCurrentValueCache w) (buffers w) (calls w).

Definition setCurrentValue (i : nat) (cs : CurrentValueState.t VB)
    (w : World VB) : World VB :=
  MkWorld (mStreamingBuffer w) (<[i:=cs]> (mCurrentValueCache w))
    (buffers w) (calls w).

Definition setBuffer (b : nat) (bd : BufferD3D VB) (w : World VB) : World VB :=
  MkWorld (mStreamingBuffer w) (mCurrentValueCache w)
    (<[b:=bd]> (buffers w)) (calls w).

Definition call (e : Event) (w : World VB) : World VB :=
  MkWorld (mStreamingBuffer w) (mCurrentValueCache w) (buffers w)
    (calls w ++ [e]).

Definition setStatic (bd : BufferD3D VB)
    (sb : StaticVertexBufferInterface VB) : BufferD3D VB :=
  MkBufferD3D (getSize bd) (bufferSerial bd) (Some sb) (mUnmodifiedDataUse bd).

(** [buffer ? GetImplAs<BufferD3D>(buffer) : NULL], with the buffer's
    name kept next to its back end.  A bound buffer is in the heap; a
    name that is not reads as no back end. *)
Definition getImpl (w : World VB) (attrib : gl.VertexAttribute)
    : option (nat * BufferD3D VB) :=
  b ← gl.buffer attrib; bd ← buffers w !! b; Some (b, bd).

(** [storage ? storage->getStaticVertexBuffer() : NULL] *)
Definition getStatic (storage : option (nat * BufferD3D VB))
    : option (nat * BufferD3D VB * StaticVertexBufferInterface VB) :=
  '(b, bd) ← storage; sb ← getStaticVertexBuffer bd; Some (b, bd, sb).

(** [staticBuffer ? staticBuffer : mStreamingBuffer]: the destination
    of an attribute's data. *)
Definition vertexBufferFor (w : World VB) (attrib : gl.VertexAttribute)
    : option VB :=
  match getStatic (getImpl w attrib) with
  | Some (_, _, sb) => Some (sVertexBuffer sb)
  | None => mStreamingBuffer w
  end.

(** *** Helpers of the translation unit *)

(** Modelled from the spec: a [stride] of 0 means tightly packed,
    derived from the type. *)
Definition ComputeVertexAttributeStride (attrib : gl.VertexAttribute) : Z :=
  if gl.stride attrib =? 0 then ComputeVertexAttributeTypeSize attrib
  else gl.stride attrib.

(** The stride of [attrib] as a divisor: [ElementsInBuffer] takes the
    remainder and the quotient by it, and [storeAttribute] the quotient
    of the offset by it on the persistent-cache path.  A division by
    zero stops the program, so the procedures that reach one of these
    divisions go on only when the stride is not 0. *)
Definition strideIsZero (attrib : gl.VertexAttribute) : bool :=
  u32 (ComputeVertexAttributeStride attrib) =? 0.

(** [static int ElementsInBuffer(const gl::VertexAttribute &attrib,
    unsigned int size)], for a stride that is not 0.  [size],
    [attrib.offset] and the element size are unsigned, so the expression
    is computed in [unsigned int] and converted to [int] on return.
    (The integers are those of the descriptor's data model, 32 bits
    wide.  Where offsets and sizes are wider the numerator wraps at
    their width instead; the value is the same whenever the numerator
    is not negative.) *)
Definition ElementsInBuffer (attrib : gl.VertexAttribute) (size : Z) : Z :=
  let size := if size >? INT_MAX then INT_MAX else size in
  let stride := i32 (ComputeVertexAttributeStride attrib) in
  i32 (u32 (size - u32 (gl.offset attrib) mod u32 stride
            + (stride - ComputeVertexAttributeTypeSize attrib))
       / u32 stride).

(** [static int StreamingBufferElementCount(const gl::VertexAttribute
    &attrib, int vertexDrawCount, int instanceDrawCount)]: [divisor] is
    unsigned, so the rounding sum is computed in [unsigned int]. *)
Definition StreamingBufferElementCount (attrib : gl.VertexAttribute)
    (vertexDrawCount instanceDrawCount : Z) : Z :=
  if (instanceDrawCount >? 0) && (gl.divisor attrib >? 0)
  then i32 (u32 (instanceDrawCount + gl.divisor attrib - 1)
            / u32 (gl.divisor attrib))
  else vertexDrawCount.

(** *** The persistent cache *)

(** Modelled from the spec: the signature under which a conversion is
    cached is the attribute's format, its stride and its offset within
    the stride ([storeAttribute] adds [offset / stride] elements to the
    cached offset itself). *)
Definition signatureMatches (attrib : gl.VertexAttribute)
    (e : VertexElement) : bool :=
  (el_type e =? gl.type attrib) && (el_size e =? gl.size attrib)
  && (el_stride e =? ComputeVertexAttributeStride attrib)
  && bool_decide (el_normalized e = gl.normalized attrib)
  && (attributeOffset e =?
      u32 (gl.offset attrib) mod u32 (ComputeVertexAttributeStride attrib)).

(** Modelled from the spec: [lookupAttribute] returns the byte offset
    stored under a matching signature, if there is one. *)
Definition lookupAttribute (sb : StaticVertexBufferInterface VB)
    (attrib : gl.VertexAttribute) : option Z :=
  streamOffset <$> List.find (signatureMatches attrib) (mCache sb).

(** Modelled from the spec: a store into a persistent cache writes
    through the destination buffer and records the signature with the
    byte offset it was written at. *)
Definition static_storeVertexAttributes (sb : StaticVertexBufferInterface VB)
    (attrib : gl.VertexAttribute)
    (currentValue : gl.VertexAttribCurrentValueData)
    (start count instances : Z)
    : gl.Error * StaticVertexBufferInterface VB * Z :=
  let '(error, vb, off) :=
    storeVertexAttributes (sVertexBuffer sb) attrib currentValue
      start count instances in
  if gl.isError error then (error, MkStatic vb (mCache sb), 0)
  else
    let element :=
      MkVertexElement (gl.type attrib) (gl.size attrib)
        (ComputeVertexAttributeStride attrib) (gl.normalized attrib)
        (u32 (gl.offset attrib) mod u32 (ComputeVertexAttributeStride attrib))
        (u32 off) in
    (error, MkStatic vb (mCache sb ++ [element]), u32 off).

(** Modelled from the spec: invalidation resets the persistent cache
    to empty. *)
Definition invalidateStaticData (bd : BufferD3D VB) : BufferD3D VB :=
  setStatic bd (MkStatic newStaticVertexBufferInterface []).

(** *** The manager's procedures *)

(** The body of the loop of [hintUnmapAllResources] over the vertex
    attributes: an enabled attribute's persistent cache is hinted. *)
Definition hintUnmapStatic (w : World VB) (attrib : gl.VertexAttribute)
    : World VB :=
  if gl.enabled attrib then
    match getStatic (getImpl w attrib) with
    | Some (b, bd, sb) =>
        call (HintUnmap (StaticRef b))
          (setBuffer b
             (setStatic bd
                (MkStatic (hintUnmapResource (sVertexBuffer sb)) (mCache sb)))
             w)
    | None => w
    end
  else w.

(** The body of its loop over [mCurrentValueCache]: an existing
    constant-value buffer is hinted. *)
Definition hintUnmapCurrentValue (w : World VB) (i : nat) : World VB :=
  match mCurrentValueCache w !! i with
  | Some currentValue =>
      match CurrentValueState.buffer currentValue with
      | Some vb =>
          call (HintUnmap (CurrentValueRef i))
            (setCurrentValue i
               (CurrentValueState.Mk (Some (hintUnmapResource vb))
                  (CurrentValueState.data currentValue)
                  (CurrentValueState.offset currentValue))
               w)
      | None => w
      end
  | None => w
  end.

(** [void VertexDataManager::hintUnmapAllResources(const
    std::vector<gl::VertexAttribute> &vertexAttributes)].  The streaming
    buffer is non-null wherever the procedure is called from (the guard
    at the head of [prepareVertexData]). *)
Definition hintUnmapAllResources (vertexAttributes : list gl.VertexAttribute)
    (w : World VB) : World VB :=
  let w :=
    match mStreamingBuffer w with
    | Some vb =>
        call (HintUnmap StreamingRef) (setStreaming (hintUnmapResource vb) w)
    | None => w
    end in
  let w := foldl hintUnmapStatic w vertexAttributes in
  foldl hintUnmapCurrentValue w (seq 0 (length (mCurrentValueCache w))).

(** [void VertexDataManager::invalidateMatchingStaticData(const
    gl::VertexAttribute &attrib, const gl::VertexAttribCurrentValueData
    &currentValue) const] *)
Definition invalidateMatchingStaticData (attrib : gl.VertexAttribute)
    (currentValue : gl.VertexAttribCurrentValueData) (w : World VB)
    : World VB :=
  match getImpl w attrib with
  | Some (b, bufferImpl) =>
      match getStaticVertexBuffer bufferImpl with
      | Some staticBuffer =>
          if (getBufferSize (sVertexBuffer staticBuffer) >? 0)
             && negb (bool_decide (is_Some (lookupAttribute staticBuffer attrib)))
             && negb (directStoragePossible (sVertexBuffer staticBuffer)
                        attrib currentValue)
          then call (Invalidate b)
                 (setBuffer b (invalidateStaticData bufferImpl) w)
          else w
      | None => w
      end
  | None => w
  end.

(** [gl::Error VertexDataManager::reserveSpaceForAttrib(const
    gl::VertexAttribute &attrib, const gl::VertexAttribCurrentValueData
    &currentValue, GLsizei count, GLsizei instances) const] *)
Definition reserveSpaceForAttrib (attrib : gl.VertexAttribute)
    (currentValue : gl.VertexAttribCurrentValueData) (count instances : Z)
    (w : World VB) : Outcome * World VB :=
  let bufferImpl := getImpl w attrib in
  match getStatic bufferImpl with
  | Some (b, bd, staticBuffer) =>
      if negb (directStoragePossible (sVertexBuffer staticBuffer)
                 attrib currentValue)
      then
        if getBufferSize (sVertexBuffer staticBuffer) =? 0 then
          if strideIsZero attrib then (Abort DivideByZero, w)
          else
          let totalCount := ElementsInBuffer attrib (getSize bd) in
          let '(error, vb) :=
            reserveVertexSpace (sVertexBuffer staticBuffer) attrib
              totalCount 0 in
          let w :=
            call (Reserve (StaticRef b) attrib totalCount 0)
              (setBuffer b (setStatic bd (MkStatic vb (mCache staticBuffer)))
                 w) in
          if gl.isError error then (Return error, w)
          else (Return (gl.MkError gl.GL_NO_ERROR), w)
        else (Return (gl.MkError gl.GL_NO_ERROR), w)
      else (Return (gl.MkError gl.GL_NO_ERROR), w)
  | None =>
      match mStreamingBuffer w with
      | Some vertexBuffer =>
          if negb (directStoragePossible vertexBuffer attrib currentValue)
          then
            let totalCount :=
              StreamingBufferElementCount attrib count instances in
            let asserted : option Fault :=
              match bufferImpl with
              | Some (_, bd) =>
                  if strideIsZero attrib then Some DivideByZero
                  else if ElementsInBuffer attrib (getSize bd) >=? totalCount
                  then None
                  else Some AssertStreamingCount
              | None => None
              end in
            match asserted with
            | None =>
                let '(error, vb) :=
                  reserveVertexSpace vertexBuffer attrib totalCount
                    instances in
                let w :=
                  call (Reserve StreamingRef attrib totalCount instances)
                    (setStreaming vb w) in
                if gl.isError error then (Return error, w)
                else (Return (gl.MkError gl.GL_NO_ERROR), w)
            | Some fault => (Abort fault, w)
            end
          else (Return (gl.MkError gl.GL_NO_ERROR), w)
      | None => (Abort NullPointer, w)
      end
  end.

(** The fields [storeAttribute] and [storeCurrentValue] assign at their
    end; [active] and [attribute] stay as they are. *)
Definition emit (translated : TranslatedAttribute.t) (storage : option nat)
    (vertexBuffer : BufferRef) (serial divisor : Z)
    (currentValueType : gl.GLenum) (stride offset : Z)
    : TranslatedAttribute.t :=
  TranslatedAttribute.Mk (TranslatedAttribute.active translated)
    (TranslatedAttribute.attribute translated)
    currentValueType offset stride (Some vertexBuffer) storage serial divisor.

(** [gl::Error VertexDataManager::storeAttribute(const
    gl::VertexAttribCurrentValueData &currentValue, TranslatedAttribute
    *translated, GLint start, GLsizei count, GLsizei instances)] *)
Definition storeAttribute (currentValue : gl.VertexAttribCurrentValueData)
    (translated : TranslatedAttribute.t) (start count instances : Z)
    (w : World VB) : Outcome * TranslatedAttribute.t * World VB :=
  let attrib := TranslatedAttribute.attribute translated in
  if bool_decide (gl.buffer attrib = None) && (gl.pointer attrib =? 0)
  then (Abort AssertSource, translated, w)
  else
  let storage := getImpl w attrib in
  let staticBuffer := getStatic storage in
  match vertexBufferFor w attrib with
  | None => (Abort NullPointer, translated, w)
  | Some vb =>
  let directStorage := directStoragePossible vb attrib currentValue in
  (* Instanced vertices do not apply the 'start' offset *)
  let firstVertexIndex :=
    if (instances >? 0) && (gl.divisor attrib >? 0) then 0 else start in
  if directStorage then
    let outputElementSize := u32 (ComputeVertexAttributeStride attrib) in
    let streamOffset :=
      u32 (gl.offset attrib + outputElementSize * firstVertexIndex) in
    match storage with
    | Some (b, bd) =>
        (Return (gl.MkError gl.GL_NO_ERROR),
         emit translated (Some b)
           (match staticBuffer with
            | Some _ => StaticRef b
            | None => StreamingRef
            end)
           (bufferSerial bd) (gl.divisor attrib) (gl.Type_ currentValue)
           outputElementSize streamOffset,
         w)
    | None => (Abort NullPointer, translated, w)
    end
  else
    match staticBuffer with
    | Some (b, bd, sb) =>
        let '(error, required) :=
          getSpaceRequired (sVertexBuffer sb) attrib 1 0 in
        if gl.isError error then (Return error, translated, w)
        else
        let outputElementSize := u32 required in
        (* The first division by the stride, in [ElementsInBuffer] after
           a miss and for [firstElementOffset] after a hit, comes before
           any call. *)
        if strideIsZero attrib then (Abort DivideByZero, translated, w)
        else
        let '(error, sb, w, streamOffset) :=
          match lookupAttribute sb attrib with
          | Some cached => (gl.MkError gl.GL_NO_ERROR, sb, w, u32 cached)
          | None =>
              (* Convert the entire buffer *)
              let totalCount := ElementsInBuffer attrib (getSize bd) in
              let startIndex :=
                i32 (u32 (gl.offset attrib)
                     / u32 (ComputeVertexAttributeStride attrib)) in
              let '(error, sb, off) :=
                static_storeVertexAttributes sb attrib currentValue
                  (i32 (- startIndex)) totalCount 0 in
              (error, sb,
               call (Store (StaticRef b) attrib currentValue
                       (i32 (- startIndex)) totalCount 0)
                 (setBuffer b (setStatic bd sb) w),
               off)
          end in
        if gl.isError error then (Return error, translated, w)
        else
        let firstElementOffset :=
          u32 (u32 (gl.offset attrib)
               / u32 (ComputeVertexAttributeStride attrib)
               * outputElementSize) in
        let startOffset :=
          if (instances =? 0) || (gl.divisor attrib =? 0)
          then u32 (firstVertexIndex * outputElementSize) else 0 in
        if u32 (streamOffset + firstElementOffset + startOffset)
           <? streamOffset
        then (Return (gl.MkError gl.GL_OUT_OF_MEMORY), translated, w)
        else
          let streamOffset :=
            u32 (streamOffset + firstElementOffset + startOffset) in
          (Return (gl.MkError gl.GL_NO_ERROR),
           emit translated None (StaticRef b)
             (getSerial (sVertexBuffer sb)) (gl.divisor attrib)
             (gl.Type_ currentValue) outputElementSize streamOffset,
           w)
    | None =>
        let totalCount := StreamingBufferElementCount attrib count instances in
        let '(error, required) := getSpaceRequired vb attrib 1 0 in
        if gl.isError error then (Return error, translated, w)
        else
        let outputElementSize := u32 required in
        let '(error, vb, off) :=
          storeVertexAttributes vb attrib currentValue firstVertexIndex
            totalCount instances in
        let w :=
          call (Store StreamingRef attrib currentValue firstVertexIndex
                  totalCount instances)
            (setStreaming vb w) in
        if gl.isError error then (Return error, translated, w)
        else
          (Return (gl.MkError gl.GL_NO_ERROR),
           emit translated None StreamingRef (getSerial vb)
             (gl.divisor attrib) (gl.Type_ currentValue)
             outputElementSize (u32 off),
           w)
    end
  end.

(** [gl::Error VertexDataManager::storeCurrentValue(const
    gl::VertexAttribCurrentValueData &currentValue, TranslatedAttribute
    *translated, CurrentValueState *cachedState)], with [cachedState]
    given as the slot [i] it points to. *)
Definition storeCurrentValue (currentValue : gl.VertexAttribCurrentValueData)
    (translated : TranslatedAttribute.t) (i : nat) (w : World VB)
    : Outcome * TranslatedAttribute.t * World VB :=
  match mCurrentValueCache w !! i with
  | None => (Abort OutOfBounds, translated, w)
  | Some cachedState =>
  match CurrentValueState.buffer cachedState with
  | None => (Abort NullPointer, translated, w)
  | Some vb =>
  let '(error, vb, offset, w) :=
    if bool_decide (CurrentValueState.data cachedState <> currentValue) then
      let attrib := TranslatedAttribute.attribute translated in
      let '(error, vb) := reserveVertexSpace vb attrib 1 0 in
      let w :=
        call (Reserve (CurrentValueRef i) attrib 1 0)
          (setCurrentValue i
             (CurrentValueState.Mk (Some vb)
                (CurrentValueState.data cachedState)
                (CurrentValueState.offset cachedState))
             w) in
      if gl.isError error
      then (error, vb, CurrentValueState.offset cachedState, w)
      else
        let '(error, vb, streamOffset) :=
          storeVertexAttributes vb attrib currentValue 0 1 0 in
        let w :=
          call (Store (CurrentValueRef i) attrib currentValue 0 1 0)
            (setCurrentValue i
               (CurrentValueState.Mk (Some vb)
                  (CurrentValueState.data cachedState)
                  (CurrentValueState.offset cachedState))
               w) in
        if gl.isError error
        then (error, vb, CurrentValueState.offset cachedState, w)
        else
          (error, vb, u32 streamOffset,
           setCurrentValue i
             (CurrentValueState.Mk (Some vb) currentValue (u32 streamOffset))
             w)
    else
      (gl.MkError gl.GL_NO_ERROR, vb, CurrentValueState.offset cachedState, w)
  in
  if gl.isError error then (Return error, translated, w)
  else
    (Return (gl.MkError gl.GL_NO_ERROR),
     emit translated None (CurrentValueRef i) (getSerial vb) 0
       (gl.Type_ currentValue) 0 offset,
     w)
  end
  end.

(** *** The loops of [prepareVertexData] *)

Definition setActive (active : bool) (t : TranslatedAttribute.t)
    : TranslatedAttribute.t :=
  TranslatedAttribute.Mk active (TranslatedAttribute.attribute t)
    (TranslatedAttribute.currentValueType t) (TranslatedAttribute.offset t)
    (TranslatedAttribute.stride t) (TranslatedAttribute.vertexBuffer t)
    (TranslatedAttribute.storage t) (TranslatedAttribute.serial t)
    (TranslatedAttribute.divisor t).

Definition setAttribute (attrib : gl.VertexAttribute)
    (t : TranslatedAttribute.t) : TranslatedAttribute.t :=
  TranslatedAttribute.Mk (TranslatedAttribute.active t) attrib
    (TranslatedAttribute.currentValueType t) (TranslatedAttribute.offset t)
    (TranslatedAttribute.stride t) (TranslatedAttribute.vertexBuffer t)
    (TranslatedAttribute.storage t) (TranslatedAttribute.serial t)
    (TranslatedAttribute.divisor t).

Definition Pass : Type := list TranslatedAttribute.t * World VB.

(** The first loop: mark the slots the program consumes, record their
    attribute and invalidate static buffers that do not hold matching
    attributes. *)
Definition invalidateBody (state : gl.State) (attribIndex : nat)
    (s : Pass) : Ctl Pass :=
  let '(translated, w) := s in
  match translated !! attribIndex,
        gl.getVertexAttributes state !! attribIndex with
  | Some t, Some attrib =>
      let active := negb (gl.getSemanticIndex state attribIndex =? -1) in
      if active then
        let w :=
          if gl.enabled attrib
          then invalidateMatchingStaticData attrib
                 (gl.getVertexAttribCurrentValue state attribIndex) w
          else w in
        Next (<[attribIndex := setAttribute attrib (setActive true t)]>
                translated, w)
      else Next (<[attribIndex := setActive false t]> translated, w)
  | _, _ => Exit (Abort OutOfBounds) s
  end.

(** The second loop: reserve the required space in the buffers. *)
Definition reserveBody (state : gl.State) (count instances : Z) (i : nat)
    (s : Pass) : Ctl Pass :=
  let '(translated, w) := s in
  match translated !! i with
  | Some t =>
      if TranslatedAttribute.active t
         && gl.enabled (TranslatedAttribute.attribute t)
      then
        match reserveSpaceForAttrib (TranslatedAttribute.attribute t)
                (gl.getVertexAttribCurrentValue state i) count instances w
        with
        | (Return error, w) =>
            if gl.isError error then Exit (Return error) (translated, w)
            else Next (translated, w)
        | (Abort f, w) => Exit (Abort f) (translated, w)
        end
      else Next s
  | None => Exit (Abort OutOfBounds) s
  end.

(** The third loop: perform the vertex data translations.  A failing
    store hints the unmapping of all the resources and returns. *)
Definition storeBody (state : gl.State) (start count instances : Z) (i : nat)
    (s : Pass) : Ctl Pass :=
  let '(translated, w) := s in
  let vertexAttributes := gl.getVertexAttributes state in
  match translated !! i with
  | Some t =>
      if TranslatedAttribute.active t then
        if gl.enabled (TranslatedAttribute.attribute t) then
          match storeAttribute (gl.getVertexAttribCurrentValue state i) t
                  start count instances w
          with
          | (Return error, t, w) =>
              if gl.isError error
              then Exit (Return error)
                     (<[i:=t]> translated,
                      hintUnmapAllResources vertexAttributes w)
              else Next (<[i:=t]> translated, w)
          | (Abort f, t, w) => Exit (Abort f) (<[i:=t]> translated, w)
          end
        else
          match mCurrentValueCache w !! i with
          | Some cached =>
              let w :=
                match CurrentValueState.buffer cached with
                | None =>
                    setCurrentValue i
                      (CurrentValueState.Mk
                         (Some (newStreamingVertexBufferInterface
                                  CONSTANT_VERTEX_BUFFER_SIZE))
                         (CurrentValueState.data cached)
                         (CurrentValueState.offset cached))
                      w
                | Some _ => w
                end in
              match storeCurrentValue (gl.getVertexAttribCurrentValue state i)
                      t i w
              with
              | (Return error, t, w) =>
                  if gl.isError error
                  then Exit (Return error)
                         (<[i:=t]> translated,
                          hintUnmapAllResources vertexAttributes w)
                  else Next (<[i:=t]> translated, w)
              | (Abort f, t, w) => Exit (Abort f) (<[i:=t]> translated, w)
              end
          | None => Exit (Abort OutOfBounds) s
          end
      else Next s
  | None => Exit (Abort OutOfBounds) s
  end.

(** The last loop: promote the usage of the server buffers read. *)
Definition promoteBody (state : gl.State) (count : Z) (i : nat)
    (s : Pass) : Ctl Pass :=
  let '(translated, w) := s in
  match gl.getVertexAttributes state !! i, translated !! i with
  | Some curAttrib, Some t =>
      if TranslatedAttribute.active t && gl.enabled curAttrib then
        match getImpl w curAttrib with
        | Some (b, bufferImpl) =>
            let dataSize :=
              i32 (count * ComputeVertexAttributeTypeSize curAttrib) in
            Next (translated,
                  call (Promote b dataSize)
                    (setBuffer b (promoteStaticUsage bufferImpl dataSize) w))
        | None => Next s
        end
      else Next s
  | _, _ => Exit (Abort OutOfBounds) s
  end.

Definition invalidatePass (state : gl.State) (s : Pass) : Ctl Pass :=
  forEach (invalidateBody state)
    (seq 0 (length (gl.getVertexAttributes state))) s.

Definition reservePass (state : gl.State) (count instances : Z) (s : Pass)
    : Ctl Pass :=
  forEach (reserveBody state count instances) (seq 0 MAX_VERTEX_ATTRIBS) s.

Definition storePass (state : gl.State) (start count instances : Z)
    (s : Pass) : Ctl Pass :=
  forEach (storeBody state start count instances)
    (seq 0 MAX_VERTEX_ATTRIBS) s.

Definition promotePass (state : gl.State) (count : Z) (s : Pass) : Ctl Pass :=
  forEach (promoteBody state count) (seq 0 MAX_VERTEX_ATTRIBS) s.

(** [gl::Error VertexDataManager::prepareVertexData(const gl::State
    &state, GLint start, GLsizei count, TranslatedAttribute *translated,
    GLsizei instances)] *)
Definition prepareVertexData (state : gl.State) (start count : Z)
    (translated : list TranslatedAttribute.t) (instances : Z) (w : World VB)
    : Outcome * Pass :=
  match mStreamingBuffer w with
  | None => (Return (gl.MkError gl.GL_OUT_OF_MEMORY), (translated, w))
  | Some _ =>
      match invalidatePass state (translated, w) with
      | Exit r s => (r, s)
      | Next s =>
          match reservePass state count instances s with
          | Exit r s => (r, s)
          | Next s =>
              match storePass state start count instances s with
              | Exit r s => (r, s)
              | Next (translated, w) =>
                  (* Hint to unmap all the resources *)
                  let w :=
                    hintUnmapAllResources (gl.getVertexAttributes state) w in
                  match promotePass state count (translated, w) with
                  | Exit r s => (r, s)
                  | Next s => (Return (gl.MkError gl.GL_NO_ERROR), s)
                  end
              end
          end
      end
  end.

(** *** Vocabulary of the properties *)

(** The sources of the active, enabled slots below the slot bound. *)
Definition sourced (translated : list TranslatedAttribute.t) : Prop :=
  forall j t, (j < MAX_VERTEX_ATTRIBS)%nat -> translated !! j = Some t ->
    TranslatedAttribute.active t = true ->
    gl.enabled (TranslatedAttribute.attribute t) = true ->
    gl.buffer (TranslatedAttribute.attribute t) <> None
    \/ gl.pointer (TranslatedAttribute.attribute t) <> 0.

(** The record of slot [i] is the one of a constant: no divisor, no
    stride, no source buffer, and the identity of the slot's own
    constant-value buffer in [w]. *)
Definition constantRecord (i : nat) (t : TranslatedAttribute.t)
    (w : World VB) : Prop :=
  TranslatedAttribute.divisor t = 0
  /\ TranslatedAttribute.stride t = 0
  /\ TranslatedAttribute.storage t = None
  /\ TranslatedAttribute.vertexBuffer t = Some (CurrentValueRef i)
  /\ exists cs vb,
       mCurrentValueCache w !! i = Some cs
       /\ CurrentValueState.buffer cs = Some vb
       /\ TranslatedAttribute.serial t = getSerial vb.

(** A constant-value slot after an unmap hint to its buffer. *)
Definition hintSlot (cs : CurrentValueState.t VB) : CurrentValueState.t VB :=
  match CurrentValueState.buffer cs with
  | Some vb =>
      CurrentValueState.Mk (Some (hintUnmapResource vb))
        (CurrentValueState.data cs) (CurrentValueState.offset cs)
  | None => cs
  end.

(** A call that releases or promotes, as opposed to one that reserves,
    stores or invalidates. *)
Definition isRelease (e : Event) : Prop :=
  match e with
  | HintUnmap _ | Promote _ _ => True
  | _ => False
  end.

(** From [w0] to [w'] only releasing calls were made, and among them an
    unmap hint to the streaming buffer, to the persistent cache of every
    enabled attribute's server buffer and to every constant-value buffer
    that exists in [w0]. *)
Definition hinted (vertexAttributes : list gl.VertexAttribute)
    (w0 w' : World VB) : Prop :=
  exists evs,
    calls w' = calls w0 ++ evs
    /\ Forall isRelease evs
    /\ In (HintUnmap StreamingRef) evs
    /\ (forall attrib b bd sb,
          In attrib vertexAttributes -> gl.enabled attrib = true ->
          getStatic (getImpl w0 attrib) = Some (b, bd, sb) ->
          In (HintUnmap (StaticRef b)) evs)
    /\ (forall i cs vb,
          mCurrentValueCache w0 !! i = Some cs ->
          CurrentValueState.buffer cs = Some vb ->
          In (HintUnmap (CurrentValueRef i)) evs).

(** The calls by the phase of [prepareVertexData] that makes them: an
    invalidation, a reservation in the streaming buffer or a persistent
    cache, a store (with the reservation of a constant in its own buffer)
    and an unmap hint. *)
Definition isInvalidate (e : Event) : Prop :=
  match e with
  | Invalidate _ => True
  | _ => False
  end.

Definition isReservation (e : Event) : Prop :=
  match e with
  | Reserve StreamingRef _ _ _ | Reserve (StaticRef _) _ _ _ => True
  | _ => False
  end.

Definition isStoring (e : Event) : Prop :=
  match e with
  | Store _ _ _ _ _ _ | Reserve (CurrentValueRef _) _ _ _ => True
  | _ => False
  end.

Definition isHint (e : Event) : Prop :=
  match e with
  | HintUnmap _ => True
  | _ => False
  end.

Definition isPromote (e : Event) : Prop :=
  match e with
  | Promote _ _ => True
  | _ => False
  end.

(** From [w0] to [w] only calls of the class [C] were made. *)
Definition emits (C : Event -> Prop) (w0 w : World VB) : Prop :=
  exists evs, calls w = calls w0 ++ evs /\ Forall C evs.

(** The records [tr] are the records [tr1] after stores: as many, each
    with the same flag and attribute, and the inactive ones untouched. *)
Definition agree (tr1 tr : list TranslatedAttribute.t) : Prop :=
  length tr = length tr1
  /\ forall i t1 t, tr1 !! i = Some t1 -> tr !! i = Some t ->
       TranslatedAttribute.active t = TranslatedAttribute.active t1
       /\ TranslatedAttribute.attribute t = TranslatedAttribute.attribute t1
       /\ (TranslatedAttribute.active t1 = false -> t = t1).

(** The record of an enabled slot: the descriptor's divisor, the type
    of the slot's current value, no source buffer but the attribute's
    own, and the streaming buffer or that buffer's persistent cache as
    vertex buffer. *)
Definition enabledRecord (currentValue : gl.VertexAttribCurrentValueData)
    (t : TranslatedAttribute.t) : Prop :=
  TranslatedAttribute.divisor t = gl.divisor (TranslatedAttribute.attribute t)
  /\ TranslatedAttribute.currentValueType t = gl.Type_ currentValue
  /\ (forall b, TranslatedAttribute.storage t = Some b ->
        gl.buffer (TranslatedAttribute.attribute t) = Some b)
  /\ (TranslatedAttribute.vertexBuffer t = Some StreamingRef
      \/ exists b, gl.buffer (TranslatedAttribute.attribute t) = Some b
           /\ TranslatedAttribute.vertexBuffer t = Some (StaticRef b)).

(** What no procedure before the usage promotion changes of a server
    buffer: its size, its serial and whether it has a persistent
    cache. *)
Definition bufferShape (bd : BufferD3D VB) : Z * Z * bool :=
  (getSize bd, bufferSerial bd,
   bool_decide (is_Some (getStaticVertexBuffer bd))).

(** And of the state: the shapes of the server buffers, whether there
    is a streaming buffer and the number of constant-value slots. *)
Definition shape (w : World VB) : gmap nat (Z * Z * bool) * bool * nat :=
  (bufferShape <$> buffers w,
   bool_decide (is_Some (mStreamingBuffer w)),
   length (mCurrentValueCache w)).

(** What an unmap hint leaves of a server buffer: all but the mapping
    of its persistent cache's destination buffer. *)
Definition bufferContents (bd : BufferD3D VB)
    : Z * Z * option (list VertexElement) * Z :=
  (getSize bd, bufferSerial bd, mCache <$> getStaticVertexBuffer bd,
   mUnmodifiedDataUse bd).

(** What an unmap hint leaves of a constant-value slot: its value, its
    offset and whether it has a buffer. *)
Definition slotContents (cs : CurrentValueState.t VB)
    : gl.VertexAttribCurrentValueData * Z * bool :=
  (CurrentValueState.data cs, CurrentValueState.offset cs,
   bool_decide (is_Some (CurrentValueState.buffer cs))).

(** The byte offset at which the conversion of [attrib] is cached, under
    the signature of [signature], if it is. *)
Definition cachedOffset (w : World VB) (attrib signature : gl.VertexAttribute)
    : option Z :=
  '(_, _, sb) ← getStatic (getImpl w attrib); lookupAttribute sb signature.

End Manager.

End rx.

(** ** A back end to run the manager on

    A linear destination buffer of fixed capacity: every converted
    element takes 16 bytes (four floats), a reservation fails when its
    byte count does not fit [unsigned int], a store fails when it does
    not fit the capacity, and only float data of a server buffer can be
    used in place. *)

Module Linear.

Record Buffer := Mk {
  capacity : Z;
  mReservedSpace : Z;
  mWritePosition : Z;
  serial : Z;
  mapped : bool
}.

Definition getSpaceRequired (attrib : gl.VertexAttribute)
    (count instances : Z) : gl.Error * Z :=
  if 16 * count <? 2 ^ 32 then (gl.MkError gl.GL_NO_ERROR, 16 * count)
  else (gl.MkError gl.GL_OUT_OF_MEMORY, 0).

Definition reserveVertexSpace (vb : Buffer) (attrib : gl.VertexAttribute)
    (count instances : Z) : gl.Error * Buffer :=
  let '(error, required) := getSpaceRequired attrib count instances in
  if gl.isError error then (error, vb)
  else if mReservedSpace vb + required <? 2 ^ 32 then
    (gl.MkError gl.GL_NO_ERROR,
     Mk (capacity vb) (mReservedSpace vb + required) (mWritePosition vb)
       (serial vb) (mapped vb))
  else (gl.MkError gl.GL_OUT_OF_MEMORY, vb).

Definition storeVertexAttributes (vb : Buffer) (attrib : gl.VertexAttribute)
    (currentValue : gl.VertexAttribCurrentValueData)
    (start count instances : Z) : gl.Error * Buffer * Z :=
  let '(error, required) := getSpaceRequired attrib count instances in
  if gl.isError error then (error, vb, 0)
  else if mWritePosition vb + required <=? capacity vb then
    (gl.MkError gl.GL_NO_ERROR,
     Mk (capacity vb) 0 (mWritePosition vb + required) (serial vb) true,
     mWritePosition vb)
  else (gl.MkError gl.GL_OUT_OF_MEMORY, vb, 0).

Definition hintUnmapResource (vb : Buffer) : Buffer :=
  Mk (capacity vb) (mReservedSpace vb) (mWritePosition vb) (serial vb) false.

Definition directStoragePossible (attrib : gl.VertexAttribute) : bool :=
  bool_decide (is_Some (gl.buffer attrib)) && (gl.type attrib =? gl.GL_FLOAT).

Definition promoteStaticUsage (bd : rx.BufferD3D Buffer) (dataSize : Z)
    : rx.BufferD3D Buffer :=
  match rx.getStaticVertexBuffer bd with
  | Some _ => bd
  | None =>
      let use := rx.mUnmodifiedDataUse bd + dataSize in
      rx.MkBufferD3D (rx.getSize bd) (rx.bufferSerial bd)
        (if use >? 3 * rx.getSize bd
         then Some (rx.MkStatic (Mk 0 0 0 0 false) [])
         else None)
        use
  end.

#[global] Instance backEnd : rx.VertexBufferInterface Buffer := {|
  rx.newStreamingVertexBufferInterface size := Mk size 0 0 1 false;
  rx.newStaticVertexBufferInterface := Mk 0 0 0 0 false;
  rx.getSerial := serial;
  rx.getBufferSize := capacity;
  rx.directStoragePossible _ attrib _ := directStoragePossible attrib;
  rx.getSpaceRequired _ := getSpaceRequired;
  rx.reserveVertexSpace := reserveVertexSpace;
  rx.storeVertexAttributes := storeVertexAttributes;
  rx.hintUnmapResource := hintUnmapResource;
  rx.promoteStaticUsage := promoteStaticUsage
|}.

(** The element size of the component types of GL ES 2. *)
Definition typeSize (attrib : gl.VertexAttribute) : Z :=
  let t := gl.type attrib in
  if (t =? 5120) || (t =? 5121) then gl.size attrib          (* (UNSIGNED_)BYTE *)
  else if (t =? 5122) || (t =? 5123) then 2 * gl.size attrib (* (UNSIGNED_)SHORT *)
  else 4 * gl.size attrib.                                   (* FLOAT, FIXED *)

#[global] Instance frontEnd : rx.FrontEnd := {|
  rx.MAX_VERTEX_ATTRIBS := 16;
  rx.ComputeVertexAttributeTypeSize := typeSize
|}.

(** A fresh manager, as [VertexDataManager::VertexDataManager] leaves
    it, over a heap of server buffers. *)
Definition manager (heap : gmap nat (rx.BufferD3D Buffer)) : rx.World Buffer :=
  rx.MkWorld
    (Some (rx.newStreamingVertexBufferInterface rx.INITIAL_STREAM_BUFFER_SIZE))
    (replicate 16 rx.CurrentValueState_new) heap [].

Definition disabled : gl.VertexAttribute :=
  gl.MkVertexAttribute false gl.GL_FLOAT 4 false 0 0 0 None 0.

Definition blank : rx.TranslatedAttribute.t :=
  rx.TranslatedAttribute.Mk false disabled 0 0 0 None None 0 0.

(** A vertex array whose first slots hold [attribs], the others being
    disabled, read by a program that consumes the first [used] slots and
    with [value] as every slot's current value. *)
Definition state (attribs : list gl.VertexAttribute) (used : nat)
    (value : gl.VertexAttribCurrentValueData) : gl.State :=
  gl.MkState (take 16 (attribs ++ replicate 16 disabled))
    (fun i => if (i <? used)%nat then Z.of_nat i else -1)
    (fun _ => value).

Definition zero : gl.VertexAttribCurrentValueData :=
  gl.MkCurrentValue [0; 0; 0; 1065353216] gl.GL_FLOAT.

(** Four unsigned bytes per element at byte 2^29 of the server buffer 0,
    and a heap in which that buffer, of 256 KiB, has the conversion of
    such bytes in its persistent cache, at byte offset 0. *)
Definition bytes : gl.VertexAttribute :=
  gl.MkVertexAttribute true 5121 4 false 4 0 536870912 (Some 0%nat) 0.

Definition converted : gmap nat (rx.BufferD3D Buffer) :=
  {[ 0%nat :=
       rx.MkBufferD3D 262144 7
         (Some (rx.MkStatic (Mk 1048576 0 1048576 3 false)
                  [rx.MkVertexElement 5121 4 4 false 0 0]))
         0 ]}.

(** Two shorts per element of the server buffer 0, a signature the
    cache of [converted] does not hold. *)
Definition shorts : gl.VertexAttribute :=
  gl.MkVertexAttribute true 5122 2 false 4 0 0 (Some 0%nat) 0.

(** Four floats per element at byte 32 of the server buffer 0: usable
    in place. *)
Definition floats : gl.VertexAttribute :=
  gl.MkVertexAttribute true gl.GL_FLOAT 4 false 0 0 32 (Some 0%nat) 0.

(** Four floats per element in client memory. *)
Definition client : gl.VertexAttribute :=
  gl.MkVertexAttribute true gl.GL_FLOAT 4 false 0 4096 0 None 0.

(** A heap in which the server buffer 0, of 40 bytes, has an empty
    persistent cache. *)
Definition unconverted : gmap nat (rx.BufferD3D Buffer) :=
  {[ 0%nat :=
       rx.MkBufferD3D 40 7 (Some (rx.MkStatic (Mk 0 0 0 3 false) [])) 0 ]}.

(** The record of an active slot that holds [attrib]. *)
Definition recorded (attrib : gl.VertexAttribute) : rx.TranslatedAttribute.t :=
  rx.setAttribute attrib (rx.setActive true blank).

(** A manager whose slot 0 has its constant-value buffer. *)
Definition ready : rx.World Buffer :=
  rx.setCurrentValue 0
    (rx.CurrentValueState.Mk
       (Some (rx.newStreamingVertexBufferInterface
                rx.CONSTANT_VERTEX_BUFFER_SIZE))
       (rx.CurrentValueState.data (rx.CurrentValueState_new (VB := Buffer)))
       0)
    (manager ∅).

(** Four quiet NaNs, as a fresh slot caches them. *)
Definition nan : gl.VertexAttribCurrentValueData :=
  gl.MkCurrentValue [rx.quiet_NaN; rx.quiet_NaN; rx.quiet_NaN; rx.quiet_NaN]
    gl.GL_FLOAT.

(** A manager whose slot 0 has a constant-value buffer of 16 bytes that
    is written to its end. *)
Definition full : rx.World Buffer :=
  rx.setCurrentValue 0
    (rx.CurrentValueState.Mk (Some (Mk 16 0 16 1 false)) nan 0)
    (manager ∅).

(** Four unsigned bytes per element, packed from byte 0 of the server
    buffer 0, and a heap in which that buffer, of 40 bytes, has no
    persistent cache. *)
Definition packed : gl.VertexAttribute :=
  gl.MkVertexAttribute true 5121 4 false 4 0 0 (Some 0%nat) 0.

Definition plain : gmap nat (rx.BufferD3D Buffer) :=
  {[ 0%nat := rx.MkBufferD3D 40 7 None 0 ]}.

(** Three unsigned bytes per element, tightly packed, at byte 1 of the
    server buffer 0, and a heap in which that buffer is empty and has an
    empty persistent cache. *)
Definition odd : gl.VertexAttribute :=
  gl.MkVertexAttribute true 5121 3 false 0 0 1 (Some 0%nat) 0.

Definition hollow : gmap nat (rx.BufferD3D Buffer) :=
  {[ 0%nat :=
       rx.MkBufferD3D 0 7 (Some (rx.MkStatic (Mk 0 0 0 3 false) [])) 0 ]}.

End Linear.

(** * Properties *)

Import rx.

(** ** Machine arithmetic *)

Lemma u32_range z : 0 <= u32 z < 2 ^ 32.
Proof. unfold u32. apply Z.mod_pos_bound. lia. Qed.

Lemma u32_small z : 0 <= z < 2 ^ 32 -> u32 z = z.
Proof. intros Hz. unfold u32. apply Z.mod_small. exact Hz. Qed.

Lemma i32_small z : 0 <= z < 2 ^ 31 -> i32 z = z.
Proof.
  intros Hz. unfold i32. rewrite u32_small by lia.
  destruct (Z.ltb_spec z (2 ^ 31)); lia.
Qed.

Lemma u32_add_mul_l a b c : u32 (a + u32 b * c) = u32 (a + b * c).
Proof.
  unfold u32.
  rewrite (Zplus_mod a (b mod 2 ^ 32 * c)), (Zmult_mod (b mod 2 ^ 32) c).
  rewrite Zmod_mod, <- Zmult_mod, <- Zplus_mod. reflexivity.
Qed.

(** ** The element counts *)

Section Counts.
Context `{!FrontEnd}.

(** Without instancing, or for a per-vertex attribute, the count is the
    draw's vertex count. *)
Lemma StreamingBufferElementCount_vertices attrib vertexCount instanceCount :
  instanceCount <= 0 \/ gl.divisor attrib <= 0 ->
  StreamingBufferElementCount attrib vertexCount instanceCount = vertexCount.
Proof.
  intros Hc. unfold StreamingBufferElementCount.
  destruct (Z.gtb_spec instanceCount 0), (Z.gtb_spec (gl.divisor attrib) 0);
    simpl; try reflexivity; lia.
Qed.

(** X2: while the rounding sum fits [unsigned int], the count is the number
    of instances divided by the divisor, rounded up: the least [n] with
    [instanceCount <= n * divisor]. *)
Lemma StreamingBufferElementCount_instances attrib vertexCount instanceCount :
  0 < instanceCount < 2 ^ 31 -> 0 < gl.divisor attrib ->
  instanceCount + gl.divisor attrib - 1 < 2 ^ 32 ->
  let n := StreamingBufferElementCount attrib vertexCount instanceCount in
  n = (instanceCount + gl.divisor attrib - 1) / gl.divisor attrib
  /\ instanceCount <= n * gl.divisor attrib
  /\ (n - 1) * gl.divisor attrib < instanceCount.
Proof.
  intros Hi Hd Hsum n. subst n. unfold StreamingBufferElementCount.
  destruct (Z.gtb_spec instanceCount 0); [|lia].
  destruct (Z.gtb_spec (gl.divisor attrib) 0); [|lia]. simpl.
  set (d := gl.divisor attrib) in *.
  rewrite (u32_small (instanceCount + d - 1)) by lia.
  rewrite (u32_small d) by lia.
  pose proof (Z.div_mod (instanceCount + d - 1) d ltac:(lia)) as Hdm.
  pose proof (Z.mod_pos_bound (instanceCount + d - 1) d ltac:(lia)) as Hm.
  set (q := (instanceCount + d - 1) / d) in *.
  assert (0 <= q) by (apply Z.div_pos; lia).
  assert (q <= instanceCount) by nia.
  rewrite i32_small by lia. repeat split; nia.
Qed.

End Counts.

Section Elements.
Context `{!FrontEnd}.

(** While the numerator does not wrap below zero, [ElementsInBuffer] is
    the quotient over the integers, with the size clamped to
    [INT_MAX]. *)
Lemma ElementsInBuffer_exact attrib size :
  let stride := ComputeVertexAttributeStride attrib in
  let elemSize := ComputeVertexAttributeTypeSize attrib in
  let clamped := Z.min size INT_MAX in
  0 <= size < 2 ^ 32 -> 0 <= gl.offset attrib < 2 ^ 32 ->
  0 < stride < 2 ^ 31 -> 0 < elemSize ->
  gl.offset attrib mod stride + elemSize <= clamped + stride ->
  ElementsInBuffer attrib size
  = (clamped - gl.offset attrib mod stride + (stride - elemSize)) / stride.
Proof.
  intros stride elemSize clamped Hs Ho Hst He Hw.
  unfold ElementsInBuffer. fold stride. fold elemSize.
  assert (Hc : (if size >? INT_MAX then INT_MAX else size) = clamped).
  { subst clamped. unfold INT_MAX in *. destruct (Z.gtb_spec size (2 ^ 31 - 1)); lia. }
  rewrite Hc. rewrite (i32_small stride) by lia.
  rewrite (u32_small stride) by lia.
  rewrite (u32_small (gl.offset attrib)) by lia.
  pose proof (Z.mod_pos_bound (gl.offset attrib) stride ltac:(lia)) as Hm.
  set (r := gl.offset attrib mod stride) in *.
  assert (Hcl : 0 <= clamped <= 2 ^ 31 - 1) by (subst clamped; unfold INT_MAX; lia).
  set (num := clamped - r + (stride - elemSize)) in *.
  assert (Hnum : 0 <= num < 2 ^ 32) by (subst num; lia).
  rewrite (u32_small num) by lia.
  assert (Hq : 0 <= num / stride < 2 ^ 31).
  { split; [apply Z.div_pos; lia|].
    apply Z.div_lt_upper_bound; [lia|].
    destruct (Z.eq_dec stride 1) as [->|]; subst num; nia. }
  apply i32_small. exact Hq.
Qed.

(** For a buffer of size zero and while the numerator does not wrap,
    there is no element. *)
Lemma ElementsInBuffer_empty attrib :
  let stride := ComputeVertexAttributeStride attrib in
  let elemSize := ComputeVertexAttributeTypeSize attrib in
  0 <= gl.offset attrib < 2 ^ 32 -> 0 < stride < 2 ^ 31 -> 0 < elemSize ->
  gl.offset attrib mod stride + elemSize <= stride ->
  ElementsInBuffer attrib 0 = 0.
Proof.
  intros stride elemSize Ho Hst He Hw.
  rewrite ElementsInBuffer_exact; fold stride; fold elemSize;
    unfold INT_MAX; try lia.
  rewrite Z.min_l by lia.
  pose proof (Z.mod_pos_bound (gl.offset attrib) stride ltac:(lia)) as Hm.
  apply Z.div_small. lia.
Qed.

End Elements.

(** ** Claims on the element counts *)

(** C2: the divisor-aware element count is the number of instances
    divided by the divisor, rounded up.  The code computes the rounding
    sum [instanceDrawCount + divisor - 1] in [unsigned int]: with 5
    instances and the divisor 4294967295 the sum wraps to 3 and the count
    is 0, which does not cover the 5 instances (the count rounded up
    is 1). *)
Theorem StreamingBufferElementCount_wraps :
  let attrib :=
    gl.MkVertexAttribute true gl.GL_FLOAT 4 false 0 4096 0 None 4294967295 in
  forall vertexCount,
    StreamingBufferElementCount attrib vertexCount 5 = 0
    /\ ~ 5 <= 0 * gl.divisor attrib
    /\ 5 <= 1 * gl.divisor attrib.
Proof. intros attrib vertexCount. vm_compute. intuition congruence. Qed.

(** The two instances the specification gives. *)
Lemma StreamingBufferElementCount_5_3 attrib vertexCount :
  gl.divisor attrib = 3 ->
  StreamingBufferElementCount attrib vertexCount 5 = 2.
Proof. intros Hd. unfold StreamingBufferElementCount. rewrite Hd. reflexivity. Qed.

Lemma StreamingBufferElementCount_0_0 attrib vertexCount :
  gl.divisor attrib = 0 ->
  StreamingBufferElementCount attrib vertexCount 0 = vertexCount.
Proof. intros Hd. apply StreamingBufferElementCount_vertices. lia. Qed.

(** C6: a buffer of size zero has no element.  The code computes the
    numerator in [unsigned int]: for three unsigned bytes, tightly
    packed, at offset 1 of an empty buffer, [0 - 1 + (3 - 3)] wraps to
    4294967295 and the count is positive. *)
Theorem ElementsInBuffer_empty_wraps :
  let attrib := gl.MkVertexAttribute true 5121 3 false 0 0 1 (Some 0%nat) 0 in
  @ComputeVertexAttributeStride Linear.frontEnd attrib = 3
  /\ @ComputeVertexAttributeTypeSize Linear.frontEnd attrib = 3
  /\ @ElementsInBuffer Linear.frontEnd attrib 0 = 1431655765
  /\ 0 < @ElementsInBuffer Linear.frontEnd attrib 0.
Proof. vm_compute. intuition congruence. Qed.

(** ** The loop rule *)

(** A counted loop establishes its invariant at the bound when it runs
    to its end, and the exit condition of its body when it leaves. *)
Lemma forEach_seq_inv {S : Type} (body : nat -> S -> Ctl S)
    (I : nat -> S -> Prop) (Q : Outcome -> S -> Prop) (len : nat) :
  forall (start : nat) (s : S),
    I start s ->
    (forall k s, (start <= k < start + len)%nat -> I k s ->
       match body k s with
       | Next s' => I (Datatypes.S k) s'
       | Exit r s' => Q r s'
       end) ->
    match forEach body (seq start len) s with
    | Next s' => I (start + len)%nat s'
    | Exit r s' => Q r s'
    end.
Proof.
  induction len as [|len IH]; intros start s Hs Hbody; simpl.
  - rewrite Nat.add_0_r. exact Hs.
  - pose proof (Hbody start s ltac:(lia) Hs) as Hstep.
    destruct (body start s) as [s'|r s']; [|exact Hstep].
    replace (start + Datatypes.S len)%nat with (Datatypes.S start + len)%nat by lia.
    apply IH; [exact Hstep|].
    intros k s0 Hk. apply Hbody. lia.
Qed.

(** A property of the state that every body keeps is kept by the loop. *)
Lemma forEach_preserves {S : Type} (body : nat -> S -> Ctl S) (P : S -> Prop)
    (indices : list nat) :
  (forall k s, P s -> P (stateOf (body k s))) ->
  forall s, P s -> P (stateOf (forEach body indices s)).
Proof.
  intros Hbody. induction indices as [|i rest IH]; intros s Hs; simpl.
  - exact Hs.
  - pose proof (Hbody i s Hs) as Hstep.
    destruct (body i s) as [s'|r s']; simpl in *; [apply IH|]; exact Hstep.
Qed.

(** ** Claims on the manager's procedures *)

Section Procedures.
Context {VB : Type} `{!VertexBufferInterface VB} `{!FrontEnd}.

Lemma app_singleton_neq {A : Type} (l : list A) (x : A) : l <> l ++ [x].
Proof.
  intros Heq. apply (f_equal (@length A)) in Heq.
  rewrite length_app in Heq. simpl in Heq. lia.
Qed.


(** The stride of an attribute is not zero when it is a positive
    [unsigned int]. *)
Lemma strideIsZero_false (attrib : gl.VertexAttribute) :
  0 < ComputeVertexAttributeStride attrib < 2 ^ 32 ->
  strideIsZero attrib = false.
Proof.
  intros Hs. unfold strideIsZero. rewrite u32_small by lia.
  apply Z.eqb_neq. lia.
Qed.

(** In the second loop, for an active, enabled attribute bound to a
    server buffer whose persistent cache is empty and for which direct
    storage is impossible, one reservation is made in the persistent
    cache, whatever the draw's count and instances, for the number of
    elements that [ElementsInBuffer] computes in [unsigned int] for the
    source buffer of size [S]; while the numerator is not negative that
    is [(S - offset mod stride + (stride - elemSize)) / stride] with [S]
    clamped to [INT_MAX].  The cache's destination buffer is left as
    [reserveVertexSpace] returns it, and the loop goes on unless the
    reservation fails. *)
Theorem reserveBody_static_whole_buffer (state : gl.State)
    (count instances : Z) (i : nat) (translated : list TranslatedAttribute.t)
    (w : World VB) (t : TranslatedAttribute.t) (b : nat) (bd : BufferD3D VB)
    (sb : StaticVertexBufferInterface VB) :
  let attrib := TranslatedAttribute.attribute t in
  let stride := ComputeVertexAttributeStride attrib in
  let elemSize := ComputeVertexAttributeTypeSize attrib in
  let S := Z.min (getSize bd) INT_MAX in
  translated !! i = Some t ->
  TranslatedAttribute.active t = true ->
  gl.enabled attrib = true ->
  getImpl w attrib = Some (b, bd) ->
  getStaticVertexBuffer bd = Some sb ->
  getBufferSize (sVertexBuffer sb) = 0 ->
  directStoragePossible (sVertexBuffer sb) attrib
    (gl.getVertexAttribCurrentValue state i) = false ->
  0 <= getSize bd < 2 ^ 32 -> 0 <= gl.offset attrib < 2 ^ 32 ->
  0 < stride < 2 ^ 31 ->
  exists n,
    calls (snd (stateOf (reserveBody state count instances i (translated, w))))
    = calls w ++ [Reserve (StaticRef b) attrib n 0]
    /\ n = ElementsInBuffer attrib (getSize bd)
    /\ n = i32 (u32 (S - gl.offset attrib mod stride + (stride - elemSize))
                / stride)
    /\ (0 < elemSize -> gl.offset attrib mod stride + elemSize <= S + stride ->
        n = (S - gl.offset attrib mod stride + (stride - elemSize)) / stride)
    /\ let reserved := reserveVertexSpace (sVertexBuffer sb) attrib n 0 in
       let w' :=
         call (Reserve (StaticRef b) attrib n 0)
           (setBuffer b (setStatic bd (MkStatic reserved.2 (mCache sb))) w) in
       reserveBody state count instances i (translated, w)
       = if gl.isError reserved.1
         then Exit (Return reserved.1) (translated, w')
         else Next (translated, w').
Proof.
  intros attrib stride elemSize S Ht Hact Hen Himpl Hst Hsize Hdirect
    Hs Ho Hstride.
  assert (Hbody :
    let reserved :=
      reserveVertexSpace (sVertexBuffer sb) attrib
        (ElementsInBuffer attrib (getSize bd)) 0 in
    let w' :=
      call (Reserve (StaticRef b) attrib
              (ElementsInBuffer attrib (getSize bd)) 0)
        (setBuffer b (setStatic bd (MkStatic reserved.2 (mCache sb))) w) in
    reserveBody state count instances i (translated, w)
    = if gl.isError reserved.1
      then Exit (Return reserved.1) (translated, w')
      else Next (translated, w')).
  { unfold reserveBody. rewrite Ht, Hact. fold attrib. rewrite Hen. simpl.
    unfold reserveSpaceForAttrib. rewrite Himpl. simpl. rewrite Hst. simpl.
    rewrite Hdirect. simpl. rewrite Hsize. simpl.
    rewrite strideIsZero_false by (fold stride; lia).
    destruct (reserveVertexSpace (sVertexBuffer sb) attrib
                (ElementsInBuffer attrib (getSize bd)) 0) as [error vb].
    simpl. destruct (gl.isError error) eqn:Herr; simpl; rewrite ?Herr;
      reflexivity. }
  exists (ElementsInBuffer attrib (getSize bd)).
  split; [|split; [|split; [|split]]].
  - pose proof Hbody as Hrun. cbv zeta in Hrun. rewrite Hrun.
    destruct (gl.isError _); reflexivity.
  - reflexivity.
  - unfold ElementsInBuffer. fold stride. fold elemSize.
    rewrite (i32_small stride) by lia.
    rewrite (u32_small stride), (u32_small (gl.offset attrib)) by lia.
    subst S. unfold INT_MAX.
    destruct (Z.gtb_spec (getSize bd) (2 ^ 31 - 1));
      [rewrite Z.min_r by lia | rewrite Z.min_l by lia]; reflexivity.
  - intros He Hw. apply ElementsInBuffer_exact; assumption.
  - exact Hbody.
Qed.

(** The direct path where the offset fits: for an attribute of a server
    buffer classified as direct storage, [storeAttribute] reserves and
    stores nothing (the state, with the calls made, is unchanged) and
    emits a record that refers to the source buffer, with the
    attribute's stride and the byte offset
    [attrib.offset + stride * firstVertexIndex] reduced to an
    [unsigned int], which is that sum whenever it is below [2^32];
    [firstVertexIndex] is 0 when [instances > 0] and the divisor is
    positive, and [start] otherwise. *)
Theorem storeAttribute_direct
    (currentValue : gl.VertexAttribCurrentValueData)
    (translated : TranslatedAttribute.t) (start count instances : Z)
    (w : World VB) (vb : VB) (b : nat) (bd : BufferD3D VB) :
  let attrib := TranslatedAttribute.attribute translated in
  let stride := ComputeVertexAttributeStride attrib in
  getImpl w attrib = Some (b, bd) ->
  vertexBufferFor w attrib = Some vb ->
  directStoragePossible vb attrib currentValue = true ->
  exists translated' firstVertexIndex,
    storeAttribute currentValue translated start count instances w
    = (Return (gl.MkError gl.GL_NO_ERROR), translated', w)
    /\ (0 < instances /\ 0 < gl.divisor attrib /\ firstVertexIndex = 0
        \/ ~ (0 < instances /\ 0 < gl.divisor attrib)
           /\ firstVertexIndex = start)
    /\ TranslatedAttribute.offset translated'
       = u32 (gl.offset attrib + stride * firstVertexIndex)
    /\ (0 <= gl.offset attrib + stride * firstVertexIndex < 2 ^ 32 ->
        TranslatedAttribute.offset translated'
        = gl.offset attrib + stride * firstVertexIndex)
    /\ TranslatedAttribute.stride translated' = u32 stride
    /\ TranslatedAttribute.storage translated' = Some b
    /\ TranslatedAttribute.serial translated' = bufferSerial bd.
Proof.
  intros attrib stride Himpl Hvb Hdirect.
  assert (Hbuf : gl.buffer attrib <> None).
  { unfold getImpl in Himpl. destruct (gl.buffer attrib); [discriminate|].
    discriminate. }
  unfold storeAttribute. fold attrib.
  rewrite bool_decide_eq_false_2 by exact Hbuf. simpl.
  rewrite Hvb, Hdirect, Himpl.
  eexists _, (if (instances >? 0) && (gl.divisor attrib >? 0) then 0 else start).
  split; [reflexivity|]. split.
  { destruct (Z.gtb_spec instances 0), (Z.gtb_spec (gl.divisor attrib) 0);
      simpl; [left|right|right|right]; repeat split; lia. }
  simpl. fold stride. rewrite u32_add_mul_l.
  repeat split; try reflexivity.
  intros Hr. apply u32_small. exact Hr.
Qed.

Lemma physicalWrites_app (l l' : list Event) :
  physicalWrites (l ++ l') = (physicalWrites l + physicalWrites l')%nat.
Proof. unfold physicalWrites. rewrite List.filter_app, length_app. reflexivity. Qed.

(** The cache of a constant, past the first store: when a constant has
    been stored into a disabled slot, storing the same constant again
    compares equal, makes no call to the slot's buffer (the state is
    unchanged) and returns the byte offset of the first call.  The first
    call makes one physical write when the constant differs from the
    value the slot held before it; when the two compare equal the first
    call writes nothing either. *)
Theorem storeCurrentValue_twice
    (currentValue : gl.VertexAttribCurrentValueData)
    (t1 t2 t1' : TranslatedAttribute.t) (i : nat) (w w1 : World VB)
    (cachedState : CurrentValueState.t VB) :
  mCurrentValueCache w !! i = Some cachedState ->
  storeCurrentValue currentValue t1 i w
  = (Return (gl.MkError gl.GL_NO_ERROR), t1', w1) ->
  (exists t2',
     storeCurrentValue currentValue t2 i w1
     = (Return (gl.MkError gl.GL_NO_ERROR), t2', w1)
     /\ TranslatedAttribute.offset t2' = TranslatedAttribute.offset t1')
  /\ (CurrentValueState.data cachedState <> currentValue ->
      physicalWrites (calls w1) = (physicalWrites (calls w) + 1)%nat)
  /\ (CurrentValueState.data cachedState = currentValue -> w1 = w).
Proof.
  intros Hc H1. unfold storeCurrentValue in H1. rewrite Hc in H1.
  destruct (CurrentValueState.buffer cachedState) as [vb|] eqn:Hvb;
    [|discriminate].
  assert (Hi : (i < length (mCurrentValueCache w))%nat)
    by (eapply lookup_lt_Some; exact Hc).
  destruct (decide (CurrentValueState.data cachedState = currentValue))
    as [Heq|Hne].
  - rewrite bool_decide_eq_false_2 in H1 by (intros Hn; exact (Hn Heq)).
    simpl in H1. injection H1 as <- <-.
    split; [|split]; [|intros Hn; contradiction|reflexivity].
    unfold storeCurrentValue. rewrite Hc, Hvb.
    rewrite bool_decide_eq_false_2 by (intros Hn; exact (Hn Heq)).
    simpl. eexists. split; reflexivity.
  - rewrite bool_decide_eq_true_2 in H1 by exact Hne.
    destruct (reserveVertexSpace vb (TranslatedAttribute.attribute t1) 1 0)
      as [e1 vb1].
    destruct (gl.isError e1) eqn:He1.
    { simpl in H1. rewrite He1 in H1. injection H1 as He _ _.
      subst e1. discriminate He1. }
    destruct (storeVertexAttributes vb1 (TranslatedAttribute.attribute t1)
                currentValue 0 1 0) as [[e2 vb2] off].
    destruct (gl.isError e2) eqn:He2; simpl in H1; rewrite He2 in H1.
    { injection H1 as He _ _. subst e2. discriminate He2. }
    injection H1 as <- <-.
    split; [|split]; [| |intros Heq; contradiction].
    + unfold storeCurrentValue. simpl.
      rewrite list_lookup_insert_eq by (rewrite !length_insert; exact Hi).
      simpl. rewrite bool_decide_eq_false_2 by (intros Hn; apply Hn; reflexivity).
      simpl. eexists. split; reflexivity.
    + intros _. simpl. rewrite !physicalWrites_app.
      unfold physicalWrites. simpl. lia.
Qed.

(** The guard of the persistent-cache path,
    [streamOffset + firstElementOffset + startOffset < streamOffset],
    detects the wrap of the sum when the two added offsets do not
    themselves add up past [unsigned int]. *)
Lemma offset_guard_detects (streamOffset firstElementOffset startOffset : Z) :
  0 <= streamOffset < 2 ^ 32 ->
  0 <= firstElementOffset -> 0 <= startOffset ->
  firstElementOffset + startOffset < 2 ^ 32 ->
  (u32 (streamOffset + firstElementOffset + startOffset) <? streamOffset) = true
  <-> 2 ^ 32 <= streamOffset + firstElementOffset + startOffset.
Proof.
  intros Hs Ha Hb Hab. unfold u32.
  destruct (Z_lt_le_dec (streamOffset + firstElementOffset + startOffset)
              (2 ^ 32)) as [Hlt|Hge].
  - rewrite Z.mod_small by lia. rewrite Z.ltb_lt. lia.
  - replace (streamOffset + firstElementOffset + startOffset)
      with (streamOffset + firstElementOffset + startOffset - 2 ^ 32
            + 1 * 2 ^ 32) by lia.
    rewrite Z.mod_add by lia. rewrite Z.mod_small by lia.
    rewrite Z.ltb_lt. lia.
Qed.

(** An attribute with neither a server buffer nor a client pointer stops
    [storeAttribute] at its assertion; nothing is emitted and the state
    is left as it is. *)
Lemma storeAttribute_without_source
    (currentValue : gl.VertexAttribCurrentValueData)
    (translated : TranslatedAttribute.t) (start count instances : Z)
    (w : World VB) :
  gl.buffer (TranslatedAttribute.attribute translated) = None ->
  gl.pointer (TranslatedAttribute.attribute translated) = 0 ->
  storeAttribute currentValue translated start count instances w
  = (Abort AssertSource, translated, w).
Proof.
  intros Hb Hp. unfold storeAttribute.
  rewrite bool_decide_eq_true_2 by exact Hb. rewrite Hp. reflexivity.
Qed.

(** *** What the store procedures leave alone *)

Ltac crunch := repeat case_match; simplify_eq/=; try done.

Lemma storeAttribute_keeps
    (currentValue : gl.VertexAttribCurrentValueData)
    (t t' : TranslatedAttribute.t) (start count instances : Z)
    (w w' : World VB) (r : Outcome) :
  storeAttribute currentValue t start count instances w = (r, t', w') ->
  TranslatedAttribute.active t' = TranslatedAttribute.active t
  /\ TranslatedAttribute.attribute t' = TranslatedAttribute.attribute t
  /\ mCurrentValueCache w' = mCurrentValueCache w
  /\ (is_Some (mStreamingBuffer w) -> is_Some (mStreamingBuffer w')).
Proof. unfold storeAttribute. intros Hs. crunch; eauto 6. Qed.

Lemma storeAttribute_asserts
    (currentValue : gl.VertexAttribCurrentValueData)
    (t : TranslatedAttribute.t) (start count instances : Z) (w : World VB) :
  gl.buffer (TranslatedAttribute.attribute t) <> None
  \/ gl.pointer (TranslatedAttribute.attribute t) <> 0 ->
  (storeAttribute currentValue t start count instances w).1.1
  <> Abort AssertSource.
Proof.
  intros Hsrc. unfold storeAttribute.
  destruct (bool_decide (gl.buffer (TranslatedAttribute.attribute t) = None)
            && (gl.pointer (TranslatedAttribute.attribute t) =? 0)) eqn:Hb.
  - apply andb_true_iff in Hb as [Hb1 Hb2].
    apply bool_decide_eq_true_1 in Hb1. apply Z.eqb_eq in Hb2.
    destruct Hsrc; contradiction.
  - crunch.
Qed.

Lemma storeCurrentValue_keeps
    (currentValue : gl.VertexAttribCurrentValueData)
    (t t' : TranslatedAttribute.t) (i : nat) (w w' : World VB) (r : Outcome) :
  storeCurrentValue currentValue t i w = (r, t', w') ->
  TranslatedAttribute.active t' = TranslatedAttribute.active t
  /\ TranslatedAttribute.attribute t' = TranslatedAttribute.attribute t
  /\ r <> Abort AssertSource.
Proof. unfold storeCurrentValue. intros Hs. crunch. Qed.

(** *** The passes *)

(** After the first loop, an active slot records the attribute of the
    vertex array at its index. *)
Lemma invalidatePass_records (state : gl.State)
    (translated : list TranslatedAttribute.t) (w : World VB) :
  match invalidatePass state (translated, w) with
  | Next s =>
      forall j t, (j < length (gl.getVertexAttributes state))%nat ->
        s.1 !! j = Some t -> TranslatedAttribute.active t = true ->
        gl.getVertexAttributes state !! j
        = Some (TranslatedAttribute.attribute t)
  | Exit r _ => r = Abort OutOfBounds
  end.
Proof.
  unfold invalidatePass.
  apply (forEach_seq_inv (invalidateBody state)
           (fun k s => forall j t, (j < k)%nat -> s.1 !! j = Some t ->
              TranslatedAttribute.active t = true ->
              gl.getVertexAttributes state !! j
              = Some (TranslatedAttribute.attribute t))
           (fun r _ => r = Abort OutOfBounds)).
  - intros j t Hj. lia.
  - intros k [tr w0] _ Hinv. unfold invalidateBody.
    destruct (tr !! k) as [t0|] eqn:Htk; [|reflexivity].
    destruct (gl.getVertexAttributes state !! k) as [attrib|] eqn:Hak;
      [|reflexivity].
    assert (Hlen : (k < length tr)%nat) by (eapply lookup_lt_Some; eauto).
    destruct (negb (gl.getSemanticIndex state k =? -1)); simpl;
      intros j t Hj Hl Hact;
      (destruct (decide (j = k)) as [->|Hne];
       [rewrite list_lookup_insert_eq in Hl by exact Hlen;
        injection Hl as <-; simpl in *; congruence
       |rewrite list_lookup_insert_ne in Hl by congruence;
        apply (Hinv j t); [lia|exact Hl|exact Hact]]).
Qed.

(** The second loop leaves the records as they are. *)
Lemma reservePass_translated (state : gl.State) (count instances : Z)
    (translated : list TranslatedAttribute.t) (w : World VB) :
  (stateOf (reservePass state count instances (translated, w))).1 = translated.
Proof.
  unfold reservePass.
  pose proof (forEach_seq_inv (reserveBody state count instances)
                (fun _ s => s.1 = translated) (fun _ s => s.1 = translated)
                MAX_VERTEX_ATTRIBS 0 (translated, w) eq_refl) as Hloop.
  destruct (forEach _ _ _); simpl; apply Hloop;
    intros k [tr w0] _ Htr; simpl in Htr; subst tr;
    unfold reserveBody; crunch.
Qed.

Lemma sourced_insert (translated : list TranslatedAttribute.t) (k : nat)
    (t t' : TranslatedAttribute.t) :
  sourced translated -> translated !! k = Some t ->
  TranslatedAttribute.active t' = TranslatedAttribute.active t ->
  TranslatedAttribute.attribute t' = TranslatedAttribute.attribute t ->
  sourced (<[k:=t']> translated).
Proof.
  intros Hs Hk Hact Hattr j t0 Hj Hl Ha He.
  destruct (decide (j = k)) as [->|Hne].
  - rewrite list_lookup_insert_eq in Hl by (eapply lookup_lt_Some; eauto).
    injection Hl as <-. rewrite Hattr in *. rewrite Hact in Ha.
    exact (Hs k t Hj Hk Ha He).
  - rewrite list_lookup_insert_ne in Hl by congruence.
    exact (Hs j t0 Hj Hl Ha He).
Qed.

(** With sources everywhere, the third loop never stops at the
    assertion of [storeAttribute]. *)
Lemma storePass_asserts (state : gl.State) (start count instances : Z)
    (translated : list TranslatedAttribute.t) (w : World VB) :
  sourced translated ->
  match storePass state start count instances (translated, w) with
  | Next _ => True
  | Exit r _ => r <> Abort AssertSource
  end.
Proof.
  intros Hsrc. unfold storePass.
  pose proof (forEach_seq_inv (storeBody state start count instances)
                (fun _ s => sourced s.1) (fun r _ => r <> Abort AssertSource)
                MAX_VERTEX_ATTRIBS 0 (translated, w) Hsrc) as Hloop.
  destruct (forEach _ _ _) as [s1|r0 s1]; [exact I|]. apply Hloop.
  intros k [tr w0] Hk Hs. simpl in Hs. unfold storeBody.
  destruct (tr !! k) as [t|] eqn:Htk; [|discriminate].
  destruct (TranslatedAttribute.active t) eqn:Hact; [|exact Hs].
  destruct (gl.enabled (TranslatedAttribute.attribute t)) eqn:Hen.
  - pose proof (storeAttribute_asserts
                  (gl.getVertexAttribCurrentValue state k) t start count
                  instances w0 (Hs k t ltac:(lia) Htk Hact Hen)) as Hno.
    destruct (storeAttribute _ t start count instances w0) as [[r t'] w']
      eqn:Hst.
    apply storeAttribute_keeps in Hst as (Ha & Hb & _ & _). simpl in Hno.
    destruct r as [e|f]; [|exact Hno].
    destruct (gl.isError e); [discriminate|]. simpl.
    eapply sourced_insert; eauto.
  - destruct (mCurrentValueCache w0 !! k) as [cached|]; [|discriminate].
    destruct (storeCurrentValue _ t k _) as [[r t'] w'] eqn:Hst.
    apply storeCurrentValue_keeps in Hst as (Ha & Hb & Hno).
    destruct r as [e|f]; [|exact Hno].
    destruct (gl.isError e); [discriminate|]. simpl.
    eapply sourced_insert; eauto.
Qed.

Lemma promotePass_exits (state : gl.State) (count : Z) (s : Pass) :
  match promotePass state count s with
  | Next _ => True
  | Exit r _ => r = Abort OutOfBounds
  end.
Proof.
  unfold promotePass.
  pose proof (forEach_seq_inv (promoteBody state count)
                (fun _ _ => True) (fun r _ => r = Abort OutOfBounds)
                MAX_VERTEX_ATTRIBS 0 s I) as Hloop.
  destruct (forEach _ _ _) as [s1|r0 s1]; [exact I|]. apply Hloop.
  intros k [tr w0] _ _. unfold promoteBody. crunch.
Qed.

Lemma reservePass_exits (state : gl.State) (count instances : Z) (s : Pass) :
  match reservePass state count instances s with
  | Next _ => True
  | Exit r _ =>
      r <> Abort AssertSource /\ forall e, r = Return e -> gl.isError e = true
  end.
Proof.
  unfold reservePass.
  pose proof (forEach_seq_inv (reserveBody state count instances)
                (fun _ _ => True)
                (fun r _ => r <> Abort AssertSource
                            /\ forall e, r = Return e -> gl.isError e = true)
                MAX_VERTEX_ATTRIBS 0 s I) as Hloop.
  destruct (forEach _ _ _) as [s1|r0 s1]; [exact I|]. apply Hloop.
  intros k [tr w0] _ _. unfold reserveBody.
  destruct (tr !! k) as [t|]; [|split; [discriminate|intros; discriminate]].
  destruct (_ && _); [|exact I].
  destruct (reserveSpaceForAttrib _ _ _ _ _) as [[e|f] w1] eqn:Hr.
  - destruct (gl.isError e) eqn:He; [|exact I].
    split; [discriminate|]. intros e0 [= <-]. exact He.
  - split; [|intros; discriminate].
    unfold reserveSpaceForAttrib in Hr. crunch.
Qed.

(** C9: when every enabled attribute of the vertex array has a source, a
    server buffer or a client pointer, [prepareVertexData] never stops
    at the assertion of [storeAttribute]; and an active, enabled slot
    with neither stops the store loop at that assertion, nothing being
    emitted or recovered. *)
Theorem prepareVertexData_source_assertion (state : gl.State)
    (start count : Z) (translated : list TranslatedAttribute.t)
    (instances : Z) (w : World VB) :
  length (gl.getVertexAttributes state) = MAX_VERTEX_ATTRIBS ->
  (forall attrib, In attrib (gl.getVertexAttributes state) ->
     gl.enabled attrib = true ->
     gl.buffer attrib <> None \/ gl.pointer attrib <> 0) ->
  (prepareVertexData state start count translated instances w).1
  <> Abort AssertSource
  /\ (forall i t tr w0,
        tr !! i = Some t -> TranslatedAttribute.active t = true ->
        gl.enabled (TranslatedAttribute.attribute t) = true ->
        gl.buffer (TranslatedAttribute.attribute t) = None ->
        gl.pointer (TranslatedAttribute.attribute t) = 0 ->
        storeBody state start count instances i (tr, w0)
        = Exit (Abort AssertSource) (tr, w0)).
Proof.
  intros Hlen Hsrc. split.
  - unfold prepareVertexData.
    destruct (mStreamingBuffer w); [|discriminate].
    pose proof (invalidatePass_records state translated w) as Hrec.
    destruct (invalidatePass state (translated, w)) as [[tr1 w1]|r1 s1];
      [|subst r1; discriminate].
    pose proof (reservePass_translated state count instances tr1 w1) as Htr.
    pose proof (reservePass_exits state count instances (tr1, w1)) as Hex.
    destruct (reservePass state count instances (tr1, w1)) as [[tr2 w2]|r2 s2];
      [|exact (proj1 Hex)].
    simpl in Htr. subst tr2.
    assert (Hsourced : sourced tr1).
    { intros j t Hj Hl Ha He. apply Hsrc; [|exact He].
      apply list_elem_of_In. apply list_elem_of_lookup. exists j.
      apply (Hrec j t); [lia|exact Hl|exact Ha]. }
    pose proof (storePass_asserts state start count instances tr1 w2 Hsourced)
      as Hst.
    destruct (storePass state start count instances (tr1, w2))
      as [[tr3 w3]|r3 s3]; [|exact Hst].
    pose proof (promotePass_exits state count
                  (tr3, hintUnmapAllResources (gl.getVertexAttributes state) w3))
      as Hpr.
    destruct (promotePass _ _ _) as [s4|r4 s4]; [discriminate|].
    subst r4. discriminate.
  - intros i t tr w0 Ht Hact Hen Hb Hp. unfold storeBody.
    rewrite Ht, Hact, Hen.
    rewrite storeAttribute_without_source by assumption.
    rewrite list_insert_id by exact Ht. reflexivity.
Qed.

(** *** The unmap hints *)

Lemma getStatic_inv (w : World VB) (attrib : gl.VertexAttribute) (b : nat)
    (bd : BufferD3D VB) (sb : StaticVertexBufferInterface VB) :
  getStatic (getImpl w attrib) = Some (b, bd, sb) <->
  gl.buffer attrib = Some b /\ buffers w !! b = Some bd
  /\ getStaticVertexBuffer bd = Some sb.
Proof.
  unfold getStatic, getImpl. split.
  - intros Hg. destruct (gl.buffer attrib) as [b0|]; simpl in Hg; [|discriminate].
    destruct (buffers w !! b0) as [bd0|] eqn:Hl; simpl in Hg; [|discriminate].
    destruct (getStaticVertexBuffer bd0) as [sb0|] eqn:Hs; simpl in Hg;
      [|discriminate].
    injection Hg as -> -> ->. auto.
  - intros (-> & Hb & Hs). simpl. rewrite Hb. simpl. rewrite Hs. reflexivity.
Qed.

Lemma hintUnmapStatic_step (w : World VB) (x : gl.VertexAttribute) :
  let w' := hintUnmapStatic w x in
  mStreamingBuffer w' = mStreamingBuffer w
  /\ mCurrentValueCache w' = mCurrentValueCache w
  /\ (forall attrib b bd sb,
        getStatic (getImpl w attrib) = Some (b, bd, sb) ->
        exists bd' sb', getStatic (getImpl w' attrib) = Some (b, bd', sb'))
  /\ exists evs,
       calls w' = calls w ++ evs /\ Forall isRelease evs
       /\ (forall b bd sb, gl.enabled x = true ->
             getStatic (getImpl w x) = Some (b, bd, sb) ->
             In (HintUnmap (StaticRef b)) evs).
Proof.
  unfold hintUnmapStatic.
  destruct (gl.enabled x) eqn:Hen.
  2:{ split; [reflexivity|]. split; [reflexivity|]. split; [eauto|].
      exists []. rewrite app_nil_r. split; [reflexivity|].
      split; [constructor|]. intros; discriminate. }
  destruct (getStatic (getImpl w x)) as [[[b0 bd0] sb0]|] eqn:Hx.
  2:{ split; [reflexivity|]. split; [reflexivity|]. split; [eauto|].
      exists []. rewrite app_nil_r. split; [reflexivity|].
      split; [constructor|]. intros; discriminate. }
  simpl. split; [reflexivity|]. split; [reflexivity|]. split.
  - intros attrib b bd sb Ha. apply getStatic_inv in Ha as (Hb & Hl & Hs).
    destruct (decide (b = b0)) as [->|Hne].
    + eexists _, _. apply getStatic_inv. simpl.
      rewrite lookup_insert_eq. split; [exact Hb|]. split; reflexivity.
    + exists bd, sb. apply getStatic_inv. simpl.
      rewrite lookup_insert_ne by congruence. auto.
  - exists [HintUnmap (StaticRef b0)]. split; [reflexivity|]. split.
    + repeat constructor.
    + intros b bd sb _ Heq. injection Heq as -> _ _. left. reflexivity.
Qed.

Lemma hintUnmapStatic_fold (vertexAttributes : list gl.VertexAttribute) :
  forall w : World VB,
    let w' := foldl hintUnmapStatic w vertexAttributes in
    mStreamingBuffer w' = mStreamingBuffer w
    /\ mCurrentValueCache w' = mCurrentValueCache w
    /\ exists evs,
         calls w' = calls w ++ evs /\ Forall isRelease evs
         /\ (forall attrib b bd sb,
               In attrib vertexAttributes -> gl.enabled attrib = true ->
               getStatic (getImpl w attrib) = Some (b, bd, sb) ->
               In (HintUnmap (StaticRef b)) evs).
Proof.
  induction vertexAttributes as [|x rest IH]; intros w; simpl.
  - split; [reflexivity|]. split; [reflexivity|].
    exists []. rewrite app_nil_r. split; [reflexivity|].
    split; [constructor|]. intros ? ? ? ? [].
  - destruct (hintUnmapStatic_step w x) as (Hs1 & Hc1 & Hkeep & evs1 & He1 & Hr1 & Hin1).
    destruct (IH (hintUnmapStatic w x)) as (Hs2 & Hc2 & evs2 & He2 & Hr2 & Hin2).
    split; [congruence|]. split; [congruence|].
    exists (evs1 ++ evs2). split; [|split].
    + rewrite He2, He1, <- app_assoc. reflexivity.
    + apply Forall_app. auto.
    + intros attrib b bd sb [->|Hin] Hen Hg; apply in_or_app.
      * left. eapply Hin1; eauto.
      * right. destruct (Hkeep _ _ _ _ Hg) as (bd' & sb' & Hg').
        eapply Hin2; eauto.
Qed.

Lemma hintUnmapCurrentValue_step (w : World VB) (a : nat) :
  let w' := hintUnmapCurrentValue w a in
  mStreamingBuffer w' = mStreamingBuffer w
  /\ buffers w' = buffers w
  /\ (forall i cs, mCurrentValueCache w !! i = Some cs ->
        mCurrentValueCache w' !! i
        = Some (if decide (i = a) then hintSlot cs else cs))
  /\ exists evs,
       calls w' = calls w ++ evs /\ Forall isRelease evs
       /\ (forall cs vb, mCurrentValueCache w !! a = Some cs ->
             CurrentValueState.buffer cs = Some vb ->
             In (HintUnmap (CurrentValueRef a)) evs).
Proof.
  unfold hintUnmapCurrentValue.
  destruct (mCurrentValueCache w !! a) as [cs0|] eqn:Ha.
  - destruct (CurrentValueState.buffer cs0) as [vb0|] eqn:Hb; simpl.
    + split; [reflexivity|]. split; [reflexivity|]. split.
      * intros i cs Hi. destruct (decide (i = a)) as [->|Hne].
        -- rewrite list_lookup_insert_eq by (eapply lookup_lt_Some; eauto).
           replace cs with cs0 by congruence.
           unfold hintSlot. rewrite Hb. reflexivity.
        -- rewrite list_lookup_insert_ne by congruence. exact Hi.
      * exists [HintUnmap (CurrentValueRef a)]. split; [reflexivity|].
        split; [repeat constructor|]. intros; left; reflexivity.
    + split; [reflexivity|]. split; [reflexivity|]. split.
      * intros i cs Hi. destruct (decide (i = a)) as [->|Hne]; [|exact Hi].
        replace cs with cs0 by congruence.
        unfold hintSlot. rewrite Hb. exact Ha.
      * exists []. rewrite app_nil_r. split; [reflexivity|].
        split; [constructor|]. intros cs vb Hc Hv. congruence.
  - split; [reflexivity|]. split; [reflexivity|]. split.
    + intros i cs Hi. destruct (decide (i = a)) as [->|Hne]; [congruence|exact Hi].
    + exists []. rewrite app_nil_r. split; [reflexivity|].
      split; [constructor|]. intros; discriminate.
Qed.

Lemma hintUnmapCurrentValue_fold (n : nat) :
  forall (a : nat) (w : World VB),
    let w' := foldl hintUnmapCurrentValue w (seq a n) in
    mStreamingBuffer w' = mStreamingBuffer w
    /\ buffers w' = buffers w
    /\ (forall i cs, mCurrentValueCache w !! i = Some cs ->
          mCurrentValueCache w' !! i
          = Some (if decide (a <= i < a + n)%nat then hintSlot cs else cs))
    /\ exists evs,
         calls w' = calls w ++ evs /\ Forall isRelease evs
         /\ (forall i cs vb, (a <= i < a + n)%nat ->
               mCurrentValueCache w !! i = Some cs ->
               CurrentValueState.buffer cs = Some vb ->
               In (HintUnmap (CurrentValueRef i)) evs).
Proof.
  induction n as [|n IH]; intros a w; simpl.
  - split; [reflexivity|]. split; [reflexivity|]. split.
    + intros i cs Hi. rewrite decide_False by lia. exact Hi.
    + exists []. rewrite app_nil_r. split; [reflexivity|].
      split; [constructor|]. intros; lia.
  - destruct (hintUnmapCurrentValue_step w a)
      as (Hs1 & Hb1 & Hc1 & evs1 & He1 & Hr1 & Hin1).
    destruct (IH (S a) (hintUnmapCurrentValue w a))
      as (Hs2 & Hb2 & Hc2 & evs2 & He2 & Hr2 & Hin2).
    split; [congruence|]. split; [congruence|]. split.
    + intros i cs Hi. rewrite (Hc2 i _ (Hc1 i cs Hi)). f_equal.
      destruct (decide (i = a)) as [->|Hne].
      * rewrite decide_False by lia. rewrite decide_True by lia. reflexivity.
      * destruct (decide (S a <= i < S a + n)%nat);
          [rewrite decide_True by lia|rewrite decide_False by lia]; reflexivity.
    + exists (evs1 ++ evs2). split; [|split].
      * rewrite He2, He1, <- app_assoc. reflexivity.
      * apply Forall_app. auto.
      * intros i cs vb Hi Hc Hv. apply in_or_app.
        destruct (decide (i = a)) as [->|Hne].
        -- left. eapply Hin1; eauto.
        -- right. apply (Hin2 i cs vb); [lia| |exact Hv].
           rewrite (Hc1 i cs Hc). rewrite decide_False by exact Hne. reflexivity.
Qed.

(** What [hintUnmapAllResources] does: it hints every buffer of the
    state it is called in, makes no other call and leaves each
    constant-value slot with its buffer hinted. *)
Lemma hintUnmapAllResources_hinted
    (vertexAttributes : list gl.VertexAttribute) (w : World VB) :
  is_Some (mStreamingBuffer w) ->
  let w' := hintUnmapAllResources vertexAttributes w in
  hinted vertexAttributes w w'
  /\ is_Some (mStreamingBuffer w')
  /\ forall i cs, mCurrentValueCache w !! i = Some cs ->
       mCurrentValueCache w' !! i = Some (hintSlot cs).
Proof.
  intros [vb Hvb]. unfold hintUnmapAllResources. rewrite Hvb.
  set (wa := call (HintUnmap StreamingRef) (setStreaming (hintUnmapResource vb) w)).
  destruct (hintUnmapStatic_fold vertexAttributes wa)
    as (Hs1 & Hc1 & evs1 & He1 & Hr1 & Hin1).
  set (wb := foldl hintUnmapStatic wa vertexAttributes) in *.
  destruct (hintUnmapCurrentValue_fold (length (mCurrentValueCache wb)) 0 wb)
    as (Hs2 & Hb2 & Hc2 & evs2 & He2 & Hr2 & Hin2).
  set (wc := foldl hintUnmapCurrentValue wb _) in *.
  simpl. split; [|split].
  - exists ([HintUnmap StreamingRef] ++ evs1 ++ evs2). split; [|split; [|split; [|split]]].
    + rewrite He2, He1. subst wa. simpl. rewrite <- !app_assoc. reflexivity.
    + apply Forall_app. split; [repeat constructor|]. apply Forall_app. auto.
    + left. reflexivity.
    + intros attrib b bd sb Hin Hen Hg.
      apply in_or_app. right. apply in_or_app. left.
      apply (Hin1 attrib b bd sb Hin Hen). exact Hg.
    + intros i cs vb0 Hc Hv. apply in_or_app. right. apply in_or_app. right.
      apply (Hin2 i cs vb0); [|rewrite Hc1; exact Hc|exact Hv].
      assert ((i < length (mCurrentValueCache wb))%nat); [|lia].
      rewrite Hc1. eapply lookup_lt_Some. exact Hc.
  - rewrite Hs2, Hs1. subst wa. simpl. eauto.
  - intros i cs Hc. rewrite (Hc2 i cs) by (rewrite Hc1; exact Hc).
    rewrite decide_True; [reflexivity|].
    assert ((i < length (mCurrentValueCache wb))%nat); [|lia].
    rewrite Hc1. eapply lookup_lt_Some. exact Hc.
Qed.

(** *** The records of the disabled slots *)

Lemma storeCurrentValue_emits
    (currentValue : gl.VertexAttribCurrentValueData)
    (t t' : TranslatedAttribute.t) (i : nat) (w w' : World VB) (e : gl.Error) :
  storeCurrentValue currentValue t i w = (Return e, t', w') ->
  (gl.isError e = false -> constantRecord i t' w')
  /\ (gl.isError e = true \/ e = gl.MkError gl.GL_NO_ERROR)
  /\ (forall j, j <> i ->
        mCurrentValueCache w' !! j = mCurrentValueCache w !! j)
  /\ mStreamingBuffer w' = mStreamingBuffer w.
Proof.
  unfold storeCurrentValue. intros Hs.
  destruct (mCurrentValueCache w !! i) as [cachedState|] eqn:Hc; [|discriminate].
  assert (Hi : (i < length (mCurrentValueCache w))%nat)
    by (eapply lookup_lt_Some; exact Hc).
  destruct (CurrentValueState.buffer cachedState) as [vb|] eqn:Hvb;
    [|discriminate].
  destruct (bool_decide (CurrentValueState.data cachedState <> currentValue)).
  - destruct (reserveVertexSpace vb (TranslatedAttribute.attribute t) 1 0)
      as [e1 vb1].
    destruct (gl.isError e1) eqn:He1.
    { simpl in Hs. rewrite He1 in Hs. injection Hs as <- <- <-.
      split; [congruence|]. split; [auto|]. split; [|reflexivity].
      intros j Hj. simpl. apply list_lookup_insert_ne. congruence. }
    destruct (storeVertexAttributes vb1 (TranslatedAttribute.attribute t)
                currentValue 0 1 0) as [[e2 vb2] off].
    destruct (gl.isError e2) eqn:He2; simpl in Hs; rewrite He2 in Hs.
    { injection Hs as <- <- <-.
      split; [congruence|]. split; [auto|]. split; [|reflexivity].
      intros j Hj. simpl. rewrite !list_lookup_insert_ne by congruence.
      reflexivity. }
    injection Hs as <- <- <-. split; [|split; [auto|split; [|reflexivity]]].
    + intros _. unfold constantRecord. simpl.
      repeat (split; [reflexivity|]). eexists _, vb2.
      rewrite list_lookup_insert_eq by (rewrite !length_insert; exact Hi).
      split; [reflexivity|]. split; reflexivity.
    + intros j Hj. simpl. rewrite !list_lookup_insert_ne by congruence.
      reflexivity.
  - simpl in Hs. injection Hs as <- <- <-.
    split; [|split; [auto|split; reflexivity]].
    intros _. unfold constantRecord. simpl.
    repeat (split; [reflexivity|]). exists cachedState, vb. auto.
Qed.

Lemma constantRecord_frame (j : nat) (t : TranslatedAttribute.t)
    (w w' : World VB) :
  mCurrentValueCache w' !! j = mCurrentValueCache w !! j ->
  constantRecord j t w -> constantRecord j t w'.
Proof.
  intros Heq (Hd & Hs & Hst & Hv & cs & vb & Hc & Hb & Hser).
  unfold constantRecord. rewrite Heq. eauto 10.
Qed.

Lemma storePass_disabled (state : gl.State) (start count instances : Z)
    (translated : list TranslatedAttribute.t) (w : World VB) :
  match storePass state start count instances (translated, w) with
  | Next s' =>
      forall j t, (j < MAX_VERTEX_ATTRIBS)%nat -> s'.1 !! j = Some t ->
        TranslatedAttribute.active t = true ->
        gl.enabled (TranslatedAttribute.attribute t) = false ->
        constantRecord j t s'.2
  | Exit r _ => forall e, r = Return e -> gl.isError e = true
  end.
Proof.
  unfold storePass.
  apply (forEach_seq_inv (storeBody state start count instances)
           (fun k s => forall j t, (j < k)%nat -> s.1 !! j = Some t ->
              TranslatedAttribute.active t = true ->
              gl.enabled (TranslatedAttribute.attribute t) = false ->
              constantRecord j t s.2)
           (fun r _ => forall e, r = Return e -> gl.isError e = true)).
  { intros j t Hj. lia. }
  intros k [tr w0] Hk Hinv. simpl in Hinv. unfold storeBody.
  destruct (tr !! k) as [t0|] eqn:Htk; [|intros; discriminate].
  assert (Hlen : (k < length tr)%nat) by (eapply lookup_lt_Some; eauto).
  destruct (TranslatedAttribute.active t0) eqn:Hact.
  2:{ intros j t Hj Hl Ha Hd. simpl in *.
      destruct (decide (j = k)) as [->|Hne]; [congruence|].
      apply Hinv; auto. lia. }
  destruct (gl.enabled (TranslatedAttribute.attribute t0)) eqn:Hen.
  - destruct (storeAttribute _ t0 start count instances w0) as [[r t'] w']
      eqn:Hst.
    apply storeAttribute_keeps in Hst as (Ha' & Hb' & Hcache & _).
    destruct r as [e|f]; [|intros; discriminate].
    destruct (gl.isError e) eqn:He; [intros e0 [= <-]; exact He|].
    intros j t Hj Hl Ha Hd. simpl in *.
    destruct (decide (j = k)) as [->|Hne].
    + rewrite list_lookup_insert_eq in Hl by exact Hlen. congruence.
    + rewrite list_lookup_insert_ne in Hl by congruence.
      apply (constantRecord_frame j t w0); [rewrite Hcache; reflexivity|].
      apply Hinv; auto. lia.
  - destruct (mCurrentValueCache w0 !! k) as [cached|] eqn:Hck;
      [|intros; discriminate].
    match goal with
    | |- context [storeCurrentValue ?cv t0 k ?w1] =>
        set (w0' := w1);
        destruct (storeCurrentValue cv t0 k w0') as [[r t'] w'] eqn:Hst
    end.
    assert (Hsame : forall j, j <> k ->
              mCurrentValueCache w0' !! j = mCurrentValueCache w0 !! j).
    { intros j Hj. subst w0'. destruct (CurrentValueState.buffer cached);
        [reflexivity|]. simpl. apply list_lookup_insert_ne. congruence. }
    destruct r as [e|f]; [|intros; discriminate].
    apply storeCurrentValue_emits in Hst as (Hrec & _ & Hframe & _).
    destruct (gl.isError e) eqn:He; [intros e0 [= <-]; exact He|].
    intros j t Hj Hl Ha Hd. simpl in *.
    destruct (decide (j = k)) as [->|Hne].
    + rewrite list_lookup_insert_eq in Hl by exact Hlen.
      injection Hl as <-. apply Hrec. reflexivity.
    + rewrite list_lookup_insert_ne in Hl by congruence.
      apply (constantRecord_frame j t w0);
        [rewrite Hframe, Hsame by congruence; reflexivity|].
      apply Hinv; auto. lia.
Qed.

Lemma promotePass_frame (state : gl.State) (count : Z)
    (translated : list TranslatedAttribute.t) (w : World VB) :
  let s' := stateOf (promotePass state count (translated, w)) in
  s'.1 = translated
  /\ mCurrentValueCache s'.2 = mCurrentValueCache w
  /\ exists evs, calls s'.2 = calls w ++ evs /\ Forall isRelease evs.
Proof.
  unfold promotePass.
  pose proof (forEach_seq_inv (promoteBody state count)
    (fun _ s => s.1 = translated
                /\ mCurrentValueCache s.2 = mCurrentValueCache w
                /\ exists evs, calls s.2 = calls w ++ evs /\ Forall isRelease evs)
    (fun _ s => s.1 = translated
                /\ mCurrentValueCache s.2 = mCurrentValueCache w
                /\ exists evs, calls s.2 = calls w ++ evs /\ Forall isRelease evs)
    MAX_VERTEX_ATTRIBS 0 (translated, w)) as Hloop.
  assert (Hstep : forall k s,
    s.1 = translated /\ mCurrentValueCache s.2 = mCurrentValueCache w
    /\ (exists evs, calls s.2 = calls w ++ evs /\ Forall isRelease evs) ->
    let s' := stateOf (promoteBody state count k s) in
    s'.1 = translated /\ mCurrentValueCache s'.2 = mCurrentValueCache w
    /\ exists evs, calls s'.2 = calls w ++ evs /\ Forall isRelease evs).
  { intros k [tr w0] (Htr & Hc & evs & He & Hr). simpl in *.
    unfold promoteBody.
    destruct (gl.getVertexAttributes state !! k) as [curAttrib|];
      [|simpl; eauto].
    destruct (tr !! k) as [t|]; [|simpl; eauto].
    destruct (_ && _); [|simpl; eauto].
    destruct (getImpl w0 curAttrib) as [[b bufferImpl]|]; [|simpl; eauto].
    simpl. split; [exact Htr|]. split; [exact Hc|].
    eexists (evs ++ [_]). rewrite He, <- app_assoc. split; [reflexivity|].
    apply Forall_app. split; [exact Hr|]. repeat constructor. }
  assert (Hinit : (translated, w).1 = translated
            /\ mCurrentValueCache (translated, w).2 = mCurrentValueCache w
            /\ exists evs, calls (translated, w).2 = calls w ++ evs
                           /\ Forall isRelease evs).
  { simpl. split; [reflexivity|]. split; [reflexivity|].
    exists []. rewrite app_nil_r. split; [reflexivity|constructor]. }
  specialize (Hloop Hinit).
  destruct (forEach _ _ _) as [s1|r1 s1]; simpl; apply Hloop;
    intros k s _ Hs; specialize (Hstep k s Hs);
    destruct (promoteBody state count k s); exact Hstep.
Qed.

(** *** The streaming buffer stays in place *)

Lemma invalidatePass_streaming (state : gl.State) (s : Pass) :
  is_Some (mStreamingBuffer s.2) ->
  is_Some (mStreamingBuffer (stateOf (invalidatePass state s)).2).
Proof.
  intros Hinit. unfold invalidatePass.
  apply forEach_preserves; [|exact Hinit].
  intros k [tr w0] Hs. unfold invalidateBody, invalidateMatchingStaticData.
  crunch; simpl in *; eauto.
Qed.

Lemma reservePass_streaming (state : gl.State) (count instances : Z)
    (s : Pass) :
  is_Some (mStreamingBuffer s.2) ->
  is_Some (mStreamingBuffer (stateOf (reservePass state count instances s)).2).
Proof.
  intros Hinit. unfold reservePass.
  apply forEach_preserves; [|exact Hinit].
  intros k [tr w0] Hs. unfold reserveBody, reserveSpaceForAttrib.
  crunch; simpl in *; eauto.
Qed.

(** The third loop either runs to its end or leaves through the unmap
    hints with the failure of a store. *)
Lemma storePass_hints (state : gl.State) (start count instances : Z)
    (s : Pass) :
  is_Some (mStreamingBuffer s.2) ->
  match storePass state start count instances s with
  | Next s' => is_Some (mStreamingBuffer s'.2)
  | Exit r s' =>
      forall e, r = Return e ->
        gl.isError e = true
        /\ exists w0,
             is_Some (mStreamingBuffer w0)
             /\ s'.2 = hintUnmapAllResources (gl.getVertexAttributes state) w0
  end.
Proof.
  intros Hs. unfold storePass.
  pose proof (forEach_seq_inv (storeBody state start count instances)
    (fun _ s => is_Some (mStreamingBuffer s.2))
    (fun r s' => forall e, r = Return e ->
       gl.isError e = true
       /\ exists w0,
            is_Some (mStreamingBuffer w0)
            /\ s'.2 = hintUnmapAllResources (gl.getVertexAttributes state) w0)
    MAX_VERTEX_ATTRIBS 0 s Hs) as Hloop.
  destruct (forEach _ _ _) as [s1|r1 s1]; apply Hloop;
    clear Hloop; intros k [tr w0] _ Hw; simpl in Hw; unfold storeBody;
    (destruct (tr !! k) as [t0|]; [|intros; discriminate]);
    (destruct (TranslatedAttribute.active t0); [|exact Hw]);
    (destruct (gl.enabled (TranslatedAttribute.attribute t0));
     [destruct (storeAttribute _ t0 start count instances w0)
        as [[r t'] w'] eqn:Hst;
      apply storeAttribute_keeps in Hst as (_ & _ & _ & Hkeep);
      (destruct r as [e|f]; [|intros; discriminate]);
      destruct (gl.isError e) eqn:He;
      [intros e0 [= <-]; split; [exact He|]; exists w'; simpl; auto
      |simpl; auto]
     |]);
    (destruct (mCurrentValueCache w0 !! k) as [cached|];
     [|intros; discriminate]);
    match goal with
    | |- context [storeCurrentValue ?cv t0 k ?w1] =>
        assert (Hw1 : is_Some (mStreamingBuffer w1))
          by (destruct (CurrentValueState.buffer cached); exact Hw);
        destruct (storeCurrentValue cv t0 k w1) as [[r t'] w'] eqn:Hst
    end;
    (destruct r as [e|f]; [|intros; discriminate]);
    apply storeCurrentValue_emits in Hst as (_ & _ & _ & Hstream);
    (destruct (gl.isError e) eqn:He;
     [intros e0 [= <-]; split; [exact He|]; exists w'; simpl; split;
      [rewrite Hstream; exact Hw1|reflexivity]
     |simpl; rewrite Hstream; exact Hw1]).
Qed.

(** *** The claims on [prepareVertexData] *)

(** C10: after a successful [prepareVertexData], the record of an
    active, disabled slot has divisor 0 and stride 0, whatever its
    descriptor declares, refers to no source buffer and carries the
    serial of the slot's own constant-value buffer, which the final
    state holds with its mapping released. *)
Theorem prepareVertexData_disabled_record (state : gl.State)
    (start count : Z) (translated translated' : list TranslatedAttribute.t)
    (instances : Z) (w w' : World VB) (i : nat) (t : TranslatedAttribute.t) :
  prepareVertexData state start count translated instances w
  = (Return (gl.MkError gl.GL_NO_ERROR), (translated', w')) ->
  (i < MAX_VERTEX_ATTRIBS)%nat ->
  translated' !! i = Some t ->
  TranslatedAttribute.active t = true ->
  gl.enabled (TranslatedAttribute.attribute t) = false ->
  TranslatedAttribute.divisor t = 0
  /\ TranslatedAttribute.stride t = 0
  /\ TranslatedAttribute.storage t = None
  /\ TranslatedAttribute.vertexBuffer t = Some (CurrentValueRef i)
  /\ exists cs vb,
       mCurrentValueCache w' !! i = Some cs
       /\ CurrentValueState.buffer cs = Some (hintUnmapResource vb)
       /\ TranslatedAttribute.serial t = getSerial vb.
Proof.
  intros Hrun Hi Ht Hact Hdis. unfold prepareVertexData in Hrun.
  destruct (mStreamingBuffer w) as [vb0|] eqn:Hvb; [|discriminate].
  pose proof (invalidatePass_records state translated w) as Hinv.
  pose proof (invalidatePass_streaming state (translated, w)
                ltac:(simpl; rewrite Hvb; eauto)) as Hs1.
  destruct (invalidatePass state (translated, w)) as [s1|r1 s1];
    [|congruence].
  pose proof (reservePass_exits state count instances s1) as Hres.
  pose proof (reservePass_streaming state count instances s1 Hs1) as Hs2.
  destruct (reservePass state count instances s1) as [s2|r2 s2].
  2:{ injection Hrun as -> _. destruct Hres as [_ Hres].
      discriminate (Hres _ eq_refl). }
  pose proof (storePass_hints state start count instances s2 Hs2) as Hs3.
  destruct s2 as [tr2 w2].
  pose proof (storePass_disabled state start count instances tr2 w2) as Hst.
  destruct (storePass state start count instances (tr2, w2))
    as [[tr3 w3]|r3 s3].
  2:{ injection Hrun as -> _. discriminate (Hst _ eq_refl). }
  simpl in Hs3, Hst.
  pose proof (promotePass_exits state count
    (tr3, hintUnmapAllResources (gl.getVertexAttributes state) w3)) as Hex.
  pose proof (promotePass_frame state count tr3
    (hintUnmapAllResources (gl.getVertexAttributes state) w3))
    as (Htr & Hcache & _).
  destruct (promotePass _ _ _) as [s4|r4 s4]; [|congruence].
  injection Hrun as ->. simpl in Htr, Hcache. subst tr3.
  destruct (Hst i t Hi Ht Hact Hdis)
    as (Hd & Hstr & Hsto & Hv & cs & vb & Hc & Hb & Hser).
  repeat (split; [assumption|]).
  destruct (hintUnmapAllResources_hinted (gl.getVertexAttributes state) w3 Hs3)
    as (_ & _ & Hslot).
  exists (hintSlot cs), vb. rewrite Hcache. split; [apply Hslot; exact Hc|].
  unfold hintSlot. rewrite Hb. simpl. auto.
Qed.

(** C1, as amended: once the reservation loop has run to its end, every
    return of [prepareVertexData], with the failure of a store or with
    success, comes after an unmap hint to the streaming buffer, to the
    persistent cache of every enabled attribute's server buffer and to
    every constant-value buffer that exists when the store loop is
    left; no store or reservation follows the hints. *)
Theorem prepareVertexData_hints (state : gl.State) (start count : Z)
    (translated translated' : list TranslatedAttribute.t) (instances : Z)
    (w w' : World VB) (s1 s2 : Pass) (e : gl.Error) :
  is_Some (mStreamingBuffer w) ->
  invalidatePass state (translated, w) = Next s1 ->
  reservePass state count instances s1 = Next s2 ->
  prepareVertexData state start count translated instances w
  = (Return e, (translated', w')) ->
  exists w0,
    hinted (gl.getVertexAttributes state) w0 w'
    /\ (gl.isError e = true
        /\ storePass state start count instances s2
           = Exit (Return e) (translated', w')
        /\ w' = hintUnmapAllResources (gl.getVertexAttributes state) w0
        \/ e = gl.MkError gl.GL_NO_ERROR
           /\ storePass state start count instances s2
              = Next (translated', w0)).
Proof.
  intros Hsome Hinv Hres Hrun. unfold prepareVertexData in Hrun.
  destruct Hsome as [vb0 Hvb]. rewrite Hvb, Hinv, Hres in Hrun.
  pose proof (invalidatePass_streaming state (translated, w)
                ltac:(simpl; rewrite Hvb; eauto)) as Hs1.
  rewrite Hinv in Hs1. simpl in Hs1.
  pose proof (reservePass_streaming state count instances s1 Hs1) as Hs2.
  rewrite Hres in Hs2. simpl in Hs2.
  pose proof (storePass_hints state start count instances s2 Hs2) as Hs3.
  destruct (storePass state start count instances s2) as [[tr3 w3]|r3 s3].
  - simpl in Hs3.
    pose proof (promotePass_exits state count
      (tr3, hintUnmapAllResources (gl.getVertexAttributes state) w3)) as Hex.
    pose proof (promotePass_frame state count tr3
      (hintUnmapAllResources (gl.getVertexAttributes state) w3))
      as (Htr & _ & evsP & HeP & HrP).
    destruct (promotePass _ _ _) as [s4|r4 s4]; [|congruence].
    injection Hrun as <- ->. simpl in Htr, HeP. subst tr3.
    exists w3. split; [|right; auto].
    destruct (hintUnmapAllResources_hinted (gl.getVertexAttributes state)
                w3 Hs3) as ((evs & He & Hr & Hstream & Hstatic & Hcv) & _ & _).
    exists (evs ++ evsP). split; [|split; [|split; [|split]]].
    + rewrite HeP, He, <- app_assoc. reflexivity.
    + apply Forall_app. auto.
    + apply in_or_app. auto.
    + intros. apply in_or_app. left. eapply Hstatic; eauto.
    + intros. apply in_or_app. left. eapply Hcv; eauto.
  - injection Hrun as -> ->.
    destruct (Hs3 e eq_refl) as (He & w0 & Hw0 & Heq). simpl in Heq.
    exists w0. subst w'. split; [|left; auto].
    apply hintUnmapAllResources_hinted. exact Hw0.
Qed.

End Procedures.

(** C8: on the persistent-cache path an offset sum that wraps is to be
    refused.  The code's guard compares the wrapped sum with the cached
    offset only: with the cached offset 0, [firstElementOffset = 2^31]
    and [startOffset = 2^31] the sum is [2^32], it wraps to 0, the guard
    [0 < 0] does not fire and the record is emitted with byte offset 0. *)
Theorem storeAttribute_offset_wraps :
  let attrib := Linear.bytes in
  let translated := setAttribute attrib (setActive true Linear.blank) in
  let w := Linear.manager Linear.converted in
  let start := 134217728 in
  exists translated',
    storeAttribute Linear.zero translated start 3 0 w
    = (Return (gl.MkError gl.GL_NO_ERROR), translated', w)
    /\ TranslatedAttribute.stride translated' = 16
    /\ TranslatedAttribute.offset translated' = 0
    /\ 0 + gl.offset attrib / gl.stride attrib * 16 + start * 16 = 2 ^ 32.
Proof. eexists. vm_compute. repeat split. Qed.

(** C3: on the direct path the record's byte offset is
    [attrib.offset + stride * firstVertexIndex].  The code computes the
    sum as an [unsigned int] and, unlike the persistent-cache path,
    checks nothing: for four floats per element at offset 32 of a server
    buffer, used in place, a draw from vertex [2^28] gets a record at
    byte offset 32 and a success, where the sum is [2^32 + 32]. *)
Theorem storeAttribute_direct_wraps :
  let attrib := Linear.floats in
  let start := 268435456 in
  let w := Linear.manager Linear.converted in
  exists vb translated',
    vertexBufferFor w attrib = Some vb
    /\ directStoragePossible vb attrib Linear.zero = true
    /\ storeAttribute Linear.zero (Linear.recorded attrib) start 3 0 w
       = (Return (gl.MkError gl.GL_NO_ERROR), translated', w)
    /\ TranslatedAttribute.offset translated' = 32
    /\ gl.offset attrib + ComputeVertexAttributeStride attrib * start
       = 4294967328
    /\ TranslatedAttribute.offset translated'
       <> gl.offset attrib + ComputeVertexAttributeStride attrib * start.
Proof.
  eexists _, _. vm_compute.
  split; [reflexivity|]. split; [reflexivity|]. split; [reflexivity|].
  split; [reflexivity|]. split; [reflexivity|]. discriminate.
Qed.

(** C7: an empty persistent cache is sized to the elements of the whole
    source buffer, [(S - offset mod stride + (stride - elemSize)) /
    stride].  The code computes the numerator in [unsigned int]: for
    three unsigned bytes, tightly packed, at offset 1 of an empty
    buffer (the input of C6), the reservation loop asks the cache for
    1431655765 elements, where the quotient is -1. *)
Theorem reserveBody_static_wraps :
  let attrib := Linear.odd in
  let state := Linear.state [attrib] 1 Linear.zero in
  let w := Linear.manager Linear.hollow in
  let stride := ComputeVertexAttributeStride attrib in
  let elemSize := ComputeVertexAttributeTypeSize attrib in
  let S := Z.min 0 INT_MAX in
  exists sb,
    getStatic (getImpl w attrib)
    = Some (0%nat, MkBufferD3D 0 7 (Some sb) 0, sb)
    /\ getBufferSize (sVertexBuffer sb) = 0
    /\ directStoragePossible (sVertexBuffer sb) attrib Linear.zero = false
    /\ calls (stateOf (reserveBody state 3 0 0
                         (Linear.recorded attrib :: replicate 15 Linear.blank,
                          w))).2
       = [Reserve (StaticRef 0) attrib 1431655765 0]
    /\ (S - gl.offset attrib mod stride + (stride - elemSize)) / stride = -1.
Proof.
  eexists. vm_compute.
  split; [reflexivity|]. split; [reflexivity|]. split; [reflexivity|].
  split; reflexivity.
Qed.

(** ** The claims on a concrete back end *)

(** C1, as stated, fails: a draw of 2^28 vertices from client memory
    needs 2^32 bytes of the streaming buffer, the reservation fails and
    [prepareVertexData] returns the failure with no unmap hint, to the
    streaming buffer or to any other. *)
Lemma prepareVertexData_reservation_unhinted :
  let state := Linear.state [Linear.client] 1 Linear.zero in
  let w := Linear.manager ∅ in
  let run :=
    prepareVertexData state 0 268435456 (replicate 16 Linear.blank) 0 w in
  is_Some (mStreamingBuffer w)
  /\ run.1 = Return (gl.MkError gl.GL_OUT_OF_MEMORY)
  /\ calls run.2.2 = [Reserve StreamingRef Linear.client 268435456 0]
  /\ ~ In (HintUnmap StreamingRef) (calls run.2.2).
Proof.
  vm_compute. split; [eauto|]. split; [reflexivity|]. split; [reflexivity|].
  intros [Hc|[]]. discriminate Hc.
Qed.

(** C4: the same constant stored twice into a disabled slot makes one
    physical write.  A fresh slot holds four quiet NaNs of type
    [GL_FLOAT] as the value no constant is meant to equal, but the
    comparison is on the bits: two draws in succession with that
    constant for the disabled slot 0 of a fresh manager both succeed
    and make no physical write at all, and the record of the slot
    refers to byte 0 of the slot's buffer, which was never written. *)
Theorem prepareVertexData_twice_no_write :
  let state := Linear.state [] 1 Linear.nan in
  let first :=
    prepareVertexData state 0 3 (replicate 16 Linear.blank) 0
      (Linear.manager ∅) in
  let second := prepareVertexData state 0 3 first.2.1 0 first.2.2 in
  first.1 = Return (gl.MkError gl.GL_NO_ERROR)
  /\ second.1 = Return (gl.MkError gl.GL_NO_ERROR)
  /\ physicalWrites (calls second.2.2) = 0%nat
  /\ physicalWrites (calls second.2.2) <> 1%nat
  /\ exists t,
       second.2.1 !! 0%nat = Some t
       /\ TranslatedAttribute.active t = true
       /\ TranslatedAttribute.vertexBuffer t = Some (CurrentValueRef 0)
       /\ TranslatedAttribute.offset t = 0.
Proof.
  vm_compute. split; [reflexivity|]. split; [reflexivity|].
  split; [reflexivity|]. split; [discriminate|].
  eexists. repeat split.
Qed.

(** The constant 0, 0, 0, 1 stored twice into the disabled slot 0: one
    physical write, and the second call returns the first one's
    offset. *)
Lemma storeCurrentValue_twice_witness :
  let first := storeCurrentValue Linear.zero Linear.blank 0 Linear.ready in
  first.1.1 = Return (gl.MkError gl.GL_NO_ERROR)
  /\ (exists t2',
        storeCurrentValue Linear.zero Linear.blank 0 first.2
        = (Return (gl.MkError gl.GL_NO_ERROR), t2', first.2)
        /\ TranslatedAttribute.offset t2'
           = TranslatedAttribute.offset first.1.2)
  /\ physicalWrites (calls first.2) = 1%nat.
Proof.
  intros first.
  destruct (storeCurrentValue_twice Linear.zero Linear.blank Linear.blank
              first.1.2 0%nat Linear.ready first.2
              (CurrentValueState.Mk
                 (Some (newStreamingVertexBufferInterface
                          CONSTANT_VERTEX_BUFFER_SIZE))
                 Linear.nan 0)
              ltac:(reflexivity) ltac:(reflexivity))
    as (Hsecond & Hmiss & _).
  split; [reflexivity|]. split; [exact Hsecond|].
  rewrite Hmiss; [reflexivity|]. vm_compute. discriminate.
Defined.


(** The shorts of a 40-byte buffer whose cache is empty: 10 elements
    are reserved for a draw of 3. *)
Lemma reserveBody_static_whole_buffer_witness :
  let state := Linear.state [Linear.shorts] 1 Linear.zero in
  calls (snd (stateOf
    (reserveBody state 3 0 0
       (Linear.recorded Linear.shorts :: replicate 15 Linear.blank,
        Linear.manager Linear.unconverted))))
  = [Reserve (StaticRef 0) Linear.shorts 10 0].
Proof.
  intros state.
  destruct (reserveBody_static_whole_buffer state 3 0 0
              (Linear.recorded Linear.shorts :: replicate 15 Linear.blank)
              (Linear.manager Linear.unconverted)
              (Linear.recorded Linear.shorts) 0%nat
              (MkBufferD3D 40 7
                 (Some (MkStatic (Linear.Mk 0 0 0 3 false) [])) 0)
              (MkStatic (Linear.Mk 0 0 0 3 false) [])
              ltac:(reflexivity) ltac:(reflexivity) ltac:(reflexivity)
              ltac:(reflexivity) ltac:(reflexivity) ltac:(reflexivity)
              ltac:(reflexivity) ltac:(vm_compute; split; [discriminate|reflexivity])
              ltac:(vm_compute; split; [discriminate|reflexivity])
              ltac:(vm_compute; split; reflexivity))
    as (n & Hcalls & Hn & _).
  rewrite Hcalls, Hn. reflexivity.
Defined.

(** Floats of a server buffer from vertex 2 on: byte offset 32 + 16 * 2,
    and no call made. *)
Lemma storeAttribute_direct_witness :
  exists translated',
    storeAttribute Linear.zero (Linear.recorded Linear.floats) 2 3 0
      (Linear.manager Linear.converted)
    = (Return (gl.MkError gl.GL_NO_ERROR), translated',
       Linear.manager Linear.converted)
    /\ TranslatedAttribute.offset translated' = 64.
Proof.
  destruct (storeAttribute_direct Linear.zero (Linear.recorded Linear.floats)
              2 3 0 (Linear.manager Linear.converted)
              (Linear.Mk 1048576 0 1048576 3 false) 0%nat
              (MkBufferD3D 262144 7
                 (Some (MkStatic (Linear.Mk 1048576 0 1048576 3 false)
                          [MkVertexElement 5121 4 4 false 0 0]))
                 0)
              ltac:(reflexivity) ltac:(reflexivity) ltac:(reflexivity))
    as (translated' & first & Hrun & Hfirst & _ & Hoffset & _).
  exists translated'. split; [exact Hrun|].
  destruct Hfirst as [(Hi & _)|(_ & ->)]; [lia|].
  apply Hoffset. vm_compute. split; [discriminate|reflexivity].
Defined.

(** A draw from client memory: every enabled attribute has a source and
    the draw does not stop at the assertion. *)
Lemma prepareVertexData_source_assertion_witness :
  let state := Linear.state [Linear.client] 1 Linear.zero in
  (prepareVertexData state 0 3 (replicate 16 Linear.blank) 0
     (Linear.manager ∅)).1
  <> Abort AssertSource.
Proof.
  intros state.
  refine (proj1 (@prepareVertexData_source_assertion Linear.Buffer
                   Linear.backEnd Linear.frontEnd state 0 3
                   (replicate 16 Linear.blank) 0 (Linear.manager ∅)
                   ltac:(reflexivity) _)).
  intros attrib Hin Hen. vm_compute in Hin.
  repeat (destruct Hin as [<-|Hin]; [first [discriminate Hen|right; discriminate]|]).
  destruct Hin.
Defined.

(** A draw with the disabled slot 1 consumed by the program: its record
    has no divisor, no stride and no source buffer. *)
Lemma prepareVertexData_disabled_record_witness :
  let state := Linear.state [Linear.client] 2 Linear.zero in
  let run :=
    prepareVertexData state 0 3 (replicate 16 Linear.blank) 0
      (Linear.manager ∅) in
  exists t,
    run.2.1 !! 1%nat = Some t
    /\ TranslatedAttribute.active t = true
    /\ TranslatedAttribute.divisor t = 0
    /\ TranslatedAttribute.stride t = 0
    /\ TranslatedAttribute.storage t = None
    /\ TranslatedAttribute.vertexBuffer t = Some (CurrentValueRef 1).
Proof.
  intros state run.
  exists (default Linear.blank (run.2.1 !! 1%nat)).
  destruct (@prepareVertexData_disabled_record Linear.Buffer
              Linear.backEnd Linear.frontEnd state 0 3
              (replicate 16 Linear.blank) run.2.1 0 (Linear.manager ∅)
              run.2.2 1%nat (default Linear.blank (run.2.1 !! 1%nat))
              ltac:(vm_compute; reflexivity) ltac:(vm_compute; lia)
              ltac:(vm_compute; reflexivity) ltac:(vm_compute; reflexivity)
              ltac:(vm_compute; reflexivity))
    as (Hd & Hs & Hst & Hv & _).
  split; [vm_compute; reflexivity|]. split; [vm_compute; reflexivity|].
  auto.
Defined.

(** A draw of 100000 vertices from client memory: the reservation
    succeeds, the store does not fit the streaming buffer and the failure
    is returned after the unmap hint. *)
Lemma prepareVertexData_hints_witness :
  let state := Linear.state [Linear.client] 1 Linear.zero in
  let run :=
    prepareVertexData state 0 100000 (replicate 16 Linear.blank) 0
      (Linear.manager ∅) in
  run.1 = Return (gl.MkError gl.GL_OUT_OF_MEMORY)
  /\ In (HintUnmap StreamingRef) (calls run.2.2).
Proof.
  intros state run. split; [vm_compute; reflexivity|].
  destruct (@prepareVertexData_hints Linear.Buffer
              Linear.backEnd Linear.frontEnd state 0 100000
              (replicate 16 Linear.blank) run.2.1 0 (Linear.manager ∅)
              run.2.2
              (stateOf (invalidatePass state
                          (replicate 16 Linear.blank, Linear.manager ∅)))
              (stateOf (reservePass state 100000 0
                          (stateOf (invalidatePass state
                             (replicate 16 Linear.blank, Linear.manager ∅)))))
              (gl.MkError gl.GL_OUT_OF_MEMORY)
              ltac:(vm_compute; eauto) ltac:(vm_compute; reflexivity)
              ltac:(vm_compute; reflexivity) ltac:(vm_compute; reflexivity))
    as (w0 & (evs & He & _ & Hin & _) & _).
  rewrite He. apply in_or_app. right. exact Hin.
Defined.

(** * Further properties of the translation unit *)

(** ** The element counts, where nothing wraps *)

Section CountsInRange.
Context `{!FrontEnd}.

(** X1: [ElementsInBuffer] counts the whole elements of the buffer: with
    elements of [elemSize] bytes every [stride] bytes from byte
    [offset mod stride] on, the last of the [n] counted ends within the
    (clamped) size and one more would not. *)
Theorem ElementsInBuffer_fits (attrib : gl.VertexAttribute) (size : Z) :
  let stride := ComputeVertexAttributeStride attrib in
  let elemSize := ComputeVertexAttributeTypeSize attrib in
  let clamped := Z.min size INT_MAX in
  let first := gl.offset attrib mod stride in
  let n := ElementsInBuffer attrib size in
  0 <= size < 2 ^ 32 -> 0 <= gl.offset attrib < 2 ^ 32 ->
  0 < stride < 2 ^ 31 -> 0 < elemSize ->
  first + elemSize <= clamped + stride ->
  0 <= n
  /\ first + (n - 1) * stride + elemSize <= clamped
  /\ clamped < first + n * stride + elemSize.
Proof.
  intros stride elemSize clamped first n Hs Ho Hst He Hw. subst n.
  rewrite ElementsInBuffer_exact by assumption.
  fold stride elemSize clamped first.
  pose proof (Z.mod_pos_bound (gl.offset attrib) stride ltac:(lia)) as Hm.
  fold first in Hm.
  set (num := clamped - first + (stride - elemSize)) in *.
  pose proof (Z.div_mod num stride ltac:(lia)) as Hdm.
  pose proof (Z.mod_pos_bound num stride ltac:(lia)) as Hnm.
  assert (0 <= num / stride) by (apply Z.div_pos; lia).
  repeat split; nia.
Qed.

End CountsInRange.

(** Ten bytes hold two whole pairs of shorts at a stride of 4 from
    byte 0 on; a third pair would end at byte 12. *)
Lemma ElementsInBuffer_fits_witness :
  @ElementsInBuffer Linear.frontEnd Linear.shorts 10 = 2
  /\ 0 + (2 - 1) * 4 + 4 <= 10 /\ 10 < 0 + 2 * 4 + 4.
Proof.
  pose proof (@ElementsInBuffer_fits Linear.frontEnd Linear.shorts 10
                ltac:(vm_compute; split; [discriminate|reflexivity])
                ltac:(vm_compute; split; [discriminate|reflexivity])
                ltac:(vm_compute; split; reflexivity)
                ltac:(reflexivity)
                ltac:(vm_compute; discriminate)) as Hfit.
  split; [reflexivity|]. exact (proj2 Hfit).
Defined.

(** Five instances at a divisor of 3 need two elements. *)
Lemma StreamingBufferElementCount_instances_witness :
  let attrib := gl.MkVertexAttribute true gl.GL_FLOAT 4 false 0 0 0 None 3 in
  StreamingBufferElementCount attrib 7 5 = 2.
Proof.
  intros attrib.
  pose proof (StreamingBufferElementCount_instances attrib 7 5
                ltac:(vm_compute; split; reflexivity) ltac:(reflexivity)
                ltac:(reflexivity)) as (Hn & _).
  rewrite Hn. reflexivity.
Defined.

(** ** The calls of a draw *)

Section Calls.
Context {VB : Type} `{!VertexBufferInterface VB} `{!FrontEnd}.

Ltac crunch := repeat case_match; simplify_eq/=; try done.

Lemma emits_refl (C : Event -> Prop) (w : World VB) : emits C w w.
Proof. exists []. rewrite app_nil_r. split; [reflexivity|constructor]. Qed.

Lemma emits_trans (C : Event -> Prop) (w0 w1 w2 : World VB) :
  emits C w0 w1 -> emits C w1 w2 -> emits C w0 w2.
Proof.
  intros (evs1 & He1 & Hc1) (evs2 & He2 & Hc2). exists (evs1 ++ evs2).
  split; [rewrite He2, He1, app_assoc; reflexivity|].
  apply Forall_app. auto.
Qed.

Lemma emits_weaken (C C' : Event -> Prop) (w0 w : World VB) :
  (forall e, C e -> C' e) -> emits C w0 w -> emits C' w0 w.
Proof.
  intros Himp (evs & He & Hc). exists evs. split; [exact He|].
  eapply Forall_impl; eauto.
Qed.

Ltac solve_emits :=
  first
    [ apply emits_refl
    | exists []; split; [simpl; rewrite app_nil_r; reflexivity|constructor]
    | eexists; split;
      [ simpl; rewrite <- ?app_assoc; reflexivity
      | repeat constructor ] ].

Lemma invalidateMatchingStaticData_emits (attrib : gl.VertexAttribute)
    (currentValue : gl.VertexAttribCurrentValueData) (w : World VB) :
  emits isInvalidate w (invalidateMatchingStaticData attrib currentValue w).
Proof. unfold invalidateMatchingStaticData. crunch; solve_emits. Qed.

Lemma reserveSpaceForAttrib_emits (attrib : gl.VertexAttribute)
    (currentValue : gl.VertexAttribCurrentValueData) (count instances : Z)
    (w : World VB) :
  emits isReservation w
    (reserveSpaceForAttrib attrib currentValue count instances w).2.
Proof. unfold reserveSpaceForAttrib. crunch; solve_emits. Qed.

Lemma storeAttribute_emits (currentValue : gl.VertexAttribCurrentValueData)
    (t : TranslatedAttribute.t) (start count instances : Z) (w : World VB) :
  emits isStoring w (storeAttribute currentValue t start count instances w).2.
Proof.
  unfold storeAttribute, static_storeVertexAttributes. crunch; solve_emits.
Qed.

Lemma storeCurrentValue_emits_calls
    (currentValue : gl.VertexAttribCurrentValueData)
    (t : TranslatedAttribute.t) (i : nat) (w : World VB) :
  emits isStoring w (storeCurrentValue currentValue t i w).2.
Proof. unfold storeCurrentValue. crunch; solve_emits. Qed.

Lemma hintUnmapAllResources_emits
    (vertexAttributes : list gl.VertexAttribute) (w : World VB) :
  emits isHint w (hintUnmapAllResources vertexAttributes w).
Proof.
  unfold hintUnmapAllResources.
  set (wa := match mStreamingBuffer w with Some _ => _ | None => _ end).
  assert (Ha : emits isHint w wa) by (subst wa; crunch; solve_emits).
  assert (Hb : forall l wb, emits isHint wb (foldl hintUnmapStatic wb l)).
  { induction l as [|x l IH]; intros wb; simpl; [apply emits_refl|].
    eapply emits_trans; [|apply IH].
    unfold hintUnmapStatic. crunch; solve_emits. }
  assert (Hc : forall l wb, emits isHint wb (foldl hintUnmapCurrentValue wb l)).
  { induction l as [|x l IH]; intros wb; simpl; [apply emits_refl|].
    eapply emits_trans; [|apply IH].
    unfold hintUnmapCurrentValue. crunch; solve_emits. }
  eapply emits_trans; [exact Ha|]. eapply emits_trans; [apply Hb|]. apply Hc.
Qed.

Lemma invalidatePass_emits (state : gl.State) (s : Pass) :
  emits isInvalidate s.2 (stateOf (invalidatePass state s)).2.
Proof.
  unfold invalidatePass.
  apply (forEach_preserves (invalidateBody state)
           (fun s' => emits isInvalidate s.2 s'.2)); [|apply emits_refl].
  intros k [tr w0] Hs. simpl in Hs. eapply emits_trans; [exact Hs|].
  unfold invalidateBody.
  pose proof (invalidateMatchingStaticData_emits) as Hinv.
  crunch; first [apply emits_refl|apply Hinv].
Qed.

Lemma reservePass_emits (state : gl.State) (count instances : Z) (s : Pass) :
  emits isReservation s.2 (stateOf (reservePass state count instances s)).2.
Proof.
  unfold reservePass.
  apply (forEach_preserves (reserveBody state count instances)
           (fun s' => emits isReservation s.2 s'.2)); [|apply emits_refl].
  intros k [tr w0] Hs. simpl in Hs. eapply emits_trans; [exact Hs|].
  unfold reserveBody.
  destruct (tr !! k) as [t|]; [|apply emits_refl].
  destruct (_ && _); [|apply emits_refl].
  pose proof (reserveSpaceForAttrib_emits (TranslatedAttribute.attribute t)
                (gl.getVertexAttribCurrentValue state k) count instances w0)
    as Hres.
  destruct (reserveSpaceForAttrib _ _ _ _ _) as [[e|f] w1]; simpl in *;
    [destruct (gl.isError e)|]; exact Hres.
Qed.

Lemma promotePass_emits (state : gl.State) (count : Z) (s : Pass) :
  emits isPromote s.2 (stateOf (promotePass state count s)).2.
Proof.
  unfold promotePass.
  apply (forEach_preserves (promoteBody state count)
           (fun s' => emits isPromote s.2 s'.2)); [|apply emits_refl].
  intros k [tr w0] Hs. simpl in Hs. eapply emits_trans; [exact Hs|].
  unfold promoteBody. crunch; solve_emits.
Qed.

(** The store loop stores, and hints when it leaves with a failure. *)
Lemma storePass_emits (state : gl.State) (start count instances : Z)
    (s : Pass) :
  match storePass state start count instances s with
  | Next s' => emits isStoring s.2 s'.2
  | Exit _ s' => exists wm, emits isStoring s.2 wm /\ emits isHint wm s'.2
  end.
Proof.
  unfold storePass.
  apply (forEach_seq_inv (storeBody state start count instances)
           (fun _ s' => emits isStoring s.2 s'.2)
           (fun _ s' => exists wm, emits isStoring s.2 wm
                                   /\ emits isHint wm s'.2));
    [apply emits_refl|].
  intros k [tr w0] _ Hs. simpl in Hs. unfold storeBody.
  destruct (tr !! k) as [t0|];
    [|exists w0; split; [exact Hs|apply emits_refl]].
  destruct (TranslatedAttribute.active t0); [|exact Hs].
  destruct (gl.enabled (TranslatedAttribute.attribute t0)).
  - pose proof (storeAttribute_emits (gl.getVertexAttribCurrentValue state k)
                  t0 start count instances w0) as Hst.
    destruct (storeAttribute _ t0 start count instances w0) as [[r t'] w'].
    simpl in Hst. pose proof (emits_trans _ _ _ _ Hs Hst) as Hall.
    destruct r as [e|f];
      [destruct (gl.isError e)|]; simpl;
      [exists w'; split; [exact Hall|apply hintUnmapAllResources_emits]
      |exact Hall
      |exists w'; split; [exact Hall|apply emits_refl]].
  - destruct (mCurrentValueCache w0 !! k) as [cached|];
      [|exists w0; split; [exact Hs|apply emits_refl]].
    match goal with
    | |- context [storeCurrentValue ?cv t0 k ?w1] =>
        assert (Hw1 : emits isStoring w0 w1)
          by (destruct (CurrentValueState.buffer cached); solve_emits);
        pose proof (storeCurrentValue_emits_calls cv t0 k w1) as Hst;
        destruct (storeCurrentValue cv t0 k w1) as [[r t'] w']
    end.
    simpl in Hst.
    pose proof (emits_trans _ _ _ _ Hs (emits_trans _ _ _ _ Hw1 Hst)) as Hall.
    destruct r as [e|f];
      [destruct (gl.isError e)|]; simpl;
      [exists w'; split; [exact Hall|apply hintUnmapAllResources_emits]
      |exact Hall
      |exists w'; split; [exact Hall|apply emits_refl]].
Qed.

(** X3: the calls of a draw come in phases: the invalidations of
    persistent caches, then the reservations, then the stores, then the
    unmap hints and last the usage promotions, of which a returned
    failure has none.  So no cache is invalidated once space was
    reserved, and nothing is stored once a buffer was hinted. *)
Theorem prepareVertexData_phases (state : gl.State) (start count : Z)
    (translated : list TranslatedAttribute.t) (instances : Z) (w : World VB) :
  let run := prepareVertexData state start count translated instances w in
  exists inv res sto hints proms,
    calls run.2.2 = calls w ++ inv ++ res ++ sto ++ hints ++ proms
    /\ Forall isInvalidate inv /\ Forall isReservation res
    /\ Forall isStoring sto /\ Forall isHint hints /\ Forall isPromote proms
    /\ (forall e, run.1 = Return e -> gl.isError e = true -> proms = []).
Proof.
  intros run.
  assert (Hchain : exists w1 w2 w3 w4,
    emits isInvalidate w w1 /\ emits isReservation w1 w2
    /\ emits isStoring w2 w3 /\ emits isHint w3 w4
    /\ emits isPromote w4 run.2.2
    /\ (forall e, run.1 = Return e -> gl.isError e = true ->
        w4 = run.2.2)).
  { subst run. unfold prepareVertexData.
    destruct (mStreamingBuffer w).
    2:{ exists w, w, w, w. simpl. repeat split; auto using emits_refl. }
    pose proof (invalidatePass_emits state (translated, w)) as H1.
    destruct (invalidatePass state (translated, w)) as [s1|r1 s1]; simpl in H1.
    2:{ exists s1.2, s1.2, s1.2, s1.2. simpl.
        repeat split; auto using emits_refl. }
    pose proof (reservePass_emits state count instances s1) as H2.
    destruct (reservePass state count instances s1) as [s2|r2 s2];
      simpl in H2.
    2:{ exists s1.2, s2.2, s2.2, s2.2. simpl.
        repeat split; auto using emits_refl. }
    pose proof (storePass_emits state start count instances s2) as H3.
    destruct (storePass state start count instances s2) as [[tr3 w3]|r3 s3].
    2:{ destruct H3 as (wm & H3 & H4). exists s1.2, s2.2, wm, s3.2. simpl.
        repeat split; auto using emits_refl. }
    simpl in H3.
    pose proof (promotePass_emits state count
      (tr3, hintUnmapAllResources (gl.getVertexAttributes state) w3)) as H5.
    pose proof (promotePass_exits state count
      (tr3, hintUnmapAllResources (gl.getVertexAttributes state) w3)) as Hex.
    exists s1.2, s2.2, w3,
      (hintUnmapAllResources (gl.getVertexAttributes state) w3).
    destruct (promotePass _ _ _) as [s4|r4 s4]; simpl in *;
      repeat split; auto using hintUnmapAllResources_emits.
    - intros e [= <-] He. discriminate He.
    - intros e Hr. congruence. }
  destruct Hchain as (w1 & w2 & w3 & w4 & (inv & E1 & C1) & (res & E2 & C2)
                      & (sto & E3 & C3) & (hints & E4 & C4)
                      & (proms & E5 & C5) & Hfail).
  assert (Hcases : (exists e, run.1 = Return e /\ gl.isError e = true)
                   \/ forall e, run.1 = Return e -> gl.isError e = true ->
                        False).
  { destruct run.1 as [e|f]; [destruct (gl.isError e) eqn:He|].
    - left. eauto.
    - right. intros e0 [= <-] He0. congruence.
    - right. intros e0 Hr. discriminate Hr. }
  destruct Hcases as [(e & Hr & He)|Hno].
  - exists inv, res, sto, hints, []. rewrite <- (Hfail e Hr He).
    rewrite E4, E3, E2, E1, <- !app_assoc, app_nil_r. repeat split; auto.
  - exists inv, res, sto, hints, proms.
    rewrite E5, E4, E3, E2, E1, <- !app_assoc. repeat split; auto.
    intros e Hr He. destruct (Hno e Hr He).
Qed.

(** *** The physical writes of a draw *)

Lemma emits_writes (C : Event -> Prop) (w w' : World VB) :
  (forall e, C e -> isStore e = false) -> emits C w w' ->
  physicalWrites (calls w') = physicalWrites (calls w).
Proof.
  intros HC (evs & -> & Hf). rewrite physicalWrites_app.
  enough (physicalWrites evs = 0%nat) by lia.
  unfold physicalWrites. induction Hf as [|e evs He _ IH]; simpl;
    [reflexivity|].
  rewrite (HC e He). exact IH.
Qed.

Ltac count_writes :=
  simpl; rewrite ?physicalWrites_app; unfold physicalWrites; simpl; lia.

Lemma storeAttribute_writes (currentValue : gl.VertexAttribCurrentValueData)
    (t : TranslatedAttribute.t) (start count instances : Z) (w : World VB) :
  (physicalWrites (calls (storeAttribute currentValue t start count
                            instances w).2)
   <= physicalWrites (calls w) + 1)%nat.
Proof.
  unfold storeAttribute, static_storeVertexAttributes. crunch; count_writes.
Qed.

Lemma storeCurrentValue_writes
    (currentValue : gl.VertexAttribCurrentValueData)
    (t : TranslatedAttribute.t) (i : nat) (w : World VB) :
  (physicalWrites (calls (storeCurrentValue currentValue t i w).2)
   <= physicalWrites (calls w) + 1)%nat.
Proof. unfold storeCurrentValue. crunch; count_writes. Qed.

Lemma hintUnmapAllResources_writes
    (vertexAttributes : list gl.VertexAttribute) (w : World VB) :
  physicalWrites (calls (hintUnmapAllResources vertexAttributes w))
  = physicalWrites (calls w).
Proof.
  apply (emits_writes isHint); [|apply hintUnmapAllResources_emits].
  intros [] He; simpl in *; tauto.
Qed.

Lemma storePass_writes (state : gl.State) (start count instances : Z)
    (s : Pass) :
  (physicalWrites (calls (stateOf (storePass state start count instances s)).2)
   <= physicalWrites (calls s.2) + MAX_VERTEX_ATTRIBS)%nat.
Proof.
  unfold storePass.
  pose proof (forEach_seq_inv (storeBody state start count instances)
    (fun k s' =>
       (physicalWrites (calls s'.2) <= physicalWrites (calls s.2) + k)%nat)
    (fun _ s' =>
       (physicalWrites (calls s'.2)
        <= physicalWrites (calls s.2) + MAX_VERTEX_ATTRIBS)%nat)
    MAX_VERTEX_ATTRIBS 0 s ltac:(simpl; lia)) as Hloop.
  destruct (forEach _ _ _) as [s1|r1 s1]; simpl; apply Hloop;
    intros k [tr w0] Hk Hs; simpl in Hs; unfold storeBody;
    (destruct (tr !! k) as [t0|]; [|simpl; lia]);
    (destruct (TranslatedAttribute.active t0); [|simpl; lia]);
    (destruct (gl.enabled (TranslatedAttribute.attribute t0));
     [pose proof (storeAttribute_writes (gl.getVertexAttribCurrentValue state k)
                    t0 start count instances w0) as Hw;
      destruct (storeAttribute _ _ _ _ _ _) as [[[e|f] t1] w1]; simpl in Hw;
      [destruct (gl.isError e); simpl;
       rewrite ?hintUnmapAllResources_writes; lia
      |simpl; lia]
     |destruct (mCurrentValueCache w0 !! k) as [cached|]; [|simpl; lia];
      match goal with
      | |- context [storeCurrentValue ?v ?t ?i ?w] =>
          pose proof (storeCurrentValue_writes v t i w) as Hw;
          assert (Hc : calls w = calls w0)
            by (destruct (CurrentValueState.buffer cached); reflexivity);
          rewrite Hc in Hw;
          destruct (storeCurrentValue v t i w) as [[[e|f] t1] w1]
      end; simpl in Hw;
      [destruct (gl.isError e); simpl;
       rewrite ?hintUnmapAllResources_writes; lia
      |simpl; lia]]).
Qed.

(** X9: a draw makes at most one physical write for each attribute slot:
    [prepareVertexData] adds at most [MAX_VERTEX_ATTRIBS] calls of
    [storeVertexAttributes] to those made before it. *)
Theorem prepareVertexData_writes (state : gl.State) (start count : Z)
    (translated : list TranslatedAttribute.t) (instances : Z) (w : World VB) :
  (physicalWrites
     (calls (prepareVertexData state start count translated instances w).2.2)
   <= physicalWrites (calls w) + MAX_VERTEX_ATTRIBS)%nat.
Proof.
  unfold prepareVertexData.
  destruct (mStreamingBuffer w); [|simpl; lia].
  pose proof (invalidatePass_emits state (translated, w)) as H1.
  apply emits_writes in H1; [|intros [] He; simpl in *; tauto].
  destruct (invalidatePass state (translated, w)) as [s1|r1 s1];
    simpl in H1; [|simpl; lia].
  pose proof (reservePass_emits state count instances s1) as H2.
  apply emits_writes in H2;
    [|intros [[]| | | |] He; simpl in *; try tauto; reflexivity].
  destruct (reservePass state count instances s1) as [s2|r2 s2];
    simpl in H2; [|simpl; lia].
  pose proof (storePass_writes state start count instances s2) as H3.
  destruct (storePass state start count instances s2) as [[tr3 w3]|r3 s3];
    simpl in H3; [|simpl; lia].
  pose proof (promotePass_emits state count
    (tr3, hintUnmapAllResources (gl.getVertexAttributes state) w3)) as H4.
  apply emits_writes in H4; [|intros [] He; simpl in *; tauto].
  simpl in H4. rewrite hintUnmapAllResources_writes in H4.
  destruct (promotePass _ _ _) as [s4|r4 s4]; simpl in *; lia.
Qed.

End Calls.

(** ** The records of a draw *)

Section Records.
Context {VB : Type} `{!VertexBufferInterface VB} `{!FrontEnd}.

Ltac crunch := repeat case_match; simplify_eq/=; try done.

Lemma agree_refl (tr : list TranslatedAttribute.t) : agree tr tr.
Proof. split; [reflexivity|]. intros i t1 t H1 H2. simplify_eq. auto. Qed.

Lemma agree_insert (tr1 tr : list TranslatedAttribute.t) (k : nat)
    (t0 t' : TranslatedAttribute.t) :
  agree tr1 tr -> tr !! k = Some t0 ->
  TranslatedAttribute.active t0 = true ->
  TranslatedAttribute.active t' = TranslatedAttribute.active t0 ->
  TranslatedAttribute.attribute t' = TranslatedAttribute.attribute t0 ->
  agree tr1 (<[k:=t']> tr).
Proof.
  intros [Hlen Hag] Hk Hact Ha Hb. split; [rewrite length_insert; exact Hlen|].
  intros i t1 t H1 H2. destruct (decide (i = k)) as [->|Hne].
  - rewrite list_lookup_insert_eq in H2 by (eapply lookup_lt_Some; eauto).
    injection H2 as <-. destruct (Hag k t1 t0 H1 Hk) as (Ha1 & Hb1 & Hc1).
    repeat split; try congruence.
  - rewrite list_lookup_insert_ne in H2 by congruence. eauto.
Qed.

Lemma storePass_agree (state : gl.State) (start count instances : Z)
    (s : Pass) :
  agree s.1 (stateOf (storePass state start count instances s)).1.
Proof.
  unfold storePass.
  apply (forEach_preserves (storeBody state start count instances)
           (fun s' => agree s.1 s'.1)); [|apply agree_refl].
  intros k [tr w0] Hag. simpl in Hag. unfold storeBody.
  destruct (tr !! k) as [t0|] eqn:Htk; [|exact Hag].
  destruct (TranslatedAttribute.active t0) eqn:Hact; [|exact Hag].
  destruct (gl.enabled (TranslatedAttribute.attribute t0)).
  - destruct (storeAttribute _ t0 start count instances w0) as [[r t'] w']
      eqn:Hst.
    apply storeAttribute_keeps in Hst as (Ha & Hb & _ & _).
    destruct r as [e|f]; [destruct (gl.isError e)|]; simpl;
      eapply agree_insert; eauto; congruence.
  - destruct (mCurrentValueCache w0 !! k) as [cached|]; [|exact Hag].
    destruct (storeCurrentValue _ t0 k _) as [[r t'] w'] eqn:Hst.
    apply storeCurrentValue_keeps in Hst as (Ha & Hb & _).
    destruct r as [e|f]; [destruct (gl.isError e)|]; simpl;
      eapply agree_insert; eauto; congruence.
Qed.

(** After the first loop every slot of the vertex array is flagged as
    the program consumes it, an unconsumed slot's record being otherwise
    as it was. *)
Lemma invalidatePass_flags (state : gl.State)
    (translated : list TranslatedAttribute.t) (w : World VB) :
  match invalidatePass state (translated, w) with
  | Next s =>
      length s.1 = length translated
      /\ forall j t0 t, (j < length (gl.getVertexAttributes state))%nat ->
           translated !! j = Some t0 -> s.1 !! j = Some t ->
           TranslatedAttribute.active t
           = negb (gl.getSemanticIndex state j =? -1)
           /\ (TranslatedAttribute.active t = false -> t = setActive false t0)
  | Exit r _ => True
  end.
Proof.
  unfold invalidatePass.
  pose proof (forEach_seq_inv (invalidateBody state)
    (fun k s =>
       length s.1 = length translated
       /\ (forall j, (k <= j)%nat -> s.1 !! j = translated !! j)
       /\ forall j t0 t, (j < k)%nat ->
            translated !! j = Some t0 -> s.1 !! j = Some t ->
            TranslatedAttribute.active t
            = negb (gl.getSemanticIndex state j =? -1)
            /\ (TranslatedAttribute.active t = false -> t = setActive false t0))
    (fun _ _ => True) (length (gl.getVertexAttributes state)) 0
    (translated, w)) as Hloop.
  destruct (forEach _ _ _) as [s1|r1 s1]; [|exact I].
  destruct Hloop as (Hlen & _ & Hflag).
  - simpl. split; [reflexivity|]. split; [reflexivity|]. intros; lia.
  - intros k [tr w0] _ (Hlen & Hrest & Hdone). simpl in *.
    unfold invalidateBody.
    destruct (tr !! k) as [tk|] eqn:Htk; [|exact I].
    destruct (gl.getVertexAttributes state !! k) as [attrib|]; [|exact I].
    assert (Hk : (k < length tr)%nat) by (eapply lookup_lt_Some; eauto).
    destruct (negb (gl.getSemanticIndex state k =? -1)) eqn:Hsem; simpl;
      (split; [rewrite length_insert; exact Hlen|]);
      (split;
       [intros j Hj; rewrite list_lookup_insert_ne by lia; apply Hrest; lia|]);
      intros j t0 t Hj H0 Ht;
      (destruct (decide (j = k)) as [->|Hne];
       [rewrite list_lookup_insert_eq in Ht by exact Hk;
        injection Ht as <-; simpl; rewrite Hsem;
        split; [reflexivity|]; intros Hf;
        rewrite Hrest in Htk by lia; congruence
       |rewrite list_lookup_insert_ne in Ht by congruence;
        apply (Hdone j t0 t); [lia|exact H0|exact Ht]]).
  - split; [exact Hlen|]. exact Hflag.
Qed.

(** X4: when [prepareVertexData] returns, with success or with a failure
    after its guard, the record of every slot of the vertex array is
    active exactly when the program consumes the slot; an active record
    holds the slot's attribute and an inactive one is otherwise as the
    caller passed it. *)
Theorem prepareVertexData_flags (state : gl.State) (start count : Z)
    (translated translated' : list TranslatedAttribute.t) (instances : Z)
    (w w' : World VB) (e : gl.Error) :
  is_Some (mStreamingBuffer w) ->
  prepareVertexData state start count translated instances w
  = (Return e, (translated', w')) ->
  length translated' = length translated
  /\ forall i t0 t, (i < length (gl.getVertexAttributes state))%nat ->
       translated !! i = Some t0 -> translated' !! i = Some t ->
       (TranslatedAttribute.active t = true
        <-> gl.getSemanticIndex state i <> -1)
       /\ (TranslatedAttribute.active t = true ->
           gl.getVertexAttributes state !! i
           = Some (TranslatedAttribute.attribute t))
       /\ (TranslatedAttribute.active t = false -> t = setActive false t0).
Proof.
  intros [vb Hvb] Hrun.
  assert (Hag : exists tr1 w1,
            invalidatePass state (translated, w) = Next (tr1, w1)
            /\ agree tr1 translated').
  { unfold prepareVertexData in Hrun. rewrite Hvb in Hrun.
    pose proof (invalidatePass_records state translated w) as Hrec.
    destruct (invalidatePass state (translated, w)) as [[tr1 w1]|r1 s1];
      [|congruence].
    exists tr1, w1. split; [reflexivity|].
    pose proof (reservePass_translated state count instances tr1 w1) as Hres.
    destruct (reservePass state count instances (tr1, w1))
      as [[tr2 w2]|r2 [tr2 w2]]; simpl in Hres; subst tr2.
    2:{ injection Hrun as _ <- _. apply agree_refl. }
    pose proof (storePass_agree state start count instances (tr1, w2)) as Hst.
    destruct (storePass state start count instances (tr1, w2))
      as [[tr3 w3]|r3 [tr3 w3]]; simpl in Hst.
    2:{ injection Hrun as _ <- _. exact Hst. }
    pose proof (promotePass_frame state count tr3
      (hintUnmapAllResources (gl.getVertexAttributes state) w3))
      as (Htr & _ & _).
    destruct (promotePass _ _ _) as [[tr4 w4]|r4 [tr4 w4]]; simpl in Htr;
      subst tr4; injection Hrun as _ <- _; exact Hst. }
  destruct Hag as (tr1 & w1 & Hinv & Hlen & Hag).
  pose proof (invalidatePass_flags state translated w) as Hflags.
  pose proof (invalidatePass_records state translated w) as Hrec.
  rewrite Hinv in Hflags, Hrec. simpl in Hflags, Hrec.
  destruct Hflags as (Hlen1 & Hflags).
  split; [congruence|].
  intros i t0 t Hi H0 Ht.
  assert (Hsome : is_Some (tr1 !! i)).
  { apply lookup_lt_is_Some. rewrite <- Hlen. eapply lookup_lt_Some; eauto. }
  destruct Hsome as [t1 H1].
  destruct (Hag i t1 t H1 Ht) as (Hact & Hattr & Hsame).
  destruct (Hflags i t0 t1 Hi H0 H1) as (Hf1 & Hf2).
  split; [|split].
  - rewrite Hact, Hf1.
    destruct (Z.eqb_spec (gl.getSemanticIndex state i) (-1)); simpl;
      split; congruence.
  - intros Ha. rewrite Hattr. apply (Hrec i t1 Hi H1). congruence.
  - intros Ha. rewrite Hact in Ha. rewrite (Hsame Ha). exact (Hf2 Ha).
Qed.

Lemma getImpl_inv (w : World VB) (attrib : gl.VertexAttribute) (b : nat)
    (bd : BufferD3D VB) :
  getImpl w attrib = Some (b, bd) <->
  gl.buffer attrib = Some b /\ buffers w !! b = Some bd.
Proof.
  unfold getImpl. split.
  - intros Hg. destruct (gl.buffer attrib) as [b0|]; simpl in Hg; [|discriminate].
    destruct (buffers w !! b0) as [bd0|] eqn:Hl; simpl in Hg; [|discriminate].
    injection Hg as -> ->. auto.
  - intros (-> & Hb). simpl. rewrite Hb. reflexivity.
Qed.

Lemma storeAttribute_record (currentValue : gl.VertexAttribCurrentValueData)
    (t t' : TranslatedAttribute.t) (start count instances : Z)
    (w w' : World VB) (e : gl.Error) :
  storeAttribute currentValue t start count instances w = (Return e, t', w') ->
  gl.isError e = false ->
  enabledRecord currentValue t'.
Proof.
  unfold storeAttribute. intros Hs He.
  destruct (bool_decide _ && _); [discriminate|].
  destruct (vertexBufferFor w (TranslatedAttribute.attribute t)) as [vb|];
    [|discriminate].
  destruct (directStoragePossible vb _ currentValue).
  - destruct (getImpl w (TranslatedAttribute.attribute t)) as [[b bd]|] eqn:Hi;
      [|discriminate].
    apply getImpl_inv in Hi as (Hb & _).
    injection Hs as <- <- <-. unfold enabledRecord. simpl.
    repeat split; [congruence|].
    destruct (getStaticVertexBuffer bd); simpl; eauto.
  - destruct (getStatic (getImpl w (TranslatedAttribute.attribute t)))
      as [[[b bd] sb]|] eqn:Hg.
    + apply getStatic_inv in Hg as (Hb & _ & _).
      crunch; try congruence; unfold enabledRecord; simpl; repeat split;
        eauto; intros; discriminate.
    + crunch; try congruence; unfold enabledRecord; simpl; repeat split;
        eauto; intros; discriminate.
Qed.

Lemma storePass_enabled (state : gl.State) (start count instances : Z)
    (s : Pass) :
  match storePass state start count instances s with
  | Next s' =>
      forall j t, (j < MAX_VERTEX_ATTRIBS)%nat -> s'.1 !! j = Some t ->
        TranslatedAttribute.active t = true ->
        gl.enabled (TranslatedAttribute.attribute t) = true ->
        enabledRecord (gl.getVertexAttribCurrentValue state j) t
  | Exit _ _ => True
  end.
Proof.
  unfold storePass.
  apply (forEach_seq_inv (storeBody state start count instances)
           (fun k s => forall j t, (j < k)%nat -> s.1 !! j = Some t ->
              TranslatedAttribute.active t = true ->
              gl.enabled (TranslatedAttribute.attribute t) = true ->
              enabledRecord (gl.getVertexAttribCurrentValue state j) t)
           (fun _ _ => True)).
  { intros j t Hj. lia. }
  intros k [tr w0] Hk Hinv. simpl in Hinv. unfold storeBody.
  destruct (tr !! k) as [t0|] eqn:Htk; [|exact I].
  assert (Hlen : (k < length tr)%nat) by (eapply lookup_lt_Some; eauto).
  destruct (TranslatedAttribute.active t0) eqn:Hact.
  2:{ intros j t Hj Hl Ha Hen. simpl in *.
      destruct (decide (j = k)) as [->|Hne]; [congruence|].
      apply Hinv; auto. lia. }
  destruct (gl.enabled (TranslatedAttribute.attribute t0)) eqn:Hen0.
  - destruct (storeAttribute _ t0 start count instances w0) as [[r t'] w']
      eqn:Hst.
    destruct r as [e|f]; [|exact I].
    destruct (gl.isError e) eqn:He; [exact I|].
    pose proof (storeAttribute_record _ _ _ _ _ _ _ _ _ Hst He) as Hrec.
    intros j t Hj Hl Ha Hen. simpl in *.
    destruct (decide (j = k)) as [->|Hne].
    + rewrite list_lookup_insert_eq in Hl by exact Hlen.
      injection Hl as <-. exact Hrec.
    + rewrite list_lookup_insert_ne in Hl by congruence.
      apply Hinv; auto. lia.
  - destruct (mCurrentValueCache w0 !! k) as [cached|]; [|exact I].
    destruct (storeCurrentValue _ t0 k _) as [[r t'] w'] eqn:Hst.
    apply storeCurrentValue_keeps in Hst as (Ha' & Hb' & _).
    destruct r as [e|f]; [|exact I].
    destruct (gl.isError e) eqn:He; [exact I|].
    intros j t Hj Hl Ha Hen. simpl in *.
    destruct (decide (j = k)) as [->|Hne].
    + rewrite list_lookup_insert_eq in Hl by exact Hlen.
      injection Hl as <-. congruence.
    + rewrite list_lookup_insert_ne in Hl by congruence.
      apply Hinv; auto. lia.
Qed.

(** X5: after a successful [prepareVertexData], the record of an active,
    enabled slot has the descriptor's divisor and the type of the slot's
    current value; the only source buffer it can refer to is the
    attribute's own, and its vertex buffer is the streaming buffer or
    that buffer's persistent cache, never a constant-value buffer. *)
Theorem prepareVertexData_enabled_record (state : gl.State)
    (start count : Z) (translated translated' : list TranslatedAttribute.t)
    (instances : Z) (w w' : World VB) (i : nat) (t : TranslatedAttribute.t) :
  prepareVertexData state start count translated instances w
  = (Return (gl.MkError gl.GL_NO_ERROR), (translated', w')) ->
  (i < MAX_VERTEX_ATTRIBS)%nat ->
  translated' !! i = Some t ->
  TranslatedAttribute.active t = true ->
  gl.enabled (TranslatedAttribute.attribute t) = true ->
  enabledRecord (gl.getVertexAttribCurrentValue state i) t.
Proof.
  intros Hrun Hi Ht Hact Hen. unfold prepareVertexData in Hrun.
  destruct (mStreamingBuffer w) as [vb0|] eqn:Hvb; [|discriminate].
  pose proof (invalidatePass_records state translated w) as Hinv.
  destruct (invalidatePass state (translated, w)) as [s1|r1 s1];
    [|congruence].
  pose proof (reservePass_exits state count instances s1) as Hres.
  destruct (reservePass state count instances s1) as [s2|r2 s2].
  2:{ injection Hrun as -> _. destruct Hres as [_ Hres].
      discriminate (Hres _ eq_refl). }
  pose proof (storePass_enabled state start count instances s2) as Hst.
  pose proof (storePass_disabled state start count instances s2.1 s2.2) as Hd.
  destruct s2 as [tr2 w2]. simpl in Hd.
  destruct (storePass state start count instances (tr2, w2))
    as [[tr3 w3]|r3 s3].
  2:{ injection Hrun as -> _. discriminate (Hd _ eq_refl). }
  simpl in Hst.
  pose proof (promotePass_exits state count
    (tr3, hintUnmapAllResources (gl.getVertexAttributes state) w3)) as Hex.
  pose proof (promotePass_frame state count tr3
    (hintUnmapAllResources (gl.getVertexAttributes state) w3))
    as (Htr & _ & _).
  destruct (promotePass _ _ _) as [s4|r4 s4]; [|congruence].
  injection Hrun as ->. simpl in Htr. subst tr3.
  exact (Hst i t Hi Ht Hact Hen).
Qed.

(** X13: a constant whose reservation or store fails is not taken as cached:
    the failure leaves the record alone and the slot with the value and
    the offset it had, so that the next call for the same constant
    reserves and stores again. *)
Theorem storeCurrentValue_failure
    (currentValue : gl.VertexAttribCurrentValueData)
    (t t' : TranslatedAttribute.t) (i : nat) (w w' : World VB)
    (e : gl.Error) (cs : CurrentValueState.t VB) :
  mCurrentValueCache w !! i = Some cs ->
  storeCurrentValue currentValue t i w = (Return e, t', w') ->
  gl.isError e = true ->
  t' = t
  /\ CurrentValueState.data cs <> currentValue
  /\ (exists cs',
        mCurrentValueCache w' !! i = Some cs'
        /\ CurrentValueState.data cs' = CurrentValueState.data cs
        /\ CurrentValueState.offset cs' = CurrentValueState.offset cs
        /\ is_Some (CurrentValueState.buffer cs'))
  /\ forall t2, exists evs,
       calls (storeCurrentValue currentValue t2 i w').2
       = calls w'
         ++ Reserve (CurrentValueRef i) (TranslatedAttribute.attribute t2) 1 0
            :: evs.
Proof.
  intros Hc Hs He.
  assert (Hi : (i < length (mCurrentValueCache w))%nat)
    by (eapply lookup_lt_Some; exact Hc).
  assert (Hretry : forall cs' w1,
    mCurrentValueCache w1 !! i = Some cs' ->
    is_Some (CurrentValueState.buffer cs') ->
    CurrentValueState.data cs' <> currentValue ->
    forall t2, exists evs,
      calls (storeCurrentValue currentValue t2 i w1).2
      = calls w1
        ++ Reserve (CurrentValueRef i) (TranslatedAttribute.attribute t2) 1 0
           :: evs).
  { intros cs' w1 Hc1 [vb1 Hb1] Hd1 t2. unfold storeCurrentValue.
    rewrite Hc1, Hb1. rewrite bool_decide_eq_true_2 by exact Hd1.
    destruct (reserveVertexSpace vb1 (TranslatedAttribute.attribute t2) 1 0)
      as [e1 vb2].
    destruct (gl.isError e1) eqn:He1.
    { exists []. simpl. rewrite He1. reflexivity. }
    destruct (storeVertexAttributes vb2 (TranslatedAttribute.attribute t2)
                currentValue 0 1 0) as [[e2 vb3] off].
    eexists [_]. destruct (gl.isError e2) eqn:He2; simpl; rewrite He2; simpl;
      rewrite <- app_assoc; reflexivity. }
  unfold storeCurrentValue in Hs. rewrite Hc in Hs.
  destruct (CurrentValueState.buffer cs) as [vb|] eqn:Hvb; [|discriminate].
  destruct (decide (CurrentValueState.data cs = currentValue)) as [Heq|Hne].
  { rewrite bool_decide_eq_false_2 in Hs by (intros Hn; exact (Hn Heq)).
    simpl in Hs. injection Hs as <- _ _. discriminate He. }
  rewrite bool_decide_eq_true_2 in Hs by exact Hne.
  destruct (reserveVertexSpace vb (TranslatedAttribute.attribute t) 1 0)
    as [e1 vb1].
  destruct (gl.isError e1) eqn:He1.
  { simpl in Hs. rewrite He1 in Hs. injection Hs as <- <- <-.
    split; [reflexivity|]. split; [exact Hne|].
    assert (Hl : mCurrentValueCache
                   (call (Reserve (CurrentValueRef i)
                            (TranslatedAttribute.attribute t) 1 0)
                      (setCurrentValue i
                         (CurrentValueState.Mk (Some vb1)
                            (CurrentValueState.data cs)
                            (CurrentValueState.offset cs)) w)) !! i
                 = Some (CurrentValueState.Mk (Some vb1)
                           (CurrentValueState.data cs)
                           (CurrentValueState.offset cs))).
    { simpl. apply list_lookup_insert_eq. exact Hi. }
    split; [eexists; split; [exact Hl|simpl; eauto]|].
    apply (Hretry _ _ Hl); simpl; eauto. }
  destruct (storeVertexAttributes vb1 (TranslatedAttribute.attribute t)
              currentValue 0 1 0) as [[e2 vb2] off].
  destruct (gl.isError e2) eqn:He2; simpl in Hs; rewrite He2 in Hs.
  2:{ injection Hs as <- _ _. discriminate He. }
  injection Hs as <- <- <-.
  split; [reflexivity|]. split; [exact Hne|].
  match goal with
  | |- (exists cs', mCurrentValueCache ?w1 !! i = _ /\ _) /\ _ =>
      assert (Hl : mCurrentValueCache w1 !! i
                   = Some (CurrentValueState.Mk (Some vb2)
                             (CurrentValueState.data cs)
                             (CurrentValueState.offset cs)))
  end.
  { simpl. apply list_lookup_insert_eq. rewrite length_insert. exact Hi. }
  split; [eexists; split; [exact Hl|simpl; eauto]|].
  apply (Hretry _ _ Hl); simpl; eauto.
Qed.

(** X12: on the persistent-cache path a hit makes no call at all: the record
    refers to the cache at the cached byte offset plus
    [(offset / stride + firstVertexIndex)] converted elements, the start
    of an instanced attribute not counting; and while those elements stay
    below [2^32] bytes, the call fails exactly when that sum does not fit
    [unsigned int]. *)
Theorem storeAttribute_cached
    (currentValue : gl.VertexAttribCurrentValueData)
    (t : TranslatedAttribute.t) (start count instances : Z) (w : World VB)
    (b : nat) (bd : BufferD3D VB) (sb : StaticVertexBufferInterface VB)
    (err : gl.Error) (required cached : Z) :
  let attrib := TranslatedAttribute.attribute t in
  let stride := ComputeVertexAttributeStride attrib in
  let index := gl.offset attrib / stride in
  getStatic (getImpl w attrib) = Some (b, bd, sb) ->
  directStoragePossible (sVertexBuffer sb) attrib currentValue = false ->
  getSpaceRequired (sVertexBuffer sb) attrib 1 0 = (err, required) ->
  gl.isError err = false ->
  lookupAttribute sb attrib = Some cached ->
  0 <= cached < 2 ^ 32 -> 0 <= required < 2 ^ 32 ->
  0 <= gl.offset attrib < 2 ^ 32 -> 0 < stride < 2 ^ 32 ->
  0 <= start -> 0 <= instances -> 0 <= gl.divisor attrib ->
  (index + start) * required < 2 ^ 32 ->
  exists firstVertexIndex,
    (0 < instances /\ 0 < gl.divisor attrib /\ firstVertexIndex = 0
     \/ ~ (0 < instances /\ 0 < gl.divisor attrib)
        /\ firstVertexIndex = start)
    /\ let total := cached + (index + firstVertexIndex) * required in
       (2 ^ 32 <= total ->
        storeAttribute currentValue t start count instances w
        = (Return (gl.MkError gl.GL_OUT_OF_MEMORY), t, w))
       /\ (total < 2 ^ 32 ->
           exists t',
             storeAttribute currentValue t start count instances w
             = (Return (gl.MkError gl.GL_NO_ERROR), t', w)
             /\ TranslatedAttribute.offset t' = total
             /\ TranslatedAttribute.stride t' = required
             /\ TranslatedAttribute.storage t' = None
             /\ TranslatedAttribute.vertexBuffer t' = Some (StaticRef b)
             /\ TranslatedAttribute.serial t' = getSerial (sVertexBuffer sb)).
Proof.
  intros attrib stride index Hg Hdirect Hreq Herr Hlook Hc Hr Ho Hst
    Hstart Hinst Hdiv Hfit.
  pose proof Hg as Hg'. apply getStatic_inv in Hg' as (Hb & _ & _).
  set (first := if (instances >? 0) && (gl.divisor attrib >? 0)
                then 0 else start).
  assert (Hfirst : 0 < instances /\ 0 < gl.divisor attrib /\ first = 0
                   \/ ~ (0 < instances /\ 0 < gl.divisor attrib)
                      /\ first = start).
  { subst first.
    destruct (Z.gtb_spec instances 0), (Z.gtb_spec (gl.divisor attrib) 0);
      simpl; [left|right|right|right]; repeat split; lia. }
  assert (Hindex : 0 <= index) by (apply Z.div_pos; lia).
  assert (Hf0 : 0 <= first <= start) by (destruct Hfirst as [(_&_&->)|(_&->)]; lia).
  assert (Hfe : u32 (u32 (gl.offset attrib) / u32 stride * u32 required)
                = index * required).
  { rewrite (u32_small (gl.offset attrib)), (u32_small stride),
      (u32_small required) by lia.
    fold index. apply u32_small. nia. }
  assert (Hso : (if (instances =? 0) || (gl.divisor attrib =? 0)
                 then u32 (first * u32 required) else 0)
                = first * required).
  { rewrite (u32_small required) by lia.
    destruct (Z.eqb_spec instances 0), (Z.eqb_spec (gl.divisor attrib) 0);
      simpl; try (apply u32_small; nia).
    destruct Hfirst as [(_&_&->)|(Hn&_)]; lia. }
  exists first. split; [exact Hfirst|].
  assert (Hrun : storeAttribute currentValue t start count instances w
    = if u32 (cached + index * required + first * required) <? cached
      then (Return (gl.MkError gl.GL_OUT_OF_MEMORY), t, w)
      else (Return (gl.MkError gl.GL_NO_ERROR),
            emit t None (StaticRef b) (getSerial (sVertexBuffer sb))
              (gl.divisor attrib) (gl.Type_ currentValue) required
              (u32 (cached + index * required + first * required)), w)).
  { unfold storeAttribute, vertexBufferFor. fold attrib.
    rewrite bool_decide_eq_false_2 by congruence. simpl.
    rewrite Hg, Hdirect, Hreq, Herr.
    rewrite (strideIsZero_false attrib) by (fold stride; lia).
    rewrite Hlook. simpl.
    fold stride. fold first. rewrite Hfe, Hso.
    rewrite (u32_small cached), (u32_small required) by lia. reflexivity. }
  pose proof (offset_guard_detects cached (index * required)
                (first * required) Hc ltac:(nia) ltac:(nia) ltac:(nia))
    as Hguard.
  replace (cached + (index + first) * required)
    with (cached + index * required + first * required) by ring.
  split.
  - intros Hover. rewrite Hrun. apply Hguard in Hover. rewrite Hover.
    reflexivity.
  - intros Hfits. rewrite Hrun.
    destruct (u32 (cached + index * required + first * required) <? cached)
      eqn:Hlt; [pose proof (proj1 Hguard eq_refl); lia|].
    eexists. split; [reflexivity|]. simpl.
    split; [apply u32_small; nia|]. auto.
Qed.

End Records.

(** ** What a draw keeps of the state *)

Section Shapes.
Context {VB : Type} `{!VertexBufferInterface VB} `{!FrontEnd}.

Ltac crunch := repeat case_match; simplify_eq/=; try done.

Lemma shape_call (e : Event) (w : World VB) : shape (call e w) = shape w.
Proof. reflexivity. Qed.

Lemma shape_setCurrentValue (i : nat) (cs : CurrentValueState.t VB)
    (w : World VB) :
  shape (setCurrentValue i cs w) = shape w.
Proof. unfold shape. simpl. rewrite length_insert. reflexivity. Qed.

Lemma shape_setStreaming (vb : VB) (w : World VB) :
  is_Some (mStreamingBuffer w) -> shape (setStreaming vb w) = shape w.
Proof.
  intros Hs. unfold shape. simpl.
  rewrite !bool_decide_eq_true_2 by eauto. reflexivity.
Qed.

Lemma shape_setBuffer (b : nat) (bd bd' : BufferD3D VB) (w : World VB) :
  buffers w !! b = Some bd -> bufferShape bd' = bufferShape bd ->
  shape (setBuffer b bd' w) = shape w.
Proof.
  intros Hb Hs. unfold shape. simpl. rewrite fmap_insert, Hs.
  rewrite insert_id; [reflexivity|]. rewrite lookup_fmap, Hb. reflexivity.
Qed.

Lemma bufferShape_setStatic (bd : BufferD3D VB)
    (sb : StaticVertexBufferInterface VB) :
  is_Some (getStaticVertexBuffer bd) ->
  bufferShape (setStatic bd sb) = bufferShape bd.
Proof.
  intros Hs. unfold bufferShape. simpl.
  rewrite !bool_decide_eq_true_2 by eauto. reflexivity.
Qed.

Ltac invert_lookups :=
  repeat match goal with
  | H : getStatic (getImpl _ _) = Some _ |- _ =>
      apply getStatic_inv in H as (? & ? & ?)
  | H : getImpl _ _ = Some _ |- _ => apply getImpl_inv in H as (? & ?)
  end.

Ltac solve_shape :=
  invert_lookups;
  repeat first
    [ rewrite shape_call
    | rewrite shape_setCurrentValue
    | rewrite shape_setStreaming by eauto
    | erewrite shape_setBuffer;
      [|eassumption
       |first [apply bufferShape_setStatic; eauto
              |unfold invalidateStaticData; apply bufferShape_setStatic; eauto]]];
  try reflexivity.

Lemma invalidateMatchingStaticData_shape (attrib : gl.VertexAttribute)
    (currentValue : gl.VertexAttribCurrentValueData) (w : World VB) :
  shape (invalidateMatchingStaticData attrib currentValue w) = shape w.
Proof. unfold invalidateMatchingStaticData. crunch; solve_shape. Qed.

Lemma reserveSpaceForAttrib_shape (attrib : gl.VertexAttribute)
    (currentValue : gl.VertexAttribCurrentValueData) (count instances : Z)
    (w : World VB) :
  shape (reserveSpaceForAttrib attrib currentValue count instances w).2
  = shape w.
Proof. unfold reserveSpaceForAttrib. crunch; solve_shape. Qed.

Lemma storeAttribute_shape (currentValue : gl.VertexAttribCurrentValueData)
    (t : TranslatedAttribute.t) (start count instances : Z) (w : World VB) :
  shape (storeAttribute currentValue t start count instances w).2 = shape w.
Proof.
  unfold storeAttribute, vertexBufferFor, static_storeVertexAttributes.
  crunch; solve_shape.
Qed.

Lemma storeCurrentValue_shape (currentValue : gl.VertexAttribCurrentValueData)
    (t : TranslatedAttribute.t) (i : nat) (w : World VB) :
  shape (storeCurrentValue currentValue t i w).2 = shape w.
Proof. unfold storeCurrentValue. crunch; solve_shape. Qed.

(** *** The unmap hints keep what is cached *)

Lemma bufferContents_shape (bd bd' : BufferD3D VB) :
  bufferContents bd' = bufferContents bd -> bufferShape bd' = bufferShape bd.
Proof.
  unfold bufferContents, bufferShape. intros [= -> -> Hc _].
  repeat f_equal. apply bool_decide_ext.
  destruct (getStaticVertexBuffer bd'), (getStaticVertexBuffer bd);
    simpl in Hc; try discriminate; split; intros [x Hx]; eauto; discriminate.
Qed.

Lemma hintUnmapStatic_contents (w : World VB) (x : gl.VertexAttribute) :
  bufferContents <$> buffers (hintUnmapStatic w x)
  = bufferContents <$> buffers w.
Proof.
  unfold hintUnmapStatic. destruct (gl.enabled x); [|reflexivity].
  destruct (getStatic (getImpl w x)) as [[[b bd] sb]|] eqn:Hg; [|reflexivity].
  apply getStatic_inv in Hg as (_ & Hb & Hs). simpl.
  rewrite fmap_insert. apply insert_id. rewrite lookup_fmap, Hb. simpl.
  unfold bufferContents. simpl. rewrite Hs. reflexivity.
Qed.

Lemma hintUnmapCurrentValue_length (l : list nat) :
  forall w : World VB,
    length (mCurrentValueCache (foldl hintUnmapCurrentValue w l))
    = length (mCurrentValueCache w).
Proof.
  induction l as [|x l IH]; intros w; simpl; [reflexivity|].
  rewrite IH. unfold hintUnmapCurrentValue. crunch.
  apply length_insert.
Qed.

Lemma slotContents_hintSlot (cs : CurrentValueState.t VB) :
  slotContents (hintSlot cs) = slotContents cs.
Proof.
  unfold hintSlot, slotContents.
  destruct (CurrentValueState.buffer cs) eqn:Hbuf; simpl; rewrite ?Hbuf;
    f_equal; apply bool_decide_ext; split; intros _; eauto.
Qed.

Lemma hintUnmapAllResources_contents
    (vertexAttributes : list gl.VertexAttribute) (w : World VB) :
  let w' := hintUnmapAllResources vertexAttributes w in
  bufferContents <$> buffers w' = bufferContents <$> buffers w
  /\ (forall i, slotContents <$> mCurrentValueCache w' !! i
                = slotContents <$> mCurrentValueCache w !! i)
  /\ (is_Some (mStreamingBuffer w') <-> is_Some (mStreamingBuffer w)).
Proof.
  unfold hintUnmapAllResources.
  set (wa := match mStreamingBuffer w with Some _ => _ | None => _ end).
  assert (Ha : buffers wa = buffers w
               /\ mCurrentValueCache wa = mCurrentValueCache w
               /\ (is_Some (mStreamingBuffer wa)
                   <-> is_Some (mStreamingBuffer w))).
  { subst wa. destruct (mStreamingBuffer w) eqn:Hs; simpl; rewrite ?Hs;
      repeat split; intros; try done; eauto. }
  destruct Ha as (Hab & Hac & Has).
  assert (Hb : forall l wb,
            bufferContents <$> buffers (foldl hintUnmapStatic wb l)
            = bufferContents <$> buffers wb).
  { induction l as [|x l IH]; intros wb; simpl; [reflexivity|].
    rewrite IH. apply hintUnmapStatic_contents. }
  destruct (hintUnmapStatic_fold vertexAttributes wa) as (Hs1 & Hc1 & _).
  pose proof (Hb vertexAttributes wa) as Hbw.
  set (wb := foldl hintUnmapStatic wa vertexAttributes) in *.
  destruct (hintUnmapCurrentValue_fold (length (mCurrentValueCache wb)) 0 wb)
    as (Hs2 & Hb2 & Hc2 & _).
  pose proof (hintUnmapCurrentValue_length
                (seq 0 (length (mCurrentValueCache wb))) wb) as Hlen.
  simpl. split; [|split].
  - rewrite Hb2, Hbw, Hab. reflexivity.
  - intros i. rewrite <- Hac, <- Hc1.
    destruct (mCurrentValueCache wb !! i) as [cs|] eqn:Hi.
    + rewrite (Hc2 i cs Hi). simpl. f_equal.
      destruct (decide _); [apply slotContents_hintSlot|reflexivity].
    + apply lookup_ge_None in Hi. rewrite (proj2 (lookup_ge_None _ _)); [reflexivity|].
      rewrite Hlen. exact Hi.
  - rewrite Hs2, Hs1. exact Has.
Qed.

Lemma hintUnmapAllResources_shape
    (vertexAttributes : list gl.VertexAttribute) (w : World VB) :
  shape (hintUnmapAllResources vertexAttributes w) = shape w.
Proof.
  destruct (hintUnmapAllResources_contents vertexAttributes w)
    as (Hb & Hc & Hs).
  unfold shape. f_equal; [f_equal|].
  - apply map_eq. intros b. rewrite !lookup_fmap.
    apply (f_equal (fun m => m !! b)) in Hb. rewrite !lookup_fmap in Hb.
    destruct (buffers (hintUnmapAllResources vertexAttributes w) !! b),
      (buffers w !! b); simpl in *; try discriminate; [|reflexivity].
    f_equal. apply bufferContents_shape. congruence.
  - apply bool_decide_ext. exact Hs.
  - apply Nat.le_antisymm.
    + destruct (Nat.le_gt_cases
        (length (mCurrentValueCache (hintUnmapAllResources vertexAttributes w)))
        (length (mCurrentValueCache w))) as [Hle|Hgt]; [exact Hle|].
      pose proof (Hc (length (mCurrentValueCache w))) as Hi.
      rewrite (proj2 (lookup_ge_None (mCurrentValueCache w) _)) in Hi by lia.
      destruct (lookup_lt_is_Some_2 _ _ Hgt) as [cs Hcs].
      rewrite Hcs in Hi. discriminate.
    + destruct (Nat.le_gt_cases (length (mCurrentValueCache w))
        (length (mCurrentValueCache (hintUnmapAllResources vertexAttributes w))))
        as [Hle|Hgt]; [exact Hle|].
      pose proof (Hc (length (mCurrentValueCache
                    (hintUnmapAllResources vertexAttributes w)))) as Hi.
      rewrite (proj2 (lookup_ge_None
                 (mCurrentValueCache (hintUnmapAllResources vertexAttributes w))
                 _)) in Hi by lia.
      destruct (lookup_lt_is_Some_2 _ _ Hgt) as [cs Hcs].
      rewrite Hcs in Hi. discriminate.
Qed.

(** X10: the unmap hints lose nothing that the manager has cached:
    [hintUnmapAllResources] only passes the hint on to destination
    buffers, so that after it every persistent cache answers a lookup as
    before, every constant-value slot has the value and offset it had,
    and the buffers are as many and as large as before. *)
Theorem hintUnmapAllResources_keeps
    (vertexAttributes : list gl.VertexAttribute) (w : World VB) :
  let w' := hintUnmapAllResources vertexAttributes w in
  (forall attrib signature,
     cachedOffset w' attrib signature = cachedOffset w attrib signature)
  /\ (forall i, slotContents <$> mCurrentValueCache w' !! i
                = slotContents <$> mCurrentValueCache w !! i)
  /\ shape w' = shape w.
Proof.
  intros w'. subst w'.
  destruct (hintUnmapAllResources_contents vertexAttributes w)
    as (Hb & Hc & Hs).
  split; [|split; [exact Hc|apply hintUnmapAllResources_shape]].
  intros attrib signature. unfold cachedOffset, getStatic, getImpl.
  destruct (gl.buffer attrib) as [b|]; [|reflexivity]. simpl.
  apply (f_equal (fun m => m !! b)) in Hb. rewrite !lookup_fmap in Hb.
  destruct (buffers (hintUnmapAllResources vertexAttributes w) !! b) as [bd'|],
    (buffers w !! b) as [bd|]; simpl in *; try discriminate; [|reflexivity].
  injection Hb as _ _ Hcache _.
  destruct (getStaticVertexBuffer bd') as [sb'|],
    (getStaticVertexBuffer bd) as [sb|]; simpl in *; try discriminate;
    [|reflexivity].
  unfold lookupAttribute. congruence.
Qed.

(** *** What is reserved is what is stored *)

Ltac one_event :=
  simpl in *;
  repeat match goal with
  | H : ?l = ?l ++ [_] |- _ => destruct (app_singleton_neq _ _ H)
  | H : ?l ++ [_] = ?l ++ [_] |- _ => apply app_inv_head in H
  | H : (?l ++ [_]) ++ [_] = ?l ++ [_] |- _ =>
      rewrite <- app_assoc in H; apply app_inv_head in H; discriminate H
  end;
  simplify_eq.

Lemma reserveSpaceForAttrib_event (attrib : gl.VertexAttribute)
    (currentValue : gl.VertexAttribCurrentValueData) (count instances : Z)
    (w : World VB) (r : BufferRef) (a : gl.VertexAttribute) (n i : Z) :
  calls (reserveSpaceForAttrib attrib currentValue count instances w).2
  = calls w ++ [Reserve r a n i] ->
  a = attrib
  /\ ((exists b bd sb,
         getStatic (getImpl w attrib) = Some (b, bd, sb)
         /\ r = StaticRef b /\ n = ElementsInBuffer attrib (getSize bd)
         /\ i = 0)
      \/ getStatic (getImpl w attrib) = None
         /\ r = StreamingRef
         /\ n = StreamingBufferElementCount attrib count instances
         /\ i = instances).
Proof.
  unfold reserveSpaceForAttrib. intros Hc.
  destruct (getStatic (getImpl w attrib)) as [[[b bd] sb]|] eqn:Hg.
  - crunch; one_event; (split; [reflexivity|left; eauto 10]).
  - crunch; one_event; (split; [reflexivity|right; eauto]).
Qed.

Lemma storeAttribute_event (currentValue v : gl.VertexAttribCurrentValueData)
    (t : TranslatedAttribute.t) (start count instances : Z) (w : World VB)
    (r : BufferRef) (a : gl.VertexAttribute) (s n i : Z) :
  let attrib := TranslatedAttribute.attribute t in
  calls (storeAttribute currentValue t start count instances w).2
  = calls w ++ [Store r a v s n i] ->
  a = attrib /\ v = currentValue
  /\ ((exists b bd sb,
         getStatic (getImpl w attrib) = Some (b, bd, sb)
         /\ lookupAttribute sb attrib = None
         /\ r = StaticRef b /\ n = ElementsInBuffer attrib (getSize bd)
         /\ i = 0
         /\ s = i32 (- i32 (u32 (gl.offset attrib)
                            / u32 (ComputeVertexAttributeStride attrib))))
      \/ getStatic (getImpl w attrib) = None
         /\ r = StreamingRef
         /\ n = StreamingBufferElementCount attrib count instances
         /\ i = instances
         /\ s = (if (instances >? 0) && (gl.divisor attrib >? 0)
                 then 0 else start)).
Proof.
  intros attrib. unfold storeAttribute, vertexBufferFor. fold attrib.
  intros Hc.
  destruct (getStatic (getImpl w attrib)) as [[[b bd] sb]|] eqn:Hg.
  - unfold static_storeVertexAttributes in Hc.
    crunch; one_event;
      (split; [reflexivity|split; [reflexivity|left; eauto 12]]).
  - crunch; one_event;
      (split; [reflexivity|split; [reflexivity|right; eauto]]).
Qed.

Lemma shape_getStatic (w w' : World VB) (attrib : gl.VertexAttribute) :
  shape w' = shape w ->
  match getStatic (getImpl w attrib), getStatic (getImpl w' attrib) with
  | Some (b, bd, _), Some (b', bd', _) => b' = b /\ getSize bd' = getSize bd
  | None, None => True
  | _, _ => False
  end.
Proof.
  intros Hs. unfold shape in Hs. injection Hs as Hb _ _.
  unfold getStatic, getImpl.
  destruct (gl.buffer attrib) as [b|]; simpl; [|exact I].
  apply (f_equal (fun m => m !! b)) in Hb. rewrite !lookup_fmap in Hb.
  destruct (buffers w !! b) as [bd|], (buffers w' !! b) as [bd'|];
    simpl in *; try discriminate; [|exact I].
  injection Hb as Hsize _ Hst.
  destruct (getStaticVertexBuffer bd) as [sb|],
    (getStaticVertexBuffer bd') as [sb'|]; simpl; auto.
  - rewrite bool_decide_eq_false_2 in Hst by (intros [x Hx]; discriminate).
    rewrite bool_decide_eq_true_2 in Hst by eauto. discriminate.
  - rewrite bool_decide_eq_true_2 in Hst by eauto.
    rewrite bool_decide_eq_false_2 in Hst by (intros [x Hx]; discriminate).
    discriminate.
Qed.

(** X11: the store of an attribute is for what was reserved for it: when
    [reserveSpaceForAttrib] has reserved and [storeAttribute] later
    stores, in a state with the same buffers, the store goes to the
    buffer of the reservation, for the same number of elements and
    instances. *)
Theorem storeAttribute_stores_reserved
    (currentValue v : gl.VertexAttribCurrentValueData)
    (t : TranslatedAttribute.t) (start count instances : Z)
    (w w' : World VB) (r r' : BufferRef) (a a' : gl.VertexAttribute)
    (n i s n' i' : Z) :
  shape w' = shape w ->
  calls (reserveSpaceForAttrib (TranslatedAttribute.attribute t) currentValue
           count instances w).2
  = calls w ++ [Reserve r a n i] ->
  calls (storeAttribute currentValue t start count instances w').2
  = calls w' ++ [Store r' a' v s n' i'] ->
  r' = r /\ a' = a /\ n' = n /\ i' = i.
Proof.
  intros Hshape Hres Hst.
  apply reserveSpaceForAttrib_event in Hres as (-> & Hres).
  apply storeAttribute_event in Hst as (-> & _ & Hst).
  pose proof (shape_getStatic w w' (TranslatedAttribute.attribute t) Hshape)
    as Hsame.
  destruct Hres as [(b & bd & sb & Hg & -> & -> & ->)|(Hg & -> & -> & ->)];
    destruct Hst as [(b' & bd' & sb' & Hg' & _ & -> & -> & -> & _)
                    |(Hg' & -> & -> & -> & _)];
    rewrite Hg, Hg' in Hsame; try contradiction.
  - destruct Hsame as (-> & ->). auto.
  - auto.
Qed.

(** *** When a draw returns *)

Lemma shape_lookup (w w' : World VB) (b : nat) :
  shape w' = shape w ->
  match buffers w !! b, buffers w' !! b with
  | Some bd, Some bd' =>
      getSize bd' = getSize bd
      /\ (getStaticVertexBuffer bd' = None <-> getStaticVertexBuffer bd = None)
  | None, None => True
  | _, _ => False
  end.
Proof.
  intros Hs. unfold shape in Hs. injection Hs as Hb _ _.
  apply (f_equal (fun m => m !! b)) in Hb. rewrite !lookup_fmap in Hb.
  destruct (buffers w !! b) as [bd|], (buffers w' !! b) as [bd'|];
    simpl in *; try discriminate; [|exact I].
  injection Hb as Hsize _ Hst. split; [exact Hsize|].
  destruct (getStaticVertexBuffer bd), (getStaticVertexBuffer bd');
    [split; intros; discriminate
    |exfalso; cbv in Hst; discriminate Hst
    |exfalso; cbv in Hst; discriminate Hst
    |tauto].
Qed.

Lemma shape_streaming (w w' : World VB) :
  shape w' = shape w -> is_Some (mStreamingBuffer w) ->
  is_Some (mStreamingBuffer w').
Proof.
  intros Hs Hw. unfold shape in Hs. injection Hs as _ Hb _.
  rewrite (bool_decide_eq_true_2 _ Hw) in Hb.
  apply bool_decide_eq_true_1 in Hb. exact Hb.
Qed.

Lemma shape_slots (w w' : World VB) :
  shape w' = shape w ->
  length (mCurrentValueCache w') = length (mCurrentValueCache w).
Proof. intros Hs. unfold shape in Hs. injection Hs as _ _ Hl. exact Hl. Qed.

Lemma reserveSpaceForAttrib_returns (attrib : gl.VertexAttribute)
    (currentValue : gl.VertexAttribCurrentValueData) (count instances : Z)
    (w : World VB) :
  is_Some (mStreamingBuffer w) ->
  (gl.buffer attrib <> None -> strideIsZero attrib = false) ->
  (forall b bd, getImpl w attrib = Some (b, bd) ->
     getStaticVertexBuffer bd = None ->
     StreamingBufferElementCount attrib count instances
     <= ElementsInBuffer attrib (getSize bd)) ->
  exists e,
    (reserveSpaceForAttrib attrib currentValue count instances w).1 = Return e.
Proof.
  intros [vb Hvb] Hstride Hcount. unfold reserveSpaceForAttrib.
  destruct (getStatic (getImpl w attrib)) as [[[b bd] sb]|] eqn:Hg.
  - apply getStatic_inv in Hg as (Hb & _ & _).
    rewrite Hstride by congruence. crunch; eauto.
  - rewrite Hvb.
    destruct (negb (directStoragePossible vb attrib currentValue));
      [|simpl; eauto].
    destruct (getImpl w attrib) as [[b bd]|] eqn:Hi.
    + assert (Hnone : getStaticVertexBuffer bd = None).
      { unfold getStatic in Hg. simpl in Hg.
        destruct (getStaticVertexBuffer bd); [discriminate|reflexivity]. }
      pose proof (Hcount b bd eq_refl Hnone) as Hle.
      apply getImpl_inv in Hi as (Hb & _).
      rewrite Hstride by congruence.
      destruct (Z.geb_spec (ElementsInBuffer attrib (getSize bd))
                  (StreamingBufferElementCount attrib count instances));
        [|lia].
      crunch; eauto.
    + crunch; eauto.
Qed.

Lemma storeAttribute_returns (currentValue : gl.VertexAttribCurrentValueData)
    (t : TranslatedAttribute.t) (start count instances : Z) (w : World VB) :
  let attrib := TranslatedAttribute.attribute t in
  is_Some (mStreamingBuffer w) ->
  gl.buffer attrib <> None \/ gl.pointer attrib <> 0 ->
  (forall vb, directStoragePossible vb attrib currentValue = true ->
     is_Some (gl.buffer attrib)) ->
  (forall b, gl.buffer attrib = Some b -> is_Some (buffers w !! b)) ->
  (gl.buffer attrib <> None -> strideIsZero attrib = false) ->
  exists e,
    (storeAttribute currentValue t start count instances w).1.1 = Return e.
Proof.
  intros attrib [vb0 Hvb] Hsrc Hdirect Hheap Hstride.
  pose proof (storeAttribute_asserts currentValue t start count instances w
                Hsrc) as Hno.
  unfold storeAttribute, vertexBufferFor in *. fold attrib in Hno |- *.
  destruct (bool_decide (gl.buffer attrib = None) && (gl.pointer attrib =? 0));
    [contradiction Hno; reflexivity|]. clear Hno.
  destruct (getStatic (getImpl w attrib)) as [[[b bd] sb]|] eqn:Hg.
  - pose proof Hg as Hg'. apply getStatic_inv in Hg' as (Hb & Hl & _).
    assert (Hi : getImpl w attrib = Some (b, bd))
      by (apply getImpl_inv; auto).
    rewrite Hi, Hstride by congruence.
    unfold static_storeVertexAttributes. crunch; eauto.
  - rewrite Hvb.
    destruct (directStoragePossible vb0 attrib currentValue) eqn:Hd.
    + destruct (Hdirect vb0 Hd) as [b Hb].
      destruct (Hheap b Hb) as [bd Hl].
      assert (Hi : getImpl w attrib = Some (b, bd))
        by (apply getImpl_inv; auto).
      rewrite Hi. simpl. eauto.
    + crunch; eauto.
Qed.

Lemma storeCurrentValue_returns
    (currentValue : gl.VertexAttribCurrentValueData)
    (t : TranslatedAttribute.t) (i : nat) (w : World VB)
    (cs : CurrentValueState.t VB) :
  mCurrentValueCache w !! i = Some cs ->
  is_Some (CurrentValueState.buffer cs) ->
  exists e, (storeCurrentValue currentValue t i w).1.1 = Return e.
Proof.
  intros Hc [vb Hvb]. unfold storeCurrentValue. rewrite Hc, Hvb.
  crunch; eauto.
Qed.

Lemma invalidatePass_shape (state : gl.State) (s : Pass) :
  shape (stateOf (invalidatePass state s)).2 = shape s.2.
Proof.
  unfold invalidatePass.
  apply (forEach_preserves (invalidateBody state)
           (fun s' => shape s'.2 = shape s.2)); [|reflexivity].
  intros k [tr w0] Hs. simpl in Hs. rewrite <- Hs. unfold invalidateBody.
  pose proof invalidateMatchingStaticData_shape as Hinv. crunch.
Qed.

Lemma reservePass_shape (state : gl.State) (count instances : Z) (s : Pass) :
  shape (stateOf (reservePass state count instances s)).2 = shape s.2.
Proof.
  unfold reservePass.
  apply (forEach_preserves (reserveBody state count instances)
           (fun s' => shape s'.2 = shape s.2)); [|reflexivity].
  intros k [tr w0] Hs. simpl in Hs. rewrite <- Hs. unfold reserveBody.
  destruct (tr !! k) as [t|]; [|reflexivity].
  destruct (_ && _); [|reflexivity].
  pose proof (reserveSpaceForAttrib_shape (TranslatedAttribute.attribute t)
                (gl.getVertexAttribCurrentValue state k) count instances w0)
    as Hres.
  destruct (reserveSpaceForAttrib _ _ _ _ _) as [[e|f] w1]; simpl in *;
    [destruct (gl.isError e)|]; exact Hres.
Qed.

Lemma storePass_shape (state : gl.State) (start count instances : Z)
    (s : Pass) :
  shape (stateOf (storePass state start count instances s)).2 = shape s.2.
Proof.
  unfold storePass.
  apply (forEach_preserves (storeBody state start count instances)
           (fun s' => shape s'.2 = shape s.2)); [|reflexivity].
  intros k [tr w0] Hs. simpl in Hs. rewrite <- Hs. unfold storeBody.
  destruct (tr !! k) as [t0|]; [|reflexivity].
  destruct (TranslatedAttribute.active t0); [|reflexivity].
  destruct (gl.enabled (TranslatedAttribute.attribute t0)).
  - pose proof (storeAttribute_shape (gl.getVertexAttribCurrentValue state k)
                  t0 start count instances w0) as Hst.
    destruct (storeAttribute _ t0 start count instances w0) as [[r t'] w'].
    simpl in Hst.
    destruct r as [e|f]; [destruct (gl.isError e)|]; simpl;
      rewrite ?hintUnmapAllResources_shape; exact Hst.
  - destruct (mCurrentValueCache w0 !! k) as [cached|]; [|reflexivity].
    match goal with
    | |- context [storeCurrentValue ?cv t0 k ?w1] =>
        assert (Hw1 : shape w1 = shape w0)
          by (destruct (CurrentValueState.buffer cached);
              [reflexivity|apply shape_setCurrentValue]);
        pose proof (storeCurrentValue_shape cv t0 k w1) as Hst;
        destruct (storeCurrentValue cv t0 k w1) as [[r t'] w']
    end.
    simpl in Hst. rewrite Hw1 in Hst.
    destruct r as [e|f]; [destruct (gl.isError e)|]; simpl;
      rewrite ?hintUnmapAllResources_shape; exact Hst.
Qed.

Lemma invalidatePass_next (state : gl.State) (s : Pass) :
  (length (gl.getVertexAttributes state) <= length s.1)%nat ->
  exists s', invalidatePass state s = Next s' /\ length s'.1 = length s.1.
Proof.
  intros Hlen. unfold invalidatePass.
  pose proof (forEach_seq_inv (invalidateBody state)
                (fun _ s' => length s'.1 = length s.1) (fun _ _ => False)
                (length (gl.getVertexAttributes state)) 0 s eq_refl) as Hloop.
  destruct (forEach _ _ _) as [s1|r1 s1].
  - exists s1. split; [reflexivity|]. apply Hloop.
    intros k [tr w0] Hk Hl. simpl in *. unfold invalidateBody.
    destruct (lookup_lt_is_Some_2 tr k ltac:(lia)) as [t Ht].
    destruct (lookup_lt_is_Some_2 (gl.getVertexAttributes state) k ltac:(lia))
      as [a Ha].
    rewrite Ht, Ha. crunch; rewrite length_insert; exact Hl.
  - exfalso. apply Hloop.
    intros k [tr w0] Hk Hl. simpl in *. unfold invalidateBody.
    destruct (lookup_lt_is_Some_2 tr k ltac:(lia)) as [t Ht].
    destruct (lookup_lt_is_Some_2 (gl.getVertexAttributes state) k ltac:(lia))
      as [a Ha].
    rewrite Ht, Ha. crunch; rewrite length_insert; exact Hl.
Qed.

Lemma promotePass_next (state : gl.State) (count : Z) (s : Pass) :
  (MAX_VERTEX_ATTRIBS <= length (gl.getVertexAttributes state))%nat ->
  (MAX_VERTEX_ATTRIBS <= length s.1)%nat ->
  exists s', promotePass state count s = Next s'.
Proof.
  intros Ha Ht. unfold promotePass.
  pose proof (forEach_seq_inv (promoteBody state count)
                (fun _ s' => s'.1 = s.1) (fun _ _ => False)
                MAX_VERTEX_ATTRIBS 0 s eq_refl) as Hloop.
  destruct (forEach _ _ _) as [s1|r1 s1]; [eauto|].
  exfalso. apply Hloop.
  intros k [tr w0] Hk Hl. simpl in *. subst tr. unfold promoteBody.
  destruct (lookup_lt_is_Some_2 s.1 k ltac:(lia)) as [t Htk].
  destruct (lookup_lt_is_Some_2 (gl.getVertexAttributes state) k ltac:(lia))
    as [a Hak].
  rewrite Htk, Hak. crunch.
Qed.

(** X6: [prepareVertexData] returns, with success or with a failure, and
    stops at no assertion, null pointer, array bound or division by
    zero, when the manager has its streaming buffer, the vertex array,
    the records and the constant-value slots cover the attribute slots,
    every enabled attribute has a source, a bound buffer is a live one
    and its attribute has a positive stride, data is only used in place
    out of a server buffer, and a server buffer that is streamed holds
    the elements the draw needs, by a count whose numerator does not
    wrap. *)
Theorem prepareVertexData_returns (state : gl.State) (start count : Z)
    (translated : list TranslatedAttribute.t) (instances : Z) (w : World VB) :
  is_Some (mStreamingBuffer w) ->
  length (gl.getVertexAttributes state) = MAX_VERTEX_ATTRIBS ->
  (MAX_VERTEX_ATTRIBS <= length translated)%nat ->
  (MAX_VERTEX_ATTRIBS <= length (mCurrentValueCache w))%nat ->
  (forall a, In a (gl.getVertexAttributes state) -> gl.enabled a = true ->
     gl.buffer a <> None \/ gl.pointer a <> 0) ->
  (forall a b, In a (gl.getVertexAttributes state) -> gl.enabled a = true ->
     gl.buffer a = Some b -> is_Some (buffers w !! b)) ->
  (forall vb a cv, directStoragePossible vb a cv = true ->
     is_Some (gl.buffer a)) ->
  (forall a, In a (gl.getVertexAttributes state) -> gl.enabled a = true ->
     gl.buffer a <> None -> 0 < ComputeVertexAttributeStride a < 2 ^ 31) ->
  (forall a b bd, In a (gl.getVertexAttributes state) ->
     gl.enabled a = true -> getImpl w a = Some (b, bd) ->
     getStaticVertexBuffer bd = None ->
     let stride := ComputeVertexAttributeStride a in
     let elemSize := ComputeVertexAttributeTypeSize a in
     let clamped := Z.min (getSize bd) INT_MAX in
     0 <= getSize bd < 2 ^ 32 /\ 0 <= gl.offset a < 2 ^ 32 /\ 0 < elemSize
     /\ gl.offset a mod stride + elemSize <= clamped + stride
     /\ StreamingBufferElementCount a count instances
        <= (clamped - gl.offset a mod stride + (stride - elemSize)) / stride) ->
  exists e,
    (prepareVertexData state start count translated instances w).1 = Return e.
Proof.
  intros Hstream Hattrs Htr Hslots Hsrc Hheap Hdirect Hstride Hcount.
  assert (Hnz : forall a, In a (gl.getVertexAttributes state) ->
            gl.enabled a = true -> gl.buffer a <> None ->
            strideIsZero a = false).
  { intros a Hina Hen Hb. apply strideIsZero_false.
    pose proof (Hstride a Hina Hen Hb). lia. }
  unfold prepareVertexData. destruct Hstream as [vb0 Hvb]. rewrite Hvb.
  destruct (invalidatePass_next state (translated, w) ltac:(simpl; lia))
    as ([tr1 w1] & Hinv & Hlen1). simpl in Hlen1.
  pose proof (invalidatePass_records state translated w) as Hrec.
  pose proof (invalidatePass_shape state (translated, w)) as Hsh1.
  rewrite Hinv in Hrec, Hsh1 |- *. simpl in Hrec, Hsh1.
  assert (Hin : forall k t, (k < MAX_VERTEX_ATTRIBS)%nat -> tr1 !! k = Some t ->
            TranslatedAttribute.active t = true ->
            In (TranslatedAttribute.attribute t) (gl.getVertexAttributes state)).
  { intros k t Hk Ht Ha. apply list_elem_of_In, list_elem_of_lookup.
    exists k. apply (Hrec k t); [lia|exact Ht|exact Ha]. }
  assert (Hlive : forall w0 : World VB, shape w0 = shape w ->
            is_Some (mStreamingBuffer w0)).
  { intros w0 Hs. apply (shape_streaming w w0 Hs). rewrite Hvb. eauto. }
  (* the reservation loop *)
  pose proof (forEach_seq_inv (reserveBody state count instances)
    (fun _ s => s.1 = tr1 /\ shape s.2 = shape w)
    (fun r _ => exists e, r = Return e)
    MAX_VERTEX_ATTRIBS 0 (tr1, w1) (conj eq_refl Hsh1)) as Hres.
  fold (reservePass state count instances (tr1, w1)) in Hres.
  assert (Hrbody : forall k s, (0 <= k < 0 + MAX_VERTEX_ATTRIBS)%nat ->
    s.1 = tr1 /\ shape s.2 = shape w ->
    match reserveBody state count instances k s with
    | Next s' => s'.1 = tr1 /\ shape s'.2 = shape w
    | Exit r _ => exists e, r = Return e
    end).
  { intros k [tr w0] Hk (Heq & Hs). simpl in *. subst tr.
    unfold reserveBody.
    destruct (lookup_lt_is_Some_2 tr1 k ltac:(lia)) as [t Ht]. rewrite Ht.
    destruct (TranslatedAttribute.active t) eqn:Hact; simpl; [|auto].
    destruct (gl.enabled (TranslatedAttribute.attribute t)) eqn:Hen;
      simpl; [|auto].
    destruct (reserveSpaceForAttrib_returns (TranslatedAttribute.attribute t)
                (gl.getVertexAttribCurrentValue state k) count instances w0
                (Hlive w0 Hs)) as [e He].
    { apply Hnz; [exact (Hin k t ltac:(lia) Ht Hact)|exact Hen]. }
    { intros b bd0 Hi Hnone. apply getImpl_inv in Hi as (Hb & Hl).
      pose proof (shape_lookup w w0 b Hs) as Hsame. rewrite Hl in Hsame.
      destruct (buffers w !! b) as [bd|] eqn:Hlw; [|contradiction].
      destruct Hsame as (Hsize & Hst). rewrite Hsize.
      pose proof (Hin k t ltac:(lia) Ht Hact) as Hina.
      destruct (Hcount _ b bd Hina Hen) as (Hr1 & Hr2 & Hr3 & Hr4 & Hr5);
        [apply getImpl_inv; auto|tauto|].
      rewrite ElementsInBuffer_exact; try assumption.
      apply (Hstride _ Hina Hen). congruence. }
    pose proof (reserveSpaceForAttrib_shape
                  (TranslatedAttribute.attribute t)
                  (gl.getVertexAttribCurrentValue state k) count instances
                  w0) as Hsh.
    destruct (reserveSpaceForAttrib _ _ _ _ _) as [r w']. simpl in *.
    subst r. destruct (gl.isError e); [eauto|]. simpl.
    split; [reflexivity|congruence]. }
  destruct (reservePass state count instances (tr1, w1)) as [[tr2 w2]|r2 s2].
  2:{ destruct (Hres Hrbody) as [e ->]. simpl. eauto. }
  destruct (Hres Hrbody) as (Htr2 & Hsh2). simpl in Htr2, Hsh2. subst tr2.
  (* the store loop *)
  pose proof (forEach_seq_inv (storeBody state start count instances)
    (fun _ s => agree tr1 s.1 /\ shape s.2 = shape w)
    (fun r _ => exists e, r = Return e)
    MAX_VERTEX_ATTRIBS 0 (tr1, w2) (conj (agree_refl tr1) Hsh2)) as Hst.
  fold (storePass state start count instances (tr1, w2)) in Hst.
  assert (Hbody : forall k s, (0 <= k < 0 + MAX_VERTEX_ATTRIBS)%nat ->
    agree tr1 s.1 /\ shape s.2 = shape w ->
    match storeBody state start count instances k s with
    | Next s' => agree tr1 s'.1 /\ shape s'.2 = shape w
    | Exit r _ => exists e, r = Return e
    end).
  { intros k [tr w0] Hk (Hag & Hs). simpl in *. unfold storeBody.
    destruct Hag as (Hlen & Hag').
    destruct (lookup_lt_is_Some_2 tr k ltac:(lia)) as [t0 Ht0].
    destruct (lookup_lt_is_Some_2 tr1 k ltac:(lia)) as [t1 Ht1].
    destruct (Hag' k t1 t0 Ht1 Ht0) as (Ha1 & Hb1 & _).
    rewrite Ht0.
    destruct (TranslatedAttribute.active t0) eqn:Hact;
      [|split; [split; assumption|assumption]].
    assert (Hina : In (TranslatedAttribute.attribute t0)
                     (gl.getVertexAttributes state)).
    { rewrite Hb1. apply (Hin k t1); [lia|exact Ht1|congruence]. }
    destruct (gl.enabled (TranslatedAttribute.attribute t0)) eqn:Hen.
    - destruct (storeAttribute_returns (gl.getVertexAttribCurrentValue state k)
                  t0 start count instances w0 (Hlive w0 Hs)
                  (Hsrc _ Hina Hen)) as [e He].
      { intros vb Hd. eapply Hdirect; eauto. }
      { intros b Hb. pose proof (shape_lookup w w0 b Hs) as Hsame.
        destruct (Hheap _ b Hina Hen Hb) as [bd Hl]. rewrite Hl in Hsame.
        destruct (buffers w0 !! b); [eauto|contradiction]. }
      { apply Hnz; assumption. }
      pose proof (storeAttribute_shape (gl.getVertexAttribCurrentValue state k)
                    t0 start count instances w0) as Hsh.
      destruct (storeAttribute _ t0 start count instances w0) as [[r t'] w']
        eqn:Hrun.
      apply storeAttribute_keeps in Hrun as (Hk1 & Hk2 & _ & _).
      simpl in *. subst r. destruct (gl.isError e); [eauto|]. simpl.
      split; [|congruence].
      eapply agree_insert; eauto. split; assumption.
    - destruct (lookup_lt_is_Some_2 (mCurrentValueCache w0) k) as [cached Hc].
      { rewrite (shape_slots w w0 Hs). lia. }
      rewrite Hc.
      match goal with
      | |- context [storeCurrentValue ?cv t0 k ?w1] => set (w0' := w1)
      end.
      assert (Hw0' : shape w0' = shape w0
                /\ exists cs, mCurrentValueCache w0' !! k = Some cs
                              /\ is_Some (CurrentValueState.buffer cs)).
      { subst w0'. destruct (CurrentValueState.buffer cached) eqn:Hbuf.
        - split; [reflexivity|]. exists cached. rewrite Hbuf. eauto.
        - split; [apply shape_setCurrentValue|]. eexists. simpl.
          rewrite list_lookup_insert_eq by (eapply lookup_lt_Some; eauto).
          split; [reflexivity|]. simpl. eauto. }
      destruct Hw0' as (Hsh0 & cs & Hcs & Hbuf).
      destruct (storeCurrentValue_returns
                  (gl.getVertexAttribCurrentValue state k) t0 k w0' cs Hcs
                  Hbuf) as [e He].
      pose proof (storeCurrentValue_shape
                    (gl.getVertexAttribCurrentValue state k) t0 k w0') as Hsh.
      destruct (storeCurrentValue _ t0 k w0') as [[r t'] w'] eqn:Hrun.
      apply storeCurrentValue_keeps in Hrun as (Hk1 & Hk2 & _).
      simpl in *. subst r. destruct (gl.isError e); [eauto|]. simpl.
      split; [|congruence].
      eapply agree_insert; eauto. split; assumption. }
  destruct (storePass state start count instances (tr1, w2))
    as [[tr3 w3]|r3 s3].
  2:{ destruct (Hst Hbody) as [e ->]. simpl. eauto. }
  destruct (Hst Hbody) as ((Hlen3 & _) & _). simpl in Hlen3.
  destruct (promotePass_next state count
              (tr3, hintUnmapAllResources (gl.getVertexAttributes state) w3)
              ltac:(lia) ltac:(simpl; lia)) as [s4 Hp].
  rewrite Hp. simpl. eauto.
Qed.

(** *** The failures of a draw *)

Section Failures.

(** The buffer primitives fail with [GL_OUT_OF_MEMORY] only. *)
Hypothesis getSpaceRequired_fails :
  forall vb a n i,
    gl.isError (getSpaceRequired vb a n i).1 = true ->
    (getSpaceRequired vb a n i).1 = gl.MkError gl.GL_OUT_OF_MEMORY.
Hypothesis reserveVertexSpace_fails :
  forall vb a n i,
    gl.isError (reserveVertexSpace vb a n i).1 = true ->
    (reserveVertexSpace vb a n i).1 = gl.MkError gl.GL_OUT_OF_MEMORY.
Hypothesis storeVertexAttributes_fails :
  forall vb a v s n i,
    gl.isError (storeVertexAttributes vb a v s n i).1.1 = true ->
    (storeVertexAttributes vb a v s n i).1.1 = gl.MkError gl.GL_OUT_OF_MEMORY.

Ltac use_fails :=
  repeat match goal with
  | Hq : getSpaceRequired ?vb ?a ?n ?i = (?e, _), He : gl.isError ?e = true
    |- _ =>
      let X := fresh in
      pose proof (getSpaceRequired_fails vb a n i) as X;
      rewrite Hq in X; simpl in X; specialize (X He); clear Hq
  | Hq : reserveVertexSpace ?vb ?a ?n ?i = (?e, _), He : gl.isError ?e = true
    |- _ =>
      let X := fresh in
      pose proof (reserveVertexSpace_fails vb a n i) as X;
      rewrite Hq in X; simpl in X; specialize (X He); clear Hq
  | Hq : storeVertexAttributes ?vb ?a ?v ?s ?n ?i = (?e, _, _),
    He : gl.isError ?e = true |- _ =>
      let X := fresh in
      pose proof (storeVertexAttributes_fails vb a v s n i) as X;
      rewrite Hq in X; simpl in X; specialize (X He); clear Hq
  end.

Lemma reserveSpaceForAttrib_fails (attrib : gl.VertexAttribute)
    (currentValue : gl.VertexAttribCurrentValueData) (count instances : Z)
    (w : World VB) (e : gl.Error) :
  (reserveSpaceForAttrib attrib currentValue count instances w).1 = Return e ->
  gl.isError e = true -> e = gl.MkError gl.GL_OUT_OF_MEMORY.
Proof.
  unfold reserveSpaceForAttrib. intros Hr He.
  crunch; use_fails; congruence.
Qed.

Lemma storeAttribute_fails (currentValue : gl.VertexAttribCurrentValueData)
    (t : TranslatedAttribute.t) (start count instances : Z) (w : World VB)
    (e : gl.Error) :
  (storeAttribute currentValue t start count instances w).1.1 = Return e ->
  gl.isError e = true -> e = gl.MkError gl.GL_OUT_OF_MEMORY.
Proof.
  unfold storeAttribute, static_storeVertexAttributes. intros Hr He.
  crunch; use_fails; congruence.
Qed.

Lemma storeCurrentValue_fails (currentValue : gl.VertexAttribCurrentValueData)
    (t : TranslatedAttribute.t) (i : nat) (w : World VB) (e : gl.Error) :
  (storeCurrentValue currentValue t i w).1.1 = Return e ->
  gl.isError e = true -> e = gl.MkError gl.GL_OUT_OF_MEMORY.
Proof.
  unfold storeCurrentValue. intros Hr He.
  crunch; use_fails; congruence.
Qed.

(** X7: when the buffer primitives fail with [GL_OUT_OF_MEMORY] only, so
    does [prepareVertexData]: what it returns is [GL_NO_ERROR] or
    [GL_OUT_OF_MEMORY]. *)
Theorem prepareVertexData_fails (state : gl.State) (start count : Z)
    (translated : list TranslatedAttribute.t) (instances : Z) (w : World VB)
    (e : gl.Error) :
  (prepareVertexData state start count translated instances w).1 = Return e ->
  e = gl.MkError gl.GL_NO_ERROR \/ e = gl.MkError gl.GL_OUT_OF_MEMORY.
Proof.
  unfold prepareVertexData. intros Hrun.
  destruct (mStreamingBuffer w); [|simpl in Hrun; right; congruence].
  pose proof (invalidatePass_records state translated w) as Hinv.
  destruct (invalidatePass state (translated, w)) as [s1|r1 s1];
    [|simpl in Hrun; congruence].
  pose proof (forEach_seq_inv (reserveBody state count instances)
    (fun _ _ => True)
    (fun r _ => forall e, r = Return e -> e = gl.MkError gl.GL_OUT_OF_MEMORY)
    MAX_VERTEX_ATTRIBS 0 s1 I) as Hres.
  fold (reservePass state count instances s1) in Hres.
  destruct (reservePass state count instances s1) as [s2|r2 s2].
  2:{ right. apply Hres; [|exact Hrun].
      intros k [tr w0] _ _. unfold reserveBody.
      destruct (tr !! k) as [t|]; [|intros; discriminate].
      destruct (_ && _); [|exact I].
      pose proof (reserveSpaceForAttrib_fails (TranslatedAttribute.attribute t)
                    (gl.getVertexAttribCurrentValue state k) count instances
                    w0) as Hf.
      destruct (reserveSpaceForAttrib _ _ _ _ _) as [[e1|f] w1];
        [|intros; discriminate].
      destruct (gl.isError e1) eqn:He1; [|exact I].
      intros e0 [= <-]. apply Hf; auto. }
  pose proof (forEach_seq_inv (storeBody state start count instances)
    (fun _ _ => True)
    (fun r _ => forall e, r = Return e -> e = gl.MkError gl.GL_OUT_OF_MEMORY)
    MAX_VERTEX_ATTRIBS 0 s2 I) as Hst.
  fold (storePass state start count instances s2) in Hst.
  destruct (storePass state start count instances s2) as [[tr3 w3]|r3 s3].
  2:{ right. apply Hst; [|exact Hrun].
      intros k [tr w0] _ _. unfold storeBody.
      destruct (tr !! k) as [t0|]; [|intros; discriminate].
      destruct (TranslatedAttribute.active t0); [|exact I].
      destruct (gl.enabled (TranslatedAttribute.attribute t0)).
      - pose proof (storeAttribute_fails
                      (gl.getVertexAttribCurrentValue state k) t0 start count
                      instances w0) as Hf.
        destruct (storeAttribute _ t0 start count instances w0)
          as [[[e1|f] t'] w']; [|intros; discriminate].
        destruct (gl.isError e1) eqn:He1; [|exact I].
        intros e0 [= <-]. apply Hf; auto.
      - destruct (mCurrentValueCache w0 !! k) as [cached|];
          [|intros; discriminate].
        match goal with
        | |- context [storeCurrentValue ?cv t0 k ?w1] =>
            pose proof (storeCurrentValue_fails cv t0 k w1) as Hf;
            destruct (storeCurrentValue cv t0 k w1) as [[[e1|f] t'] w']
        end; [|intros; discriminate].
        destruct (gl.isError e1) eqn:He1; [|exact I].
        intros e0 [= <-]. apply Hf; auto. }
  pose proof (promotePass_exits state count
    (tr3, hintUnmapAllResources (gl.getVertexAttributes state) w3)) as Hex.
  destruct (promotePass _ _ _) as [s4|r4 s4]; simpl in Hrun.
  - left. congruence.
  - congruence.
Qed.

End Failures.

(** *** The usage promotions of a successful draw *)

Lemma promotePass_promotes (state : gl.State) (count : Z)
    (tr : list TranslatedAttribute.t) (w : World VB) :
  match promotePass state count (tr, w) with
  | Next s' =>
      forall j a t b, (j < MAX_VERTEX_ATTRIBS)%nat ->
        gl.getVertexAttributes state !! j = Some a -> tr !! j = Some t ->
        TranslatedAttribute.active t = true -> gl.enabled a = true ->
        gl.buffer a = Some b -> is_Some (buffers w !! b) ->
        In (Promote b (i32 (count * ComputeVertexAttributeTypeSize a)))
          (calls s'.2)
  | Exit _ _ => True
  end.
Proof.
  unfold promotePass.
  pose proof (forEach_seq_inv (promoteBody state count)
           (fun k s' =>
              s'.1 = tr
              /\ (forall b, is_Some (buffers w !! b) ->
                    is_Some (buffers s'.2 !! b))
              /\ forall j a t b, (j < k)%nat ->
                   gl.getVertexAttributes state !! j = Some a ->
                   tr !! j = Some t ->
                   TranslatedAttribute.active t = true ->
                   gl.enabled a = true ->
                   gl.buffer a = Some b -> is_Some (buffers w !! b) ->
                   In (Promote b (i32 (count * ComputeVertexAttributeTypeSize a)))
                     (calls s'.2))
           (fun _ _ => True) MAX_VERTEX_ATTRIBS 0 (tr, w)) as Hloop.
  simpl in Hloop.
  assert (Hgoal : match forEach (promoteBody state count)
                          (seq 0 MAX_VERTEX_ATTRIBS) (tr, w) with
                  | Next s' =>
                      s'.1 = tr
                      /\ (forall b, is_Some (buffers w !! b) ->
                            is_Some (buffers s'.2 !! b))
                      /\ forall j a t b, (j < MAX_VERTEX_ATTRIBS)%nat ->
                           gl.getVertexAttributes state !! j = Some a ->
                           tr !! j = Some t ->
                           TranslatedAttribute.active t = true ->
                           gl.enabled a = true ->
                           gl.buffer a = Some b -> is_Some (buffers w !! b) ->
                           In (Promote b
                                 (i32 (count * ComputeVertexAttributeTypeSize a)))
                             (calls s'.2)
                  | Exit _ _ => True
                  end);
    [|destruct (forEach _ _ _); [apply Hgoal|exact I]].
  apply Hloop.
  { split; [reflexivity|]. split; [auto|]. intros; lia. }
  intros k [tr0 w0] Hk (Htr & Hdom & Hdone). simpl in *. subst tr0.
  unfold promoteBody.
  destruct (gl.getVertexAttributes state !! k) as [curAttrib|] eqn:Hak;
    [|exact I].
  destruct (tr !! k) as [tk|] eqn:Htk; [|exact I].
  destruct (TranslatedAttribute.active tk && gl.enabled curAttrib) eqn:Hcond.
  - apply andb_true_iff in Hcond as (Hact & Hen).
    destruct (getImpl w0 curAttrib) as [[b0 bufferImpl]|] eqn:Hi; simpl.
    + apply getImpl_inv in Hi as (Hb0 & Hl0).
      split; [reflexivity|]. split.
      * intros b Hb. apply lookup_insert_is_Some.
        destruct (decide (b0 = b)); auto.
      * intros j a t b Hj Ha Ht Hac Hena Hb Hlive.
        apply in_or_app.
        destruct (decide (j = k)) as [->|Hne].
        -- right. left. simplify_eq. reflexivity.
        -- left. apply (Hdone j a t b); auto. lia.
    + split; [reflexivity|]. split; [exact Hdom|].
      intros j a t b Hj Ha Ht Hac Hena Hb Hlive.
      destruct (decide (j = k)) as [->|Hne];
        [|apply (Hdone j a t b); auto; lia].
      exfalso. simplify_eq. destruct (Hdom b Hlive) as [bd Hbd].
      unfold getImpl in Hi. rewrite Hb in Hi. simpl in Hi.
      rewrite Hbd in Hi. discriminate.
  - simpl. split; [reflexivity|]. split; [exact Hdom|].
    intros j a t b Hj Ha Ht Hac Hena Hb Hlive.
    destruct (decide (j = k)) as [->|Hne];
      [|apply (Hdone j a t b); auto; lia].
    simplify_eq. rewrite Hac, Hena in Hcond. discriminate.
Qed.

(** X8: after a successful [prepareVertexData], the server buffer of every
    active, enabled attribute has had its usage promoted, by the bytes of
    [count] elements of the attribute. *)
Theorem prepareVertexData_promotes (state : gl.State) (start count : Z)
    (translated translated' : list TranslatedAttribute.t) (instances : Z)
    (w w' : World VB) (i : nat) (a : gl.VertexAttribute)
    (t : TranslatedAttribute.t) (b : nat) :
  prepareVertexData state start count translated instances w
  = (Return (gl.MkError gl.GL_NO_ERROR), (translated', w')) ->
  (i < MAX_VERTEX_ATTRIBS)%nat ->
  gl.getVertexAttributes state !! i = Some a ->
  translated' !! i = Some t ->
  TranslatedAttribute.active t = true -> gl.enabled a = true ->
  gl.buffer a = Some b -> is_Some (buffers w !! b) ->
  In (Promote b (i32 (count * ComputeVertexAttributeTypeSize a))) (calls w').
Proof.
  intros Hrun Hi Ha Ht Hact Hen Hb Hlive. unfold prepareVertexData in Hrun.
  destruct (mStreamingBuffer w) as [vb0|] eqn:Hvb; [|discriminate].
  pose proof (invalidatePass_records state translated w) as Hinv.
  pose proof (invalidatePass_shape state (translated, w)) as Hs1.
  destruct (invalidatePass state (translated, w)) as [s1|r1 s1];
    [|congruence].
  pose proof (reservePass_exits state count instances s1) as Hres.
  pose proof (reservePass_shape state count instances s1) as Hs2.
  destruct (reservePass state count instances s1) as [s2|r2 s2].
  2:{ injection Hrun as -> _. destruct Hres as [_ Hres].
      discriminate (Hres _ eq_refl). }
  pose proof (storePass_disabled state start count instances s2.1 s2.2) as Hd.
  pose proof (storePass_shape state start count instances s2) as Hs3.
  destruct s2 as [tr2 w2]. simpl in Hd.
  destruct (storePass state start count instances (tr2, w2))
    as [[tr3 w3]|r3 s3].
  2:{ injection Hrun as -> _. discriminate (Hd _ eq_refl). }
  simpl in Hs1, Hs2, Hs3.
  pose proof (promotePass_exits state count
    (tr3, hintUnmapAllResources (gl.getVertexAttributes state) w3)) as Hex.
  pose proof (promotePass_frame state count tr3
    (hintUnmapAllResources (gl.getVertexAttributes state) w3))
    as (Htr & _ & _).
  pose proof (promotePass_promotes state count tr3
    (hintUnmapAllResources (gl.getVertexAttributes state) w3)) as Hp.
  destruct (promotePass _ _ _) as [s4|r4 s4]; [|congruence].
  injection Hrun as ->. simpl in Htr, Hp. subst tr3.
  apply (Hp i a t b Hi Ha Ht Hact Hen Hb).
  assert (Hshape : shape (hintUnmapAllResources (gl.getVertexAttributes state)
                            w3) = shape w).
  { rewrite hintUnmapAllResources_shape. congruence. }
  pose proof (shape_lookup w _ b Hshape) as Hsame.
  destruct Hlive as [bd Hbd]. rewrite Hbd in Hsame. revert Hsame.
  destruct (buffers (hintUnmapAllResources _ w3) !! b); [eauto|intros []].
Qed.

End Shapes.

(** ** The further properties on a concrete back end *)

(** A draw from client memory by a program that consumes the slots 0
    and 1: the records of those two slots are active, the others are
    not. *)
Lemma prepareVertexData_flags_witness :
  let state := Linear.state [Linear.client] 2 Linear.zero in
  let run :=
    prepareVertexData state 0 3 (replicate 16 Linear.blank) 0
      (Linear.manager ∅) in
  run.1 = Return (gl.MkError gl.GL_NO_ERROR)
  /\ length run.2.1 = 16%nat
  /\ forall i t0 t, (i < 16)%nat ->
       replicate 16 Linear.blank !! i = Some t0 -> run.2.1 !! i = Some t ->
       (TranslatedAttribute.active t = true
        <-> gl.getSemanticIndex state i <> -1)
       /\ (TranslatedAttribute.active t = true ->
           gl.getVertexAttributes state !! i
           = Some (TranslatedAttribute.attribute t))
       /\ (TranslatedAttribute.active t = false -> t = setActive false t0).
Proof.
  intros state run. split; [vm_compute; reflexivity|].
  exact (@prepareVertexData_flags Linear.Buffer Linear.backEnd
           Linear.frontEnd state 0 3 (replicate 16 Linear.blank) run.2.1 0
           (Linear.manager ∅) run.2.2 (gl.MkError gl.GL_NO_ERROR)
           ltac:(vm_compute; eauto) ltac:(vm_compute; reflexivity)).
Defined.

(** The same draw: the record of the enabled slot 0 refers to the
    streaming buffer and has the type of the current value. *)
Lemma prepareVertexData_enabled_record_witness :
  let state := Linear.state [Linear.client] 2 Linear.zero in
  let run :=
    prepareVertexData state 0 3 (replicate 16 Linear.blank) 0
      (Linear.manager ∅) in
  exists t,
    run.2.1 !! 0%nat = Some t
    /\ TranslatedAttribute.active t = true
    /\ gl.enabled (TranslatedAttribute.attribute t) = true
    /\ enabledRecord Linear.zero t.
Proof.
  intros state run.
  exists (default Linear.blank (run.2.1 !! 0%nat)).
  split; [vm_compute; reflexivity|]. split; [vm_compute; reflexivity|].
  split; [vm_compute; reflexivity|].
  exact (@prepareVertexData_enabled_record Linear.Buffer Linear.backEnd
           Linear.frontEnd state 0 3 (replicate 16 Linear.blank) run.2.1 0
           (Linear.manager ∅) run.2.2 0%nat
           (default Linear.blank (run.2.1 !! 0%nat))
           ltac:(vm_compute; reflexivity) ltac:(vm_compute; lia)
           ltac:(vm_compute; reflexivity) ltac:(vm_compute; reflexivity)
           ltac:(vm_compute; reflexivity)).
Defined.

(** The constant 0, 0, 0, 1 for a slot whose buffer is full: the
    reservation succeeds, the store fails, and the slot still caches its
    four NaNs at offset 0. *)
Lemma storeCurrentValue_failure_witness :
  let run := storeCurrentValue Linear.zero Linear.blank 0 Linear.full in
  run.1.1 = Return (gl.MkError gl.GL_OUT_OF_MEMORY)
  /\ run.1.2 = Linear.blank
  /\ exists cs',
       mCurrentValueCache run.2 !! 0%nat = Some cs'
       /\ CurrentValueState.data cs' = Linear.nan
       /\ CurrentValueState.offset cs' = 0.
Proof.
  intros run.
  destruct (@storeCurrentValue_failure Linear.Buffer Linear.backEnd
              Linear.zero Linear.blank run.1.2 0%nat Linear.full run.2
              (gl.MkError gl.GL_OUT_OF_MEMORY)
              (CurrentValueState.Mk (Some (Linear.Mk 16 0 16 1 false))
                 Linear.nan 0)
              ltac:(reflexivity) ltac:(vm_compute; reflexivity)
              ltac:(reflexivity))
    as (Ht & _ & (cs' & Hcs & Hdata & Hoff & _) & _).
  split; [vm_compute; reflexivity|]. split; [exact Ht|].
  exists cs'. auto.
Defined.

(** The bytes at element [2^27] of a buffer whose cache holds their
    conversion at offset 0: no call, and the record is at byte [2^31] of
    the cache. *)
Lemma storeAttribute_cached_witness :
  let w := Linear.manager Linear.converted in
  exists t',
    storeAttribute Linear.zero (Linear.recorded Linear.bytes) 0 3 0 w
    = (Return (gl.MkError gl.GL_NO_ERROR), t', w)
    /\ TranslatedAttribute.offset t' = 2 ^ 31
    /\ TranslatedAttribute.vertexBuffer t' = Some (StaticRef 0).
Proof.
  intros w.
  destruct (@storeAttribute_cached Linear.Buffer Linear.backEnd
              Linear.frontEnd Linear.zero (Linear.recorded Linear.bytes)
              0 3 0 w 0%nat
              (MkBufferD3D 262144 7
                 (Some (MkStatic (Linear.Mk 1048576 0 1048576 3 false)
                          [MkVertexElement 5121 4 4 false 0 0]))
                 0)
              (MkStatic (Linear.Mk 1048576 0 1048576 3 false)
                 [MkVertexElement 5121 4 4 false 0 0])
              (gl.MkError gl.GL_NO_ERROR) 16 0
              ltac:(vm_compute; reflexivity) ltac:(reflexivity)
              ltac:(reflexivity) ltac:(reflexivity)
              ltac:(vm_compute; reflexivity) ltac:(lia) ltac:(lia)
              ltac:(vm_compute; split; [discriminate|reflexivity])
              ltac:(vm_compute; split; reflexivity)
              ltac:(lia) ltac:(lia) ltac:(vm_compute; discriminate)
              ltac:(vm_compute; reflexivity))
    as (first & Hfirst & _ & Hok).
  assert (Hstart : first = 0).
  { destruct Hfirst as [(Hi & _)|(_ & ->)]; [lia|reflexivity]. }
  subst first.
  destruct (Hok ltac:(vm_compute; reflexivity))
    as (t' & Hrun & Hoff & _ & _ & Hvb & _).
  exists t'. split; [exact Hrun|]. split; [exact Hoff|exact Hvb].
Defined.

(** Three elements from client memory: the reservation and the store
    that follows it are both for three elements of the streaming
    buffer. *)
Lemma storeAttribute_stores_reserved_witness :
  let w := Linear.manager ∅ in
  let w' :=
    (reserveSpaceForAttrib Linear.client Linear.zero 3 0 w).2 in
  calls w' = [Reserve StreamingRef Linear.client 3 0]
  /\ calls (storeAttribute Linear.zero (Linear.recorded Linear.client)
              0 3 0 w').2
     = calls w' ++ [Store StreamingRef Linear.client Linear.zero 0 3 0]
  /\ StreamingRef = StreamingRef /\ Linear.client = Linear.client
  /\ 3 = 3 /\ 0 = 0.
Proof.
  intros w w'. split; [reflexivity|]. split; [reflexivity|].
  exact (@storeAttribute_stores_reserved Linear.Buffer Linear.backEnd
           Linear.frontEnd Linear.zero Linear.zero
           (Linear.recorded Linear.client) 0 3 0 w' w'
           StreamingRef StreamingRef Linear.client Linear.client
           3 0 0 3 0
           ltac:(reflexivity) ltac:(reflexivity) ltac:(reflexivity)).
Defined.

(** A draw of three elements of four bytes out of a server buffer of
    40 bytes that has no persistent cache: the buffer holds ten such
    elements, they are streamed and the draw returns. *)
Lemma prepareVertexData_returns_witness :
  let state := Linear.state [Linear.packed] 1 Linear.zero in
  exists e,
    (prepareVertexData state 0 3 (replicate 16 Linear.blank) 0
       (Linear.manager Linear.plain)).1
    = Return e.
Proof.
  intros state.
  apply (@prepareVertexData_returns Linear.Buffer Linear.backEnd
           Linear.frontEnd state 0 3 (replicate 16 Linear.blank) 0
           (Linear.manager Linear.plain)).
  - vm_compute. eauto.
  - vm_compute. reflexivity.
  - vm_compute. lia.
  - vm_compute. lia.
  - intros a Hin Hen. vm_compute in Hin.
    repeat (destruct Hin as [<-|Hin];
            [first [discriminate Hen|left; discriminate]|]).
    destruct Hin.
  - intros a b Hin Hen Hb. vm_compute in Hin.
    repeat (destruct Hin as [<-|Hin];
            [first [discriminate Hen
                   |injection Hb as <-; vm_compute; eauto]|]).
    destruct Hin.
  - intros vb a cv Hd. simpl in Hd. unfold Linear.directStoragePossible in Hd.
    apply andb_true_iff in Hd as (Hd & _).
    apply bool_decide_eq_true in Hd. exact Hd.
  - intros a Hin Hen Hb. vm_compute in Hin.
    repeat (destruct Hin as [<-|Hin];
            [first [discriminate Hen|vm_compute; split; reflexivity]|]).
    destruct Hin.
  - intros a b bd Hin Hen Himpl _. vm_compute in Hin.
    repeat (destruct Hin as [<-|Hin];
            [first [discriminate Hen
                   |vm_compute in Himpl; injection Himpl as <- <-;
                    vm_compute; repeat split; discriminate]|]).
    destruct Hin.
Defined.

(** The linear back end fails with [GL_OUT_OF_MEMORY] only, and a draw
    of 100000 elements from client memory, which its streaming buffer
    cannot hold, returns that error. *)
Lemma prepareVertexData_fails_witness :
  let state := Linear.state [Linear.client] 1 Linear.zero in
  let run :=
    prepareVertexData state 0 100000 (replicate 16 Linear.blank) 0
      (Linear.manager ∅) in
  exists e,
    run.1 = Return e
    /\ (e = gl.MkError gl.GL_NO_ERROR \/ e = gl.MkError gl.GL_OUT_OF_MEMORY).
Proof.
  intros state run. exists (gl.MkError gl.GL_OUT_OF_MEMORY).
  split; [vm_compute; reflexivity|].
  apply (@prepareVertexData_fails Linear.Buffer Linear.backEnd
           Linear.frontEnd) with (state := state) (start := 0)
           (count := 100000) (translated := replicate 16 Linear.blank)
           (instances := 0) (w := Linear.manager ∅).
  - intros vb a n i. simpl. unfold Linear.getSpaceRequired.
    destruct (16 * n <? 2 ^ 32); simpl; [discriminate|reflexivity].
  - intros vb a n i. simpl.
    unfold Linear.reserveVertexSpace, Linear.getSpaceRequired.
    destruct (16 * n <? 2 ^ 32); simpl; [|reflexivity].
    destruct (_ <? _); simpl; [discriminate|reflexivity].
  - intros vb a v s n i. simpl.
    unfold Linear.storeVertexAttributes, Linear.getSpaceRequired.
    destruct (16 * n <? 2 ^ 32); simpl; [|reflexivity].
    destruct (_ <=? _); simpl; [discriminate|reflexivity].
  - vm_compute. reflexivity.
Defined.

(** A draw of three elements of four floats used in place in the server
    buffer 0: the usage of that buffer is promoted by 48 bytes. *)
Lemma prepareVertexData_promotes_witness :
  let state := Linear.state [Linear.floats] 1 Linear.zero in
  let run :=
    prepareVertexData state 0 3 (replicate 16 Linear.blank) 0
      (Linear.manager Linear.unconverted) in
  run.1 = Return (gl.MkError gl.GL_NO_ERROR)
  /\ In (Promote 0 48) (calls run.2.2).
Proof.
  intros state run. split; [vm_compute; reflexivity|].
  exact (@prepareVertexData_promotes Linear.Buffer Linear.backEnd
           Linear.frontEnd state 0 3 (replicate 16 Linear.blank) run.2.1 0
           (Linear.manager Linear.unconverted) run.2.2 0%nat Linear.floats
           (default Linear.blank (run.2.1 !! 0%nat)) 0%nat
           ltac:(vm_compute; reflexivity) ltac:(vm_compute; lia)
           ltac:(reflexivity) ltac:(vm_compute; reflexivity)
           ltac:(reflexivity) ltac:(reflexivity) ltac:(reflexivity)
           ltac:(vm_compute; eauto)).
Defined.
